(** * FreshGroup backend: clustering and re-clustering subsystem

    A shallow embedding of the routes of [backend/routes] that ingest a
    sheet of student records, encode and filter it, cluster the complete
    records and keep the stored cluster run of a dataset in step with it:

    - [datasets.py]: [normalize_and_prepare_df] from the headers of the
      sheet on, [compute_wcss_for_range], [recommend_k_by_curvature],
      [elbow_preview], [upload_dataset] with its local helpers [safe_text]
      and [safe_num], [activate_dataset];
    - [clusters.py]: [encode_categorical_safe], [recluster];
    - [cluster_playground.py]: [cluster_playground];
    - [students.py]: [update_student];
    - [users.py]: [log_activity].

    Python values are an inductive type, rows are records, the relational
    store is a record of tables (lists of rows) with its auto-increment
    counters, and a request handler is a function from the world to a
    result and a world.  What the routes import from scikit-learn, kneed,
    pandas' number parsing and the two utility modules that are not part of
    the sources at hand is gathered in the class [Collaborators]. *)

From Stdlib Require Import ZArith QArith List String Ascii Bool Lia.
Import ListNotations.

Local Open Scope string_scope.
Local Open Scope list_scope.
Local Open Scope Z_scope.

(** ** Python values and strings *)

(** A cell of a data frame or of a fetched row: [None], a float NaN, a
    string or a number. *)
Inductive value : Type :=
| VNone
| VNaN
| VStr (s : string)
| VNum (q : Q).

(** [pd.isna(val)] *)
Definition isna (v : value) : bool :=
  match v with
  | VNone | VNaN => true
  | _ => false
  end.

(** A character of the model stands for a code point below 256.  The
    ones removed by [str.strip()] are those Python counts as whitespace:
    space, the controls from tab to carriage return, the four separators
    28 to 31, next-line (133) and the no-break space (160). *)
Definition is_space (c : ascii) : bool :=
  let n := nat_of_ascii c in
  (Nat.eqb n 32 || (Nat.leb 9 n && Nat.leb n 13)
   || (Nat.leb 28 n && Nat.leb n 31)
   || Nat.eqb n 133 || Nat.eqb n 160)%bool.

Fixpoint lstrip_chars (l : list ascii) : list ascii :=
  match l with
  | [] => []
  | c :: r => if is_space c then lstrip_chars r else l
  end.

(** [s.strip()] *)
Definition strip (s : string) : string :=
  string_of_list_ascii
    (rev (lstrip_chars (rev (lstrip_chars (list_ascii_of_string s))))).

(** The upper-case letters below 256 are A to Z and the accented capitals
    192 to 222 without the multiplication sign 215; each has its lower
    case 32 places on. *)
Definition lower_char (c : ascii) : ascii :=
  let n := nat_of_ascii c in
  if ((Nat.leb 65 n && Nat.leb n 90)
      || (Nat.leb 192 n && Nat.leb n 222 && negb (Nat.eqb n 215)))%bool
  then ascii_of_nat (n + 32) else c.

(** [s.lower()] *)
Fixpoint lower (s : string) : string :=
  match s with
  | EmptyString => EmptyString
  | String c r => String (lower_char c) (lower r)
  end.

(** [s in l] for a list of strings. *)
Definition str_in (s : string) (l : list string) : bool :=
  existsb (String.eqb s) l.

(** [s.endswith(suffix)] *)
Definition endswith (s suffix : string) : bool :=
  let n := String.length s in
  let m := String.length suffix in
  (Nat.leb m n && String.eqb (substring (n - m) m s) suffix)%bool.

(** The sentinel spellings tested by [safe_text] and [safe_num]. *)
Definition sentinels : list string := ["n/a"; "na"; "none"].

(** ** Exceptions and results *)

Inductive exn : Type :=
| HTTPException (status_code : Z) (detail : string)
| PyError (name : string).

Inductive result (A : Type) : Type :=
| Ok (a : A)
| Raise (e : exn).
Arguments Ok {A} a.
Arguments Raise {A} e.

(** ** Rows *)

(** The nine required columns of a student record. *)
Record fields : Type := mkFields {
  firstname : value;
  lastname : value;
  sex : value;
  program : value;
  municipality : value;
  income : value;
  shs_type : value;
  shs_origin : value;
  gwa : value
}.

(** ** Collaborators

    Library calls and the helper modules that the routes import.  A
    [None] result stands for a raised exception. *)
Class Collaborators : Type := {
  (** [float(s)] on a string; [None] is [ValueError].  Also the parser
      behind [pd.to_numeric(..., errors="coerce")]. *)
  parse_float : string -> option Q;
  (** [str(x)] on a float. *)
  str_of_float : Q -> string;
  (** [utils.classify_honors], applied to the [gwa] of a record. *)
  classify_honors : value -> value;
  (** [utils.classify_income] *)
  classify_income : value -> value;
  (** [utils_complete.is_record_complete_row]; [filter_complete_students_df]
      keeps the rows it accepts. *)
  is_record_complete_row : fields -> bool;
  (** [LabelEncoder().fit_transform(column)] *)
  LabelEncoder_fit_transform : list string -> option (list Z);
  (** [StandardScaler().fit_transform(X)], then
      [KMeans(n_clusters=k, random_state=42, n_init=10).fit_predict], then
      [scaler.inverse_transform(kmeans.cluster_centers_).tolist()]:
      the labels and the centroids in the units of [X]. *)
  cluster_engine : list (list Q) -> Z -> option (list Z * list (list Q));
  (** [KMeans(n_clusters=k, random_state=42, n_init=10).fit(X).inertia_] *)
  kmeans_inertia : list (list Q) -> Z -> option Q;
  (** [silhouette_score], [davies_bouldin_score], [calinski_harabasz_score] *)
  quality_scores : list (list Q) -> list Z -> option (Q * Q * Q);
  (** [KneeLocator(xs, ys, curve="convex", direction="decreasing").knee];
      the outer [None] is an exception, the inner one "no knee". *)
  KneeLocator_knee : list Z -> list Q -> option (option Z)
}.

(** ** The persist helpers of [upload_dataset] *)

Section Helpers.
Context {C : Collaborators}.

(** [str(val)] *)
Definition str (v : value) : string :=
  match v with
  | VNone => "None"
  | VNaN => "nan"
  | VStr s => s
  | VNum q => str_of_float q
  end.

(** [float(val)] *)
Definition float (v : value) : option Q :=
  match v with
  | VNone => None
  | VNaN => None
  | VStr s => parse_float s
  | VNum q => Some q
  end.

(** The guard shared by [safe_text] and [safe_num]:
    [pd.isna(val) or str(val).strip() == "" or
     str(val).lower() in ["n/a", "na", "none"]]. *)
Definition is_missing (val : value) : bool :=
  (isna val
   || String.eqb (strip (str val)) ""
   || str_in (lower (str val)) sentinels)%bool.

Definition safe_text (val : value) : string :=
  if is_missing val then "Incomplete" else strip (str val).

Definition safe_num (val : value) : Q :=
  if is_missing val then (-1 # 1)%Q
  else match float val with
       | Some x => x
       | None => (-1 # 1)%Q
       end.

(** [pd.to_numeric(col, errors="coerce")] on one cell. *)
Definition to_numeric_coerce (v : value) : value :=
  match v with
  | VNone | VNaN => VNaN
  | VNum q => VNum q
  | VStr s => match parse_float s with
              | Some q => VNum q
              | None => VNaN
              end
  end.

End Helpers.

(** ** Series operations used by the encoders *)

Section Series.
Context {C : Collaborators}.

(** [series.astype(str)] on one cell: every cell becomes a string, a
    missing one the string "None" or "nan". *)
Definition astype_str (v : value) : value := VStr (str v).

(** [series.fillna(d)] on one cell. *)
Definition fillna (d : value) (v : value) : value :=
  if isna v then d else v.

(** [series.replace(old, new)] on one cell, for a string [old]. *)
Definition replace (old : string) (new : value) (v : value) : value :=
  match v with
  | VStr s => if String.eqb s old then new else v
  | _ => v
  end.

(** [series.unique()]: the distinct values in order of first appearance. *)
Fixpoint unique_from (seen : list string) (l : list string) : list string :=
  match l with
  | [] => []
  | x :: r =>
      if str_in x seen then unique_from seen r
      else x :: unique_from (x :: seen) r
  end.

Definition unique (l : list string) : list string := unique_from [] l.

(** [{v: i for i, v in enumerate(uniques)}[s]], [None] for a missing key
    (what [series.map(mapping)] turns into NaN). *)
Fixpoint index_of (s : string) (uniques : list string) : option Z :=
  match uniques with
  | [] => None
  | x :: r =>
      if String.eqb x s then Some 0
      else option_map Z.succ (index_of s r)
  end.

(** The [except] branch of both encoders. *)
Definition first_seen_codes (keys : list string) (col : list string)
  : list (option Z) :=
  let uniques := unique keys in
  map (fun s => index_of s uniques) col.

(** The [try] branch: [df[enc_col] = le.fit_transform(col)] raises when
    the encoder does, or when it hands back a column of another length. *)
Definition fit_transform_column (col : list string) : option (list (option Z)) :=
  match LabelEncoder_fit_transform col with
  | Some codes =>
      if Nat.eqb (List.length codes) (List.length col)
      then Some (map Some codes) else None
  | None => None
  end.

(** [clusters.encode_categorical_safe], the body of its loop for one
    column: [df[canonical].astype(str).fillna("Unknown")]. *)
Definition coerce_clusters (v : value) : value :=
  fillna (VStr "Unknown") (astype_str v).

Definition encode_column_safe (col : list value) : list (option Z) :=
  let coerced := map (fun v => str (coerce_clusters v)) col in
  match fit_transform_column coerced with
  | Some codes => codes
  | None => first_seen_codes coerced coerced
  end.

(** [datasets.normalize_and_prepare_df], the body of its loop for one
    column: [df[col].fillna("Unknown").replace("", "Unknown")], stored
    back into the column, then encoded as strings. *)
Definition coerce_datasets (v : value) : value :=
  replace "" (VStr "Unknown") (fillna (VStr "Unknown") v).

Definition prepare_column (col : list value) : list value * list (option Z) :=
  let filled := map coerce_datasets col in
  match fit_transform_column (map str filled) with
  | Some codes => (filled, codes)
  | None =>
      (filled,
       first_seen_codes (map str (map coerce_datasets filled)) (map str filled))
  end.

End Series.

(** sklearn's [LabelEncoder]: the classes are the sorted distinct values,
    the code of a value is its position among them. *)
Fixpoint insert_class (s : string) (classes : list string) : list string :=
  match classes with
  | [] => [s]
  | x :: r =>
      match String.compare s x with
      | Lt => s :: classes
      | Eq => classes
      | Gt => x :: insert_class s r
      end
  end.

Definition classes_ (col : list string) : list string :=
  fold_right insert_class [] col.

Fixpoint position (s : string) (classes : list string) : Z :=
  match classes with
  | [] => 0
  | x :: r => if String.eqb x s then 0 else 1 + position s r
  end.

Definition sklearn_fit_transform (col : list string) : option (list Z) :=
  Some (map (fun s => position s (classes_ col)) col).

(** What the routes rely on from [LabelEncoder]: equal values get equal
    codes and different values different codes. *)
Definition LabelEncoder_contract (le : list string -> option (list Z)) : Prop :=
  forall col codes,
    le col = Some codes ->
    exists code : string -> Z,
      codes = map code col /\
      forall a b, In a col -> In b col -> code a = code b -> a = b.

(** ** K-Selector *)

Section KSelector.
Context {C : Collaborators}.

(** [range(a, b)] *)
Definition range (a b : Z) : list Z :=
  map (fun i => a + Z.of_nat i) (seq 0 (Z.to_nat (b - a))).

Definition len {A : Type} (l : list A) : Z := Z.of_nat (List.length l).

(** The last line of [recommend_k_by_curvature]. *)
Definition fallback_k (wcss : list Q) : Z :=
  Z.max 2 (Z.min 5 (len wcss / 2)).

Definition recommend_k_by_curvature (wcss : list Q) (k_min : Z) : Z :=
  match KneeLocator_knee (range k_min (k_min + len wcss)) wcss with
  | Some (Some knee) => knee
  | Some None => fallback_k wcss
  | None => fallback_k wcss
  end.

End KSelector.

(** What the routes rely on from [KneeLocator]: a knee is one of the
    abscissas it was given. *)
Definition KneeLocator_contract
  (knee_of : list Z -> list Q -> option (option Z)) : Prop :=
  forall xs ys knee, knee_of xs ys = Some (Some knee) -> In knee xs.

(** ** The relational store *)

Record dataset : Type := mkDataset {
  ds_id : Z;
  ds_filename : string;
  ds_uploaded_by : Z;
  ds_upload_date : Z;
  ds_is_active : bool
}.

Record student : Type := mkStudent {
  st_id : Z;
  st_dataset_id : Z;
  st_info : fields;
  st_Honors : value;
  st_IncomeCategory : value
}.

(** A row of [clusters]: one cluster run.  [cl_k] is nullable. *)
Record cluster : Type := mkCluster {
  cl_id : Z;
  cl_dataset_id : Z;
  cl_k : option Z;
  cl_centroids : list (list Q)
}.

(** A row of [student_cluster]: one assignment. *)
Record assignment : Type := mkAssignment {
  sc_student_id : Z;
  sc_cluster_id : Z;
  sc_cluster_number : Z
}.

Record activity : Type := mkActivity {
  al_user_id : Z;
  al_action : string
}.

(** The tables and the auto-increment counters behind [cursor.lastrowid]. *)
Record store : Type := mkStore {
  datasets : list dataset;
  students : list student;
  clusters : list cluster;
  student_cluster : list assignment;
  activity_logs : list activity;
  next_dataset_id : Z;
  next_student_id : Z;
  next_cluster_id : Z
}.

Definition empty_store : store :=
  mkStore [] [] [] [] [] 1 1 1.

(** [SELECT id FROM datasets ORDER BY upload_date DESC LIMIT 1]; among
    rows of equal date the one met last in table order is returned. *)
Fixpoint latest_dataset (ds : list dataset) : option dataset :=
  match ds with
  | [] => None
  | d :: rest =>
      match latest_dataset rest with
      | None => Some d
      | Some m => if ds_upload_date m <? ds_upload_date d then Some d else Some m
      end
  end.

(** [SELECT * FROM students WHERE dataset_id = %s] *)
Definition select_students (c : store) (dataset_id : Z) : list student :=
  filter (fun s => st_dataset_id s =? dataset_id) (students c).

(** [SELECT * FROM students WHERE id = %s], [fetchone] *)
Definition select_student (c : store) (student_id : Z) : option student :=
  find (fun s => st_id s =? student_id) (students c).

(** [SELECT id FROM clusters WHERE dataset_id = %s] *)
Definition select_cluster_ids (c : store) (dataset_id : Z) : list Z :=
  map cl_id (filter (fun r => cl_dataset_id r =? dataset_id) (clusters c)).

(** [DELETE FROM student_cluster WHERE cluster_id = %s] *)
Definition delete_student_cluster (cluster_id : Z) (c : store) : store :=
  mkStore (datasets c) (students c) (clusters c)
    (filter (fun a => negb (sc_cluster_id a =? cluster_id)) (student_cluster c))
    (activity_logs c) (next_dataset_id c) (next_student_id c) (next_cluster_id c).

(** [DELETE FROM clusters WHERE dataset_id = %s] *)
Definition delete_clusters (dataset_id : Z) (c : store) : store :=
  mkStore (datasets c) (students c)
    (filter (fun r => negb (cl_dataset_id r =? dataset_id)) (clusters c))
    (student_cluster c)
    (activity_logs c) (next_dataset_id c) (next_student_id c) (next_cluster_id c).

(** [INSERT INTO clusters (dataset_id, k, centroids)], with [lastrowid]. *)
Definition insert_cluster (dataset_id : Z) (k : option Z)
  (centroids : list (list Q)) (c : store) : store * Z :=
  let id := next_cluster_id c in
  (mkStore (datasets c) (students c)
     (clusters c ++ [mkCluster id dataset_id k centroids])
     (student_cluster c)
     (activity_logs c) (next_dataset_id c) (next_student_id c) (id + 1),
   id).

(** [INSERT INTO student_cluster (student_id, cluster_id, cluster_number)] *)
Definition insert_student_cluster (student_id cluster_id cluster_number : Z)
  (c : store) : store :=
  mkStore (datasets c) (students c) (clusters c)
    (student_cluster c ++ [mkAssignment student_id cluster_id cluster_number])
    (activity_logs c) (next_dataset_id c) (next_student_id c) (next_cluster_id c).

(** [UPDATE datasets SET is_active = FALSE] *)
Definition deactivate_datasets (c : store) : store :=
  mkStore
    (map (fun d => mkDataset (ds_id d) (ds_filename d) (ds_uploaded_by d)
                     (ds_upload_date d) false) (datasets c))
    (students c) (clusters c) (student_cluster c)
    (activity_logs c) (next_dataset_id c) (next_student_id c) (next_cluster_id c).

(** [INSERT INTO datasets (filename, uploaded_by, upload_date, is_active)
     VALUES (%s, %s, %s, TRUE)], with [lastrowid]. *)
Definition insert_dataset (filename : string) (uploaded_by upload_date : Z)
  (c : store) : store * Z :=
  let id := next_dataset_id c in
  (mkStore (datasets c ++ [mkDataset id filename uploaded_by upload_date true])
     (students c) (clusters c) (student_cluster c)
     (activity_logs c) (id + 1) (next_student_id c) (next_cluster_id c),
   id).

(** [INSERT INTO students (...)], with [lastrowid]. *)
Definition insert_student (info : fields) (honors income_category : value)
  (dataset_id : Z) (c : store) : store * Z :=
  let id := next_student_id c in
  (mkStore (datasets c)
     (students c ++ [mkStudent id dataset_id info honors income_category])
     (clusters c) (student_cluster c)
     (activity_logs c) (next_dataset_id c) (id + 1) (next_cluster_id c),
   id).

(** [UPDATE students SET ... WHERE id = %s] *)
Definition update_student_row (student_id : Z) (info : fields)
  (honors income_category : value) (c : store) : store :=
  mkStore (datasets c)
    (map (fun s => if st_id s =? student_id
                   then mkStudent (st_id s) (st_dataset_id s) info honors
                          income_category
                   else s) (students c))
    (clusters c) (student_cluster c)
    (activity_logs c) (next_dataset_id c) (next_student_id c) (next_cluster_id c).

(** [INSERT INTO activity_logs (user_id, action, details)] *)
Definition insert_activity (user_id : Z) (action : string) (c : store) : store :=
  mkStore (datasets c) (students c) (clusters c) (student_cluster c)
    (activity_logs c ++ [mkActivity user_id action])
    (next_dataset_id c) (next_student_id c) (next_cluster_id c).

(** [SELECT k FROM clusters WHERE dataset_id = (SELECT id FROM datasets
     ORDER BY upload_date DESC LIMIT 1) ORDER BY id DESC LIMIT 1] *)
Fixpoint newest_cluster (rs : list cluster) : option cluster :=
  match rs with
  | [] => None
  | r :: rest =>
      match newest_cluster rest with
      | None => Some r
      | Some m => if cl_id m <? cl_id r then Some r else Some m
      end
  end.

Definition select_last_k (c : store) : option cluster :=
  match latest_dataset (datasets c) with
  | None => None
  | Some d =>
      newest_cluster (filter (fun r => cl_dataset_id r =? ds_id d) (clusters c))
  end.

(** ** The world of a request *)

(** The authenticated principal handed over by [get_current_user]. *)
Record user : Type := mkUser {
  user_id : Z;
  email : string;
  role : string
}.

(** A coroutine handed to [asyncio.create_task]: a call of [recluster]. *)
Record task : Type := mkTask {
  task_k : Z;
  task_user : user
}.

(** The committed store, the outcome of the connection attempts to come
    ([get_db_connection] returns [None] at a [false]; an empty list means
    every attempt succeeds), the fits of the cluster engine run so far
    and the tasks scheduled so far. *)
Record world : Type := mkWorld {
  db : store;
  connections : list bool;
  fits : list (list (list Q) * Z);
  tasks : list task
}.

Definition M (A : Type) : Type := world -> result A * world.

Definition ret {A : Type} (a : A) : M A := fun w => (Ok a, w).

Definition raise {A : Type} (e : exn) : M A := fun w => (Raise e, w).

Definition bind {A B : Type} (m : M A) (f : A -> M B) : M B :=
  fun w =>
    match m w with
    | (Ok a, w') => f a w'
    | (Raise e, w') => (Raise e, w')
    end.

(** [try: m except Exception as e: h e] *)
Definition catch {A : Type} (m : M A) (h : exn -> M A) : M A :=
  fun w =>
    match m w with
    | (Ok a, w') => (Ok a, w')
    | (Raise e, w') => h e w'
    end.

Definition lift {A : Type} (r : result A) : M A := fun w => (r, w).

Declare Scope handler_scope.
Delimit Scope handler_scope with handler.
Notation "x <- c1 ;; c2" := (bind c1 (fun x => c2))
  (at level 61, c1 at next level, right associativity) : handler_scope.
Notation "c1 ;;; c2" := (bind c1 (fun _ => c2))
  (at level 61, right associativity) : handler_scope.
Local Open Scope handler_scope.

(** [get_db_connection()]: a connection works on a copy of the committed
    store, which [commit] writes back. *)
Definition get_db_connection : M (option store) :=
  fun w =>
    match connections w with
    | [] => (Ok (Some (db w)), w)
    | true :: rest =>
        (Ok (Some (db w)), mkWorld (db w) rest (fits w) (tasks w))
    | false :: rest =>
        (Ok None, mkWorld (db w) rest (fits w) (tasks w))
    end.

(** [connection.commit()] *)
Definition commit (c : store) : M unit :=
  fun w => (Ok tt, mkWorld c (connections w) (fits w) (tasks w)).

(** [asyncio.create_task(clusters_module.recluster(k=k, current_user=u))] *)
Definition create_task (k : Z) (u : user) : M unit :=
  fun w =>
    (Ok tt, mkWorld (db w) (connections w) (fits w) (tasks w ++ [mkTask k u])).

(** [users.log_activity]: it opens a connection of its own and does not
    test it, so a failed connection raises at [connection.cursor()]. *)
Definition log_activity (user_id : Z) (action : string) : M unit :=
  connection <- get_db_connection ;;
  match connection with
  | None => raise (PyError "AttributeError")
  | Some c => commit (insert_activity user_id action c)
  end.

(** ** Data frames *)

(** The categorical columns that get an "_enc" companion. *)
Inductive categorical : Type :=
| Sex | Program | Municipality | ShsType | ShsOrigin.

Definition categorical_eqb (a b : categorical) : bool :=
  match a, b with
  | Sex, Sex | Program, Program | Municipality, Municipality
  | ShsType, ShsType | ShsOrigin, ShsOrigin => true
  | _, _ => false
  end.

(** [["sex", "program", "municipality", "shs_type", "shs_origin"]] *)
Definition categorical_cols : list categorical :=
  [Sex; Program; Municipality; ShsType; ShsOrigin].

(** [row[col]] *)
Definition column (c : categorical) (f : fields) : value :=
  match c with
  | Sex => sex f
  | Program => program f
  | Municipality => municipality f
  | ShsType => shs_type f
  | ShsOrigin => shs_origin f
  end.

(** [row[col] = v] *)
Definition set_column (c : categorical) (v : value) (f : fields) : fields :=
  match c with
  | Sex => mkFields (firstname f) (lastname f) v (program f) (municipality f)
             (income f) (shs_type f) (shs_origin f) (gwa f)
  | Program => mkFields (firstname f) (lastname f) (sex f) v (municipality f)
                 (income f) (shs_type f) (shs_origin f) (gwa f)
  | Municipality => mkFields (firstname f) (lastname f) (sex f) (program f) v
                      (income f) (shs_type f) (shs_origin f) (gwa f)
  | ShsType => mkFields (firstname f) (lastname f) (sex f) (program f)
                 (municipality f) (income f) v (shs_origin f) (gwa f)
  | ShsOrigin => mkFields (firstname f) (lastname f) (sex f) (program f)
                   (municipality f) (income f) (shs_type f) v (gwa f)
  end.

(** A row of the frame built from fetched students: the stored row and
    the "_enc" cells added to it, by column. *)
Record encoded_student : Type := mkEncoded {
  es_student : student;
  es_enc : list (categorical * option Z)
}.

(** A row of the frame built from an uploaded sheet. *)
Record prepared : Type := mkPrepared {
  pr_info : fields;
  pr_Honors : value;
  pr_IncomeCategory : value;
  pr_enc : list (categorical * option Z)
}.

(** [row[f"{c}_enc"]], NaN for a missing cell. *)
Fixpoint enc_cell (c : categorical) (enc : list (categorical * option Z)) : value :=
  match enc with
  | [] => VNaN
  | (c', code) :: rest =>
      if categorical_eqb c' c
      then match code with
           | Some z => VNum (inject_Z z)
           | None => VNaN
           end
      else enc_cell c rest
  end.

(** The columns a feature matrix is taken from. *)
Inductive column_name : Type :=
| ColGwa
| ColIncome
| ColCat (c : categorical)
| ColEnc (c : categorical).

Fixpoint mapR {A B : Type} (f : A -> result B) (l : list A) : result (list B) :=
  match l with
  | [] => Ok []
  | a :: rest =>
      match f a with
      | Raise e => Raise e
      | Ok b =>
          match mapR f rest with
          | Raise e => Raise e
          | Ok bs => Ok (b :: bs)
          end
      end
  end.

Section Frames.
Context {C : Collaborators}.

(** [pd.DataFrame(students)] followed by [normalize_dataframe_columns]:
    the fetched rows already carry the canonical columns. *)
Definition DataFrame (rows : list student) : list encoded_student :=
  map (fun s => mkEncoded s []) rows.

(** [df[enc_col] = codes] *)
Definition attach_codes (c : categorical) (codes : list (option Z))
  (df : list encoded_student) : list encoded_student :=
  map (fun rc => mkEncoded (es_student (fst rc)) (es_enc (fst rc) ++ [(c, snd rc)]))
    (combine df codes).

(** [clusters.encode_categorical_safe] *)
Definition encode_categorical_safe (df : list encoded_student)
  (categorical_list : list categorical) : list encoded_student :=
  fold_left
    (fun df canonical =>
       attach_codes canonical
         (encode_column_safe
            (map (fun r => column canonical (st_info (es_student r))) df))
         df)
    categorical_list df.

(** [utils_complete.filter_complete_students_df] on a frame of students. *)
Definition filter_complete_students_df (df : list encoded_student)
  : list encoded_student :=
  filter (fun r => is_record_complete_row (st_info (es_student r))) df.

(** [clusters._pick_feature_columns] for the canonical features
    [gwa, income, sex, program, municipality, shs_type, shs_origin], given
    the categorical columns that were encoded. *)
Definition _pick_feature_columns (encoded : list categorical) : list column_name :=
  [ColGwa; ColIncome]
  ++ map (fun c => if existsb (categorical_eqb c) encoded then ColEnc c else ColCat c)
       categorical_cols.

Definition cell (col : column_name) (r : encoded_student) : value :=
  match col with
  | ColGwa => gwa (st_info (es_student r))
  | ColIncome => income (st_info (es_student r))
  | ColCat c => column c (st_info (es_student r))
  | ColEnc c => enc_cell c (es_enc r)
  end.

(** One cell of [frame.fillna(0).astype(float)]. *)
Definition astype_float (v : value) : result Q :=
  match float (fillna (VNum 0) v) with
  | Some q => Ok q
  | None => Raise (PyError "ValueError")
  end.

(** [df_complete[feature_cols].fillna(0).astype(float)] *)
Definition feature_matrix (df_complete : list encoded_student)
  (feature_cols : list column_name) : result (list (list Q)) :=
  mapR (fun r => mapR (fun col => astype_float (cell col r)) feature_cols)
    df_complete.

(** The cluster engine, with its invocation recorded in the world. *)
Definition fit (X : list (list Q)) (k : Z) : M (list Z * list (list Q)) :=
  fun w =>
    let w' := mkWorld (db w) (connections w) (fits w ++ [(X, k)]) (tasks w) in
    match cluster_engine X k with
    | Some r => (Ok r, w')
    | None => (Raise (PyError "ValueError"), w')
    end.

(** One [KMeans(...).fit(X_scaled)] of [compute_wcss_for_range]. *)
Definition fit_inertia (X : list (list Q)) (k : Z) : M Q :=
  fun w =>
    let w' := mkWorld (db w) (connections w) (fits w ++ [(X, k)]) (tasks w) in
    match kmeans_inertia X k with
    | Some i => (Ok i, w')
    | None => (Raise (PyError "ValueError"), w')
    end.

Fixpoint wcss_loop (X : list (list Q)) (ks : list Z) : M (list Q) :=
  match ks with
  | [] => ret []
  | k :: rest =>
      i <- fit_inertia X k ;;
      wcss <- wcss_loop X rest ;;
      ret (i :: wcss)
  end.

(** [datasets.compute_wcss_for_range] *)
Definition compute_wcss_for_range (X : list (list Q)) (k_min k_max : Z)
  : M (list Q) :=
  wcss_loop X (range k_min (k_max + 1)).

End Frames.

(** ** Responses *)

Inductive response : Type :=
(** [{"message": f"Official dataset re-clustered with k={k}"}] *)
| ReclusterSaved (k : Z)
(** [{"message": ..., "students": out_students, "centroids": centroids}] *)
| ReclusterPreview (k : Z) (out_students : list (encoded_student * Z))
    (centroids : list (list Q))
(** [{"students": students_out, "centroids": centroids}] *)
| PlaygroundResult (students_out : list (encoded_student * Z))
    (centroids : list (list Q))
(** The body returned by [upload_dataset]. *)
| UploadResult (dataset_id total_students : Z) (clusters : option Z)
    (quality_metrics : Q * Q * Q)
(** [{"message": "Student updated successfully. Reclustering triggered."}] *)
| StudentUpdated.

(** ** [clusters.recluster] and [cluster_playground.cluster_playground] *)

Section Clustering.
Context {C : Collaborators}.

Definition is_empty {A : Type} (l : list A) : bool :=
  match l with
  | [] => true
  | _ => false
  end.

(** The loop [for local_idx, student_id in enumerate(clustered_student_ids)]
    of the Admin branch; [preds[local_idx]] raises past the end. *)
Fixpoint insert_assignments (new_cluster_id : Z) (preds : list Z)
  (local_idx : nat) (clustered_student_ids : list Z) (c2 : store)
  : result store :=
  match clustered_student_ids with
  | [] => Ok c2
  | student_id :: rest =>
      match nth_error preds local_idx with
      | None => Raise (PyError "IndexError")
      | Some p =>
          insert_assignments new_cluster_id preds (S local_idx) rest
            (insert_student_cluster student_id new_cluster_id p c2)
      end
  end.

(** The loop of the Viewer branch:
    [row = df_complete[df_complete['id'] == sid].iloc[0]]. *)
Fixpoint preview_students (df_complete : list encoded_student) (preds : list Z)
  (local_idx : nat) (clustered_student_ids : list Z)
  : result (list (encoded_student * Z)) :=
  match clustered_student_ids with
  | [] => Ok []
  | sid :: rest =>
      match find (fun r => st_id (es_student r) =? sid) df_complete with
      | None => Raise (PyError "IndexError")
      | Some row =>
          match nth_error preds local_idx with
          | None => Raise (PyError "IndexError")
          | Some p =>
              match preview_students df_complete preds (S local_idx) rest with
              | Raise e => Raise e
              | Ok out => Ok ((row, p) :: out)
              end
          end
      end
  end.

(** The replacement of the Admin branch on the connection [c2], up to the
    commit. *)
Definition replace_cluster_run (dataset_id k : Z) (centroids : list (list Q))
  (preds : list Z) (clustered_student_ids : list Z) (c2 : store)
  : result store :=
  let olds := select_cluster_ids c2 dataset_id in
  let c2 := fold_left (fun c oc => delete_student_cluster oc c) olds c2 in
  let c2 := delete_clusters dataset_id c2 in
  let (c2, new_cluster_id) := insert_cluster dataset_id (Some k) centroids c2 in
  insert_assignments new_cluster_id preds 0 clustered_student_ids c2.

(** The body of [recluster]; the route adds the bound [k >= 2]. *)
Definition recluster (k : Z) (current_user : user) : M response :=
  let role := role current_user in
  connection <- get_db_connection ;;
  match connection with
  | None => raise (HTTPException 500 "Database connection failed")
  | Some cursor =>
  match latest_dataset (datasets cursor) with
  | None => raise (HTTPException 404 "No dataset found")
  | Some latest =>
  let dataset_id := ds_id latest in
  let students := select_students cursor dataset_id in
  if is_empty students
  then raise (HTTPException 404 "No students found for latest dataset")
  else if len students <? k
  then raise (HTTPException 400 "k cannot be greater than number of students")
  else
  let df := encode_categorical_safe (DataFrame students) categorical_cols in
  let df_complete := filter_complete_students_df df in
  let feature_cols := _pick_feature_columns categorical_cols in
  if is_empty feature_cols
  then raise (HTTPException 400 "No usable features for clustering")
  else
  X <- lift (feature_matrix df_complete feature_cols) ;;
  fitted <- fit X k ;;
  let preds := fst fitted in
  let centroids := snd fitted in
  let clustered_student_ids := map (fun r => st_id (es_student r)) df_complete in
  if String.eqb role "Admin" then
    conn2 <- get_db_connection ;;
    match conn2 with
    | None => raise (HTTPException 500 "Database connection failed")
    | Some c2 =>
        c2 <- lift (replace_cluster_run dataset_id k centroids preds
                      clustered_student_ids c2) ;;
        commit c2 ;;;
        ret (ReclusterSaved k)
    end
  else if String.eqb role "Viewer" then
    out_students <- lift (preview_students df_complete preds 0
                            clustered_student_ids) ;;
    ret (ReclusterPreview k out_students centroids)
  else raise (HTTPException 403 "Unauthorized role")
  end
  end.

(** [POST /clusters/recluster] with [k: int = Query(..., ge=2)]: the
    framework answers 422 for a smaller [k] and does not call the body. *)
Definition post_recluster (k : Z) (current_user : user) : M response :=
  if k <? 2 then raise (HTTPException 422 "Input should be greater than or equal to 2")
  else recluster k current_user.

(** The loop that builds [students_out] in the playground. *)
Fixpoint attach_clusters (df_complete : list encoded_student) (preds : list Z)
  : result (list (encoded_student * Z)) :=
  match df_complete, preds with
  | [], [] => Ok []
  | row :: rest, p :: ps =>
      match attach_clusters rest ps with
      | Raise e => Raise e
      | Ok out => Ok ((row, p) :: out)
      end
  | _, _ => Raise (PyError "ValueError")
  end.

(** The body of [cluster_playground]. *)
Definition cluster_playground (k : Z) (current_user : user) : M response :=
  if negb (str_in (role current_user) ["Admin"; "Viewer"])
  then raise (HTTPException 403 "Unauthorized role")
  else
  connection <- get_db_connection ;;
  match connection with
  | None => raise (HTTPException 500 "Database connection failed")
  | Some cursor =>
  match latest_dataset (datasets cursor) with
  | None => raise (HTTPException 404 "No dataset found")
  | Some dataset =>
  let dataset_id := ds_id dataset in
  let students := select_students cursor dataset_id in
  if is_empty students
  then raise (HTTPException 404 "No students found for latest dataset")
  else if len students <? k
  then raise (HTTPException 400 "k cannot be greater than the number of students")
  else
  let df := encode_categorical_safe (DataFrame students) categorical_cols in
  let df_complete := filter_complete_students_df df in
  if is_empty df_complete
  then raise (HTTPException 400 "No complete students available for clustering")
  else
  X <- lift (feature_matrix df_complete [ColGwa; ColIncome]) ;;
  fitted <- fit X k ;;
  let preds := fst fitted in
  let centroids := snd fitted in
  students_out <- lift (attach_clusters df_complete preds) ;;
  ret (PlaygroundResult students_out centroids)
  end
  end.

(** [GET /clusters/playground] with [k: int = Query(..., ge=2, le=10)]. *)
Definition get_playground (k : Z) (current_user : user) : M response :=
  if (k <? 2) || (10 <? k)
  then raise (HTTPException 422 "Input should be between 2 and 10")
  else cluster_playground k current_user.

End Clustering.

(** ** Uploaded sheets *)

(** A sheet as [pd.read_csv] or [pd.read_excel] returns it: the number of
    rows and the columns in order, each a label and its cells. *)
Record frame : Type := mkFrame {
  nrows : nat;
  series : list (string * list value)
}.

(** [df.columns] *)
Definition columns (df : frame) : list string := map fst (series df).

(** [df[label]] read as one series.  Without such a column Python raises
    [KeyError].  When several columns bear the label the selection is a
    frame, not a series, and what [normalize_and_prepare_df] and the loop
    of [upload_dataset] do with it raises ([pd.to_numeric], the label
    encoder and its fallback, [.str], the truth value tested by
    [safe_text]); the model raises where the cells are read. *)
Definition getitem (label : string) (df : frame) : result (list value) :=
  match filter (fun c => String.eqb (fst c) label) (series df) with
  | [] => Raise (PyError "KeyError")
  | [c] => Ok (snd c)
  | _ => Raise (PyError "ValueError")
  end.

(** [df[label] = cells]: the columns bearing the label take the cells; a
    new label is appended. *)
Definition setitem (label : string) (cells : list value) (df : frame) : frame :=
  if str_in label (columns df)
  then mkFrame (nrows df)
         (map (fun c => if String.eqb (fst c) label then (label, cells) else c)
            (series df))
  else mkFrame (nrows df) (series df ++ [(label, cells)]).

(** [col_map] of [normalize_and_prepare_df] *)
Definition col_map : list (string * string) :=
  [("sex", "sex"); ("gender", "sex");
   ("program", "program"); ("course", "program");
   ("municipality", "municipality"); ("city", "municipality");
   ("income", "income"); ("family income", "income");
   ("shs_type", "shs_type"); ("senior high", "shs_type");
   ("shs_origin", "shs_origin"); ("shs origin", "shs_origin");
   ("senior high school", "shs_origin");
   ("senior high school name", "shs_origin");
   ("school origin", "shs_origin"); ("shs_school", "shs_origin");
   ("high school", "shs_origin"); ("school", "shs_origin");
   ("gwa", "gwa"); ("general weighted average", "gwa");
   ("firstname", "firstname"); ("first name", "firstname");
   ("fname", "firstname");
   ("lastname", "lastname"); ("last name", "lastname");
   ("surname", "lastname"); ("lname", "lastname");
   ("name", "name"); ("fullname", "name"); ("student name", "name")].

(** [col_map[col] if col in col_map else col] *)
Fixpoint renamed (col : string) (m : list (string * string)) : string :=
  match m with
  | [] => col
  | (k, v) :: rest => if String.eqb k col then v else renamed col rest
  end.

(** [s.split(" ", 1)]: the text before the first space and, when there is
    one, the text after it. *)
Fixpoint split_once (s : string) : string * option string :=
  match s with
  | EmptyString => (EmptyString, None)
  | String c r =>
      if Ascii.eqb c " "%char then (EmptyString, Some r)
      else (String c (fst (split_once r)), snd (split_once r))
  end.

(** [required_cols] of [normalize_and_prepare_df] *)
Definition required_cols : list string :=
  ["firstname"; "lastname"; "sex"; "program"; "municipality";
   "income"; "shs_type"; "shs_origin"; "gwa"].

Definition and_then {A B : Type} (r : result A) (f : A -> result B) : result B :=
  match r with
  | Ok a => f a
  | Raise e => Raise e
  end.

(** ** [datasets.normalize_and_prepare_df] and [datasets.upload_dataset] *)

Section Upload.
Context {C : Collaborators}.

(** Lines 25 and 43: every label is stripped and lower-cased, then
    renamed when [col_map] knows it. *)
Definition rename_columns (df : frame) : frame :=
  mkFrame (nrows df)
    (map (fun c => (renamed (lower (strip (fst c))) col_map, snd c))
       (series df)).

(** Lines 46 to 49: a sheet with a [name] column and without one of
    [firstname] and [lastname] gets both from the name, split at its
    first space.  [lastname] is the empty string throughout when no name
    has a second part, and null in the rows that have none otherwise.  A
    sheet without rows is split into a frame without columns, whose column
    [0] does not exist. *)
Definition split_name (df : frame) : result frame :=
  if str_in "name" (columns df)
     && (negb (str_in "firstname" (columns df))
         || negb (str_in "lastname" (columns df)))
  then
    and_then (getitem "name" df) (fun name =>
    let name_split := map (fun v => split_once (strip (str v))) name in
    match name_split with
    | [] => Raise (PyError "KeyError")
    | _ :: _ =>
        let df := setitem "firstname"
                    (map (fun p => VStr (fst p)) name_split) df in
        let lastname :=
          if existsb (fun p => match snd p with
                               | Some _ => true
                               | None => false
                               end) name_split
          then map (fun p => match snd p with
                             | Some l => VStr l
                             | None => VNone
                             end) name_split
          else map (fun _ => VStr "") name_split in
        Ok (setitem "lastname" lastname df)
    end)
  else Ok df.

(** Lines 56 to 58: a required column that is missing is added, null in
    every row. *)
Definition add_required (df : frame) : frame :=
  fold_left
    (fun df col =>
       if negb (str_in col (columns df))
       then setitem col (repeat VNone (nrows df)) df
       else df)
    required_cols df.

(** The rows of the frame over the nine required columns, the only ones
    read from here on. *)
Definition required_rows (df : frame) : result (list fields) :=
  and_then (getitem "firstname" df) (fun firstname =>
  and_then (getitem "lastname" df) (fun lastname =>
  and_then (getitem "sex" df) (fun sex =>
  and_then (getitem "program" df) (fun program =>
  and_then (getitem "municipality" df) (fun municipality =>
  and_then (getitem "income" df) (fun income =>
  and_then (getitem "shs_type" df) (fun shs_type =>
  and_then (getitem "shs_origin" df) (fun shs_origin =>
  and_then (getitem "gwa" df) (fun gwa =>
  Ok (map (fun i =>
             mkFields (nth i firstname VNone) (nth i lastname VNone)
               (nth i sex VNone) (nth i program VNone)
               (nth i municipality VNone) (nth i income VNone)
               (nth i shs_type VNone) (nth i shs_origin VNone)
               (nth i gwa VNone))
        (seq 0 (nrows df)))))))))))).

(** The categorical loop of [normalize_and_prepare_df] for one column:
    the column is replaced by its filled form and gets its "_enc"
    companion. *)
Definition prepare_categorical (df : list prepared) (col : categorical)
  : list prepared :=
  let fc := prepare_column (map (fun r => column col (pr_info r)) df) in
  map (fun rfc =>
         let r := fst rfc in
         mkPrepared (set_column col (fst (snd rfc)) (pr_info r))
           (pr_Honors r) (pr_IncomeCategory r)
           (pr_enc r ++ [(col, snd (snd rfc))]))
    (combine df (combine (fst fc) (snd fc))).

(** Lines 60 to 85: the derived labels are computed on the raw cells,
    then [gwa] and [income] are made numeric, then the categoricals
    encoded.  ([classify_honors] is handed the row and reads its [gwa];
    on a frame without rows there is no row to hand over and nothing is
    derived.) *)
Definition prepare_rows (df : list fields) : list prepared :=
  let derived :=
    map (fun f =>
           mkPrepared
             (mkFields (firstname f) (lastname f) (sex f) (program f)
                (municipality f) (to_numeric_coerce (income f))
                (shs_type f) (shs_origin f) (to_numeric_coerce (gwa f)))
             (classify_honors (gwa f))
             (classify_income (income f))
             [])
        df in
  fold_left prepare_categorical categorical_cols derived.

Definition normalize_and_prepare_df (df : frame) : result (list prepared) :=
  let df := rename_columns df in
  and_then (split_name df) (fun df =>
  let df := add_required df in
  and_then (required_rows df) (fun rows =>
  Ok (prepare_rows rows))).

(** One cell of [df_complete[features].fillna(0)]; the cells are floats
    since [to_numeric]. *)
Definition numeric_cell (v : value) : Q :=
  match fillna (VNum 0) v with
  | VNum q => q
  | _ => 0%Q
  end.

(** [df['Cluster'] = -1; df.loc[df_complete.index, 'Cluster'] = preds]:
    the complete rows take the labels in order, and the assignment raises
    when there are not as many labels as complete rows. *)
Fixpoint set_clusters (df : list prepared) (preds : list Z) : result (list Z) :=
  match df with
  | [] =>
      match preds with
      | [] => Ok []
      | _ => Raise (PyError "ValueError")
      end
  | r :: rest =>
      if is_record_complete_row (pr_info r) then
        match preds with
        | [] => Raise (PyError "ValueError")
        | p :: ps =>
            match set_clusters rest ps with
            | Raise e => Raise e
            | Ok cs => Ok (p :: cs)
            end
        end
      else
        match set_clusters rest preds with
        | Raise e => Raise e
        | Ok cs => Ok (-1 :: cs)
        end
  end.

(** The values bound to the columns of the [INSERT INTO students]. *)
Definition persisted_fields (info : fields) : fields :=
  mkFields
    (VStr (safe_text (firstname info)))
    (VStr (safe_text (lastname info)))
    (VStr (safe_text (sex info)))
    (VStr (safe_text (program info)))
    (VStr (safe_text (municipality info)))
    (VNum (safe_num (income info)))
    (VStr (safe_text (shs_type info)))
    (VStr (safe_text (shs_origin info)))
    (VNum (safe_num (gwa info))).

(** The body of [for _, row in df.iterrows()]. *)
Definition persist_row (dataset_id cluster_id : Z) (cursor : store)
  (row : prepared * Z) : store :=
  let inserted :=
    insert_student (persisted_fields (pr_info (fst row)))
      (VStr (safe_text (pr_Honors (fst row))))
      (VStr (safe_text (pr_IncomeCategory (fst row))))
      dataset_id cursor in
  let student_id := snd inserted in
  let cluster_number := snd row in
  if cluster_number =? -1 then fst inserted
  else insert_student_cluster student_id cluster_id cluster_number (fst inserted).

(** The local variables that the clustering step of [upload_dataset]
    leaves behind; [up_quality] is [None] when [silhouette], [dbi] and
    [chi] were never assigned. *)
Record upload_locals : Type := mkLocals {
  up_k : option Z;
  up_preds : list Z;
  up_centroids : list (list Q);
  up_quality : option (Q * Q * Q)
}.

(** Lines 208-231 of [upload_dataset]. *)
Definition upload_cluster (df_complete : list prepared) (k : option Z)
  : M upload_locals :=
  if is_empty df_complete then
    ret (mkLocals k [] [] None)
  else
    let X := map (fun r => [numeric_cell (gwa (pr_info r));
                            numeric_cell (income (pr_info r))]) df_complete in
    k <- match k with
         | None =>
             wcss <- compute_wcss_for_range X 2 10 ;;
             ret (recommend_k_by_curvature wcss 2)
         | Some k => ret k
         end ;;
    fitted <- fit X k ;;
    let preds := fst fitted in
    let centroids := snd fitted in
    let quality :=
      match quality_scores X preds with
      | Some scores => scores
      | None => (0%Q, 0%Q, 0%Q)
      end in
    ret (mkLocals (Some k) preds centroids (Some quality)).

(** Lines 244-315 of [upload_dataset]: the statements run on the cursor
    up to the commit, with the new dataset's id. *)
Definition upload_persist (filename : string) (uploaded_by now : Z)
  (locals : upload_locals) (df : list prepared) (Cluster : list Z)
  (cursor : store) : store * Z :=
  let cursor := deactivate_datasets cursor in
  let ins_d := insert_dataset filename uploaded_by now cursor in
  let dataset_id := snd ins_d in
  let ins_c := insert_cluster dataset_id (up_k locals)
                 (up_centroids locals) (fst ins_d) in
  let cluster_id := snd ins_c in
  (fold_left (persist_row dataset_id cluster_id) (combine df Cluster) (fst ins_c),
   dataset_id).

(** The [try] block of [upload_dataset]; [file] is the sheet as read by
    [pd.read_csv] or [pd.read_excel], [None] when the reader raises, and
    [now] is [datetime.now()]. *)
Definition upload_try (filename : string) (file : option frame)
  (k : option Z) (now : Z) (current_user : user) : M response :=
  df <- lift (match file with
              | Some sheet => Ok sheet
              | None => Raise (PyError "ParserError")
              end) ;;
  df <- lift (normalize_and_prepare_df df) ;;
  let df_complete := filter (fun r => is_record_complete_row (pr_info r)) df in
  locals <- upload_cluster df_complete k ;;
  Cluster <- lift (if is_empty df_complete
                   then Ok (map (fun _ => -1) df)
                   else set_clusters df (up_preds locals)) ;;
  connection <- get_db_connection ;;
  match connection with
  | None => raise (HTTPException 500 "Database connection failed")
  | Some cursor =>
      let persisted :=
        upload_persist filename (user_id current_user) now locals df Cluster
          cursor in
      let dataset_id := snd persisted in
      commit (fst persisted) ;;;
      log_activity (user_id current_user) "Upload Dataset" ;;;
      match up_quality locals with
      | None => raise (PyError "UnboundLocalError")
      | Some quality_metrics =>
          ret (UploadResult dataset_id (len df) (up_k locals) quality_metrics)
      end
  end.

Definition upload_dataset (filename : string) (file : option frame)
  (k : option Z) (now : Z) (current_user : user) : M response :=
  if negb (String.eqb (role current_user) "Admin")
  then raise (HTTPException 403 "Only Admins can upload datasets")
  else if negb (endswith filename ".csv" || endswith filename ".xlsx")
  then raise (HTTPException 400 "Only CSV and Excel files are supported")
  else
    catch (upload_try filename file k now current_user)
      (fun e => raise (HTTPException 500 "Error processing dataset")).

End Upload.

(** ** [students.update_student] *)

(** The JSON body of an edit: a key may be absent. *)
Record student_data : Type := mkData {
  d_firstname : option value;
  d_lastname : option value;
  d_sex : option value;
  d_program : option value;
  d_municipality : option value;
  d_SHS_type : option value;
  d_SHS_origin : option value;
  d_GWA : option value;
  d_income : option value
}.

(** [student_data.get(key, default)] *)
Definition get_or (o : option value) (default : value) : value :=
  match o with
  | Some v => v
  | None => default
  end.

Section Students.
Context {C : Collaborators}.

(** The fields written by the [UPDATE]. *)
Definition edited_fields (data : student_data) (old : fields) : fields :=
  mkFields
    (get_or (d_firstname data) (firstname old))
    (get_or (d_lastname data) (lastname old))
    (get_or (d_sex data) (sex old))
    (get_or (d_program data) (program old))
    (get_or (d_municipality data) (municipality old))
    (get_or (d_income data) (income old))
    (get_or (d_SHS_type data) (shs_type old))
    (get_or (d_SHS_origin data) (shs_origin old))
    (get_or (d_GWA data) (gwa old)).

(** [int(row["k"]) if row and row.get("k") else 3] *)
Definition k_to_use_of (row : option cluster) : Z :=
  match row with
  | None => 3
  | Some r =>
      match cl_k r with
      | None => 3
      | Some k => if k =? 0 then 3 else k
      end
  end.

Definition update_student (student_id : Z) (data : student_data)
  (current_user : user) : M response :=
  connection <- get_db_connection ;;
  match connection with
  | None => raise (HTTPException 500 "Database connection failed")
  | Some cursor =>
  match select_student cursor student_id with
  | None => raise (HTTPException 404 "Student not found")
  | Some student =>
  let info := edited_fields data (st_info student) in
  let honors := classify_honors (gwa info) in
  let income_category := classify_income (income info) in
  catch
    (commit (update_student_row student_id info honors income_category cursor) ;;;
     log_activity (user_id current_user) "Edit Student Record")
    (fun e => raise (HTTPException 500 "Database update failed")) ;;;
  conn2 <- get_db_connection ;;
  match conn2 with
  | None => ret StudentUpdated
  | Some cur2 =>
      let updated := select_student cur2 student_id in
      let became_complete :=
        match updated with
        | None => false
        | Some u =>
            negb (is_record_complete_row (st_info student))
            && is_record_complete_row (st_info u)
        end in
      (if became_complete then
         conn3 <- get_db_connection ;;
         let k_to_use :=
           match conn3 with
           | Some cur3 => k_to_use_of (select_last_k cur3)
           | None => 3
           end in
         create_task k_to_use current_user
       else ret tt) ;;;
      ret StudentUpdated
  end
  end
  end.


End Students.

(** ** What the routes rely on from scikit-learn *)

(** A fit returns one label per row, each in [0, k), and [k] centroids. *)
Definition engine_sound (C : Collaborators) : Prop :=
  forall X k preds centroids,
    cluster_engine X k = Some (preds, centroids) ->
    List.length preds = List.length X /\
    Forall (fun p => 0 <= p < k) preds /\
    len centroids = k.

(** [KMeans] fits whenever there are at least [k >= 1] rows. *)
Definition engine_total (C : Collaborators) : Prop :=
  forall X k, 1 <= k <= len X -> cluster_engine X k <> None.

(** [KMeans] raises [ValueError] with fewer rows than clusters. *)
Definition engine_rejects (C : Collaborators) : Prop :=
  forall X k, len X < k -> cluster_engine X k = None.

(** A record accepted by the completeness filter has numeric [gwa] and
    [income]. *)
Definition complete_is_numeric (C : Collaborators) : Prop :=
  forall f,
    is_record_complete_row f = true ->
    float (fillna (VNum 0) (gwa f)) <> None /\
    float (fillna (VNum 0) (income f)) <> None.

(** ** A reference instance of the collaborators *)

Fixpoint digits_value (acc : Z) (s : string) : option Z :=
  match s with
  | EmptyString => Some acc
  | String c r =>
      let n := Z.of_nat (nat_of_ascii c) in
      if (48 <=? n) && (n <=? 57) then digits_value (10 * acc + (n - 48)) r
      else None
  end.

(** A number parser for unsigned integer literals. *)
Definition parse_unsigned (s : string) : option Q :=
  match s with
  | EmptyString => None
  | _ => option_map inject_Z (digits_value 0 s)
  end.

(** Modelled from the spec: [utils_complete.is_record_complete_row] is not
    among the sources; 4.3 makes a record complete iff each of the nine
    required fields is non-null and, as a string, none of the sentinels
    "", "n/a", "na", "none" whatever the case, and [gwa] and [income]
    parse as numbers. *)
Definition complete_by_spec (parse : string -> option Q) (render : Q -> string)
  (f : fields) : bool :=
  let as_str v :=
    match v with
    | VNone => "None"
    | VNaN => "nan"
    | VStr s => s
    | VNum q => render q
    end in
  let filled v :=
    negb (isna v) && negb (str_in (lower (as_str v)) [""; "n/a"; "na"; "none"]) in
  let numeric v :=
    match v with
    | VNum _ => true
    | VStr s => match parse s with Some _ => true | None => false end
    | _ => false
    end in
  filled (firstname f) && filled (lastname f) && filled (sex f)
  && filled (program f) && filled (municipality f) && filled (income f)
  && filled (shs_type f) && filled (shs_origin f) && filled (gwa f)
  && numeric (income f) && numeric (gwa f).

(** A stand-in for the cluster engine with the interface of the real one:
    row [i] gets label [i mod k], the centroids are the first [k] rows. *)
Definition round_robin_engine (X : list (list Q)) (k : Z)
  : option (list Z * list (list Q)) :=
  if (k <? 1) || (len X <? k) then None
  else Some (map (fun i => Z.of_nat i mod k) (seq 0 (List.length X)),
             firstn (Z.to_nat k) X).

#[local] Instance reference : Collaborators := {
  parse_float := parse_unsigned;
  str_of_float := fun _ => "0.0";
  classify_honors := fun g =>
    match g with VNum _ => VStr "Average" | _ => VStr "Unknown" end;
  classify_income := fun i =>
    match i with VNum _ => VStr "Middle" | _ => VStr "Unknown" end;
  is_record_complete_row := complete_by_spec parse_unsigned (fun _ => "0.0");
  LabelEncoder_fit_transform := sklearn_fit_transform;
  cluster_engine := round_robin_engine;
  kmeans_inertia := fun X k =>
    if (k <? 1) || (len X <? k) then None else Some 0%Q;
  quality_scores := fun _ _ => None;
  KneeLocator_knee := fun _ _ => Some None
}.

(** The reference instance with another knee detector. *)
Definition with_knee (knee_of : list Z -> list Q -> option (option Z))
  (C : Collaborators) : Collaborators := {|
  parse_float := @parse_float C;
  str_of_float := @str_of_float C;
  classify_honors := @classify_honors C;
  classify_income := @classify_income C;
  is_record_complete_row := @is_record_complete_row C;
  LabelEncoder_fit_transform := @LabelEncoder_fit_transform C;
  cluster_engine := @cluster_engine C;
  kmeans_inertia := @kmeans_inertia C;
  quality_scores := @quality_scores C;
  KneeLocator_knee := knee_of
|}.

(** The reference instance with a label encoder that always raises. *)
Definition with_encoder (le : list string -> option (list Z))
  (C : Collaborators) : Collaborators := {|
  parse_float := @parse_float C;
  str_of_float := @str_of_float C;
  classify_honors := @classify_honors C;
  classify_income := @classify_income C;
  is_record_complete_row := @is_record_complete_row C;
  LabelEncoder_fit_transform := le;
  cluster_engine := @cluster_engine C;
  kmeans_inertia := @kmeans_inertia C;
  quality_scores := @quality_scores C;
  KneeLocator_knee := @KneeLocator_knee C
|}.

(** ** Sample principals, sheets and worlds *)

Definition admin : user := mkUser 1 "admin@school.edu" "Admin".
Definition viewer : user := mkUser 2 "viewer@school.edu" "Viewer".
Definition guest : user := mkUser 3 "guest@school.edu" "Guest".

(** A sheet row with every required cell filled. *)
Definition filled_row (g i : Z) : fields :=
  mkFields (VStr "Ana") (VStr "Cruz") (VStr "F") (VStr "BSIT") (VStr "Naga")
    (VNum (inject_Z i)) (VStr "Public") (VStr "NCHS") (VNum (inject_Z g)).

(** A sheet row whose [income] cell is empty. *)
Definition no_income_row (g : Z) : fields :=
  mkFields (VStr "Ben") (VStr "Diaz") (VStr "M") (VStr "BSCS") (VStr "Pili")
    VNaN (VStr "Private") (VStr "USI") (VNum (inject_Z g)).

(** A sheet with the given rows under headers as a registrar's export
    spells them. *)
Definition sheet_of (rows : list fields) : frame :=
  mkFrame (List.length rows)
    [(" First Name", map firstname rows); ("Surname", map lastname rows);
     ("Gender", map sex rows); ("Course", map program rows);
     ("City", map municipality rows); ("Family Income", map income rows);
     ("SHS_Type", map shs_type rows); ("SHS Origin ", map shs_origin rows);
     ("GWA", map gwa rows)].

(** Ten rows, two of them without income. *)
Definition rows10 : list fields :=
  [filled_row 90 10000; filled_row 85 12000; no_income_row 88;
   filled_row 92 30000; filled_row 75 8000; filled_row 80 15000;
   no_income_row 79; filled_row 95 50000; filled_row 83 11000;
   filled_row 87 21000].

Definition sheet10 : frame := sheet_of rows10.

Definition sheet3 : frame :=
  sheet_of [filled_row 90 10000; filled_row 85 12000; filled_row 92 30000].

Definition sheet2 : frame :=
  sheet_of [filled_row 70 9000; filled_row 78 14000].

(** Two rows, none of them complete. *)
Definition sheet_incomplete : frame :=
  sheet_of [no_income_row 88; no_income_row 79].

Definition sheet11 : frame :=
  sheet_of (map (fun i => filled_row (80 + Z.of_nat i) 10000) (seq 0 11)).

(** A world with every connection attempt succeeding. *)
Definition world_of (c : store) : world := mkWorld c [] [] [].

(** The body [{"income": v}] of an edit. *)
Definition edit_income (v : value) : student_data :=
  mkData None None None None None None None None (Some v).

(** The store after the Admin uploaded [sheet] with [k] at time [now]. *)
Definition after_upload (name : string) (sheet : frame) (k : Z) (now : Z)
  (c : store) : store :=
  db (snd (upload_dataset (C := reference) name (Some sheet) (Some k) now admin
             (world_of c))).

(** The store after the Admin edited the income of a student. *)
Definition after_edit (student_id : Z) (v : value) (c : store) : store :=
  db (snd (update_student (C := reference) student_id (edit_income v) admin
             (world_of c))).

(** Three students, the incomes of the first two set to null by edits. *)
Definition store_one_complete : store :=
  after_edit 2 VNone (after_edit 1 VNone (after_upload "a.csv" sheet3 2 100 empty_store)).


(** A knee detector that picks the second abscissa. *)
Definition second_abscissa (xs : list Z) (ys : list Q) : option (option Z) :=
  match xs with
  | _ :: x :: _ => Some (Some x)
  | _ => Some None
  end.

Definition wcss9 : list Q :=
  map inject_Z [900; 500; 300; 200; 150; 120; 100; 90; 85].

(** The curve of rows that are all equal, over five values of k. *)
Definition flat5 : list Q := map inject_Z [0; 0; 0; 0; 0].

(** ** Store invariant and the rows an upload writes *)

(** The assignment rows of one student. *)
Definition assignments_of (student_id : Z) (c : store) : list assignment :=
  filter (fun a => sc_student_id a =? student_id) (student_cluster c).

(** What the handlers keep true of the store: student ids are unique and
    below the counter, cluster ids are below the counter, and an
    assignment row refers to a student id already handed out and to a
    stored cluster run of the dataset its student belongs to. *)
Record store_wf (c : store) : Prop := mkWf {
  wf_student_ids : NoDup (map st_id (students c));
  wf_student_fresh : forall s, In s (students c) -> st_id s < next_student_id c;
  wf_cluster_fresh : forall r, In r (clusters c) -> cl_id r < next_cluster_id c;
  wf_assignment_fresh :
    forall a, In a (student_cluster c) -> sc_student_id a < next_student_id c;
  wf_assignment_run :
    forall a, In a (student_cluster c) ->
    exists r, In r (clusters c) /\ cl_id r = sc_cluster_id a /\
      forall s, In s (students c) -> st_id s = sc_student_id a ->
                st_dataset_id s = cl_dataset_id r
}.

Section Written.
Context {C : Collaborators}.

(** The student row written for a prepared sheet row. *)
Definition stored_student (dataset_id id : Z) (r : prepared) : student :=
  mkStudent id dataset_id (persisted_fields (pr_info r))
    (VStr (safe_text (pr_Honors r))) (VStr (safe_text (pr_IncomeCategory r))).

(** The student rows written by the loop of [upload_dataset], the first
    of them with the id [id]. *)
Fixpoint new_students (dataset_id id : Z) (rows : list (prepared * Z))
  : list student :=
  match rows with
  | [] => []
  | rc :: rest =>
      stored_student dataset_id id (fst rc) :: new_students dataset_id (id + 1) rest
  end.

(** The assignment rows written by the same loop. *)
Fixpoint new_assignments (cluster_id id : Z) (rows : list (prepared * Z))
  : list assignment :=
  match rows with
  | [] => []
  | rc :: rest =>
      (if snd rc =? -1 then [] else [mkAssignment id cluster_id (snd rc)])
      ++ new_assignments cluster_id (id + 1) rest
  end.

(** The rows of the frame [df] are in the store [c'] as students of the
    dataset of [run], numbered from [first_id] in the order of the frame;
    a complete row has exactly one assignment row, to [run] and with a
    label in [0, k), an incomplete one has none. *)
Definition rows_assigned (df : list prepared) (first_id : Z) (run : cluster)
  (k : Z) (c' : store) : Prop :=
  forall i row,
    nth_error df i = Some row ->
    let sid := first_id + Z.of_nat i in
    In (stored_student (cl_dataset_id run) sid row) (students c')
    /\ if is_record_complete_row (pr_info row)
       then exists label,
              0 <= label < k /\
              assignments_of sid c' = [mkAssignment sid (cl_id run) label]
       else assignments_of sid c' = [].

(** Every student of the dataset in the store [c'] has exactly one
    assignment row, to [run] and with a label in [0, k), when it is
    complete, and none when it is not. *)
Definition students_assigned (dataset_id : Z) (run : cluster) (k : Z)
  (c' : store) : Prop :=
  forall s,
    In s (students c') -> st_dataset_id s = dataset_id ->
    if is_record_complete_row (st_info s)
    then exists label,
           0 <= label < k /\
           assignments_of (st_id s) c'
           = [mkAssignment (st_id s) (cl_id run) label]
    else assignments_of (st_id s) c' = [].

End Written.

(** ** How a cell reaches the [students] table *)

Section Persisted.
Context {C : Collaborators}.

(** A cell that is null, blank, or one of the sentinel spellings. *)
Definition null_blank_or_sentinel (val : value) : Prop :=
  isna val = true \/ strip (str val) = "" \/ In (lower (str val)) sentinels.

(** [stored] is what the loop of [upload_dataset] writes for the text cell
    [val]: a string, and "Incomplete" when the cell was missing. *)
Definition text_persisted (val stored : value) : Prop :=
  stored = VStr (safe_text val) /\
  (null_blank_or_sentinel val -> stored = VStr "Incomplete").

(** [stored] is what the loop writes for the numeric cell [val]: a number,
    and -1 when the cell was missing or does not parse. *)
Definition num_persisted (val stored : value) : Prop :=
  stored = VNum (safe_num val) /\
  (null_blank_or_sentinel val \/ float val = None ->
   stored = VNum (-1 # 1)%Q).

(** [s] is what the loop writes for the row [row] of the frame it
    iterates over: the seven text cells and the two derived labels
    through [safe_text], [income] and [gwa] through [safe_num]. *)
Definition row_persisted (row : prepared) (s : student) : Prop :=
  text_persisted (firstname (pr_info row)) (firstname (st_info s)) /\
  text_persisted (lastname (pr_info row)) (lastname (st_info s)) /\
  text_persisted (sex (pr_info row)) (sex (st_info s)) /\
  text_persisted (program (pr_info row)) (program (st_info s)) /\
  text_persisted (municipality (pr_info row)) (municipality (st_info s)) /\
  text_persisted (shs_type (pr_info row)) (shs_type (st_info s)) /\
  text_persisted (shs_origin (pr_info row)) (shs_origin (st_info s)) /\
  text_persisted (pr_Honors row) (st_Honors s) /\
  text_persisted (pr_IncomeCategory row) (st_IncomeCategory s) /\
  num_persisted (income (pr_info row)) (income (st_info s)) /\
  num_persisted (gwa (pr_info row)) (gwa (st_info s)).

End Persisted.


(** ** From the sheet to the [students] table *)

Section FromSheet.
Context {C : Collaborators}.

(** The required cells of a row as lines 60 to 85 of
    [normalize_and_prepare_df] leave them: the names untouched, the
    categoricals filled, [income] and [gwa] numeric. *)
Definition prepared_fields (f : fields) : fields :=
  mkFields (firstname f) (lastname f)
    (coerce_datasets (sex f)) (coerce_datasets (program f))
    (coerce_datasets (municipality f))
    (to_numeric_coerce (income f))
    (coerce_datasets (shs_type f)) (coerce_datasets (shs_origin f))
    (to_numeric_coerce (gwa f)).

End FromSheet.

(** A sheet of one row whose [sex] cell is empty. *)
Definition sheet_no_sex : frame :=
  sheet_of [set_column Sex VNaN (filled_row 90 10000)].

(** ** [datasets.activate_dataset] and [datasets.elbow_preview] *)

(** [SELECT id FROM datasets WHERE id = %s], [fetchone] *)
Definition select_dataset (c : store) (dataset_id : Z) : option dataset :=
  find (fun d => ds_id d =? dataset_id) (datasets c).

(** [UPDATE datasets SET is_active = TRUE WHERE id = %s] *)
Definition activate_row (dataset_id : Z) (c : store) : store :=
  mkStore
    (map (fun d => if ds_id d =? dataset_id
                   then mkDataset (ds_id d) (ds_filename d) (ds_uploaded_by d)
                          (ds_upload_date d) true
                   else d) (datasets c))
    (students c) (clusters c) (student_cluster c)
    (activity_logs c) (next_dataset_id c) (next_student_id c) (next_cluster_id c).

Inductive dataset_response : Type :=
(** [{"message": f"Dataset {dataset_id} activated successfully"}] *)
| DatasetActivated (dataset_id : Z)
(** [{"wcss": wcss, "recommended_k": recommended_k, "quality_metrics": ...}] *)
| ElbowResult (wcss : list Q) (recommended_k : Z) (quality_metrics : Q * Q * Q).

Section Datasets.
Context {C : Collaborators}.

(** [activate_dataset].  Its last statement awaits the result of
    [log_activity], which is a plain function returning [None]: the row is
    logged, the [await] raises [TypeError], and the [except] swallows
    whatever was raised. *)
Definition activate_dataset (dataset_id : Z) (current_user : user)
  : M dataset_response :=
  if negb (String.eqb (role current_user) "Admin")
  then raise (HTTPException 403 "Only Admins can activate datasets")
  else
  connection <- get_db_connection ;;
  match connection with
  | None => raise (HTTPException 500 "Database connection failed")
  | Some cursor =>
  match select_dataset cursor dataset_id with
  | None => raise (HTTPException 404 "Dataset not found")
  | Some _ =>
      let cursor := deactivate_datasets cursor in
      let cursor := activate_row dataset_id cursor in
      commit cursor ;;;
      catch (log_activity (user_id current_user) "Activate Dataset" ;;;
             raise (PyError "TypeError"))
        (fun _ => ret tt) ;;;
      ret (DatasetActivated dataset_id)
  end
  end.

(** The [try] block of [elbow_preview].  The frame of complete rows goes
    to the scaler and to [compute_wcss_for_range] whatever its size. *)
Definition elbow_try (file : option frame) : M dataset_response :=
  df <- lift (match file with
              | Some sheet => Ok sheet
              | None => Raise (PyError "ParserError")
              end) ;;
  df <- lift (normalize_and_prepare_df df) ;;
  let df_complete := filter (fun r => is_record_complete_row (pr_info r)) df in
  let X := map (fun r => [numeric_cell (gwa (pr_info r));
                          numeric_cell (income (pr_info r))]) df_complete in
  wcss <- compute_wcss_for_range X 2 10 ;;
  let recommended_k := recommend_k_by_curvature wcss 2 in
  quality <- catch
               (fitted <- fit X recommended_k ;;
                match quality_scores X (fst fitted) with
                | Some scores => ret scores
                | None => raise (PyError "ValueError")
                end)
               (fun _ => ret (0%Q, 0%Q, 0%Q)) ;;
  ret (ElbowResult wcss recommended_k quality).

Definition elbow_preview (filename : string) (file : option frame)
  (current_user : user) : M dataset_response :=
  if negb (String.eqb (role current_user) "Admin")
  then raise (HTTPException 403 "Only Admins can compute elbow preview")
  else if negb (endswith filename ".csv" || endswith filename ".xlsx")
  then raise (HTTPException 400 "Only CSV and Excel files are supported")
  else
    catch (elbow_try file)
      (fun e => raise (HTTPException 500 "Error computing elbow")).

End Datasets.

(** [KMeans.fit] raises [ValueError] with fewer rows than clusters. *)
Definition inertia_rejects (C : Collaborators) : Prop :=
  forall X k, len X < k -> kmeans_inertia X k = None.

(** The stored datasets carry ids already handed out. *)
Definition dataset_ids_fresh (c : store) : Prop :=
  forall d, In d (datasets c) -> ds_id d < next_dataset_id c.

(** One encoded column: a code for every cell, and equal codes exactly
    for equal strings. *)
Definition codes_agree (strings : list string) (codes : list (option Z)) : Prop :=
  forall i j a b,
    nth_error strings i = Some a -> nth_error strings j = Some b ->
    exists ci cj,
      nth_error codes i = Some (Some ci) /\
      nth_error codes j = Some (Some cj) /\
      (ci = cj <-> a = b).

(** * Properties *)

(** ** Categorical encoder *)

Section EncoderFacts.
Context {C : Collaborators}.

Lemma str_in_In (s : string) (l : list string) :
  str_in s l = true <-> In s l.
Proof.
  unfold str_in. rewrite existsb_exists. split.
  - intros [x [Hx He]]. apply String.eqb_eq in He. now subst.
  - intros H. exists s. split; [assumption | apply String.eqb_refl].
Qed.

Lemma unique_from_complete (l seen : list string) (s : string) :
  In s l -> In s seen \/ In s (unique_from seen l).
Proof.
  revert seen. induction l as [|x r IH]; intros seen H; [destruct H|].
  simpl. destruct H as [->|H].
  - destruct (str_in s seen) eqn:E.
    + left. now apply str_in_In.
    + right. now left.
  - destruct (str_in x seen) eqn:E.
    + apply IH; assumption.
    + destruct (IH (x :: seen) H) as [[->|Hs]|Hu].
      * right. now left.
      * now left.
      * right. now right.
Qed.

Lemma unique_complete (l : list string) (s : string) :
  In s l -> In s (unique l).
Proof.
  intros H. destruct (unique_from_complete l [] s H) as [[]|]; assumption.
Qed.

Lemma index_of_nonneg (l : list string) (s : string) (i : Z) :
  index_of s l = Some i -> 0 <= i.
Proof.
  revert i. induction l as [|x r IH]; intros i E; [discriminate|].
  simpl in E. destruct (String.eqb x s).
  - inversion E. lia.
  - destruct (index_of s r) as [j|]; [|discriminate].
    simpl in E. inversion E. specialize (IH j eq_refl). lia.
Qed.

Lemma index_of_inj (l : list string) (a b : string) :
  In a l -> index_of a l = index_of b l -> a = b.
Proof.
  induction l as [|x r IH]; intros Ha E; [destruct Ha|].
  simpl in E.
  destruct (String.eqb_spec x a) as [Xa|Na];
    destruct (String.eqb_spec x b) as [Xb|Nb].
  - congruence.
  - destruct (index_of b r) as [j|] eqn:Eb; simpl in E; [|discriminate].
    apply index_of_nonneg in Eb. inversion E. lia.
  - destruct (index_of a r) as [j|] eqn:Ea; simpl in E; [|discriminate].
    apply index_of_nonneg in Ea. inversion E. lia.
  - destruct Ha as [Ha|Ha]; [contradiction|].
    apply IH; [assumption|].
    destruct (index_of a r), (index_of b r); simpl in E;
      try discriminate; [|reflexivity].
    inversion E. f_equal. lia.
Qed.

(** Counting distinct values through a map that is injective on them. *)
Lemma nodup_map_length {A B : Type}
  (decA : forall x y : A, {x = y} + {x <> y})
  (decB : forall x y : B, {x = y} + {x <> y})
  (f : A -> B) (l : list A) :
  (forall a b, In a l -> In b l -> f a = f b -> a = b) ->
  List.length (nodup decB (map f l)) = List.length (nodup decA l).
Proof.
  induction l as [|x r IH]; intros Hinj; [reflexivity|].
  simpl.
  assert (Hr : forall a b, In a r -> In b r -> f a = f b -> a = b)
    by (intros a b Ha Hb; apply Hinj; now right).
  destruct (in_dec decB (f x) (map f r)) as [Hi|Hn];
    destruct (in_dec decA x r) as [Hx|Hx]; simpl.
  - now apply IH.
  - exfalso. apply in_map_iff in Hi. destruct Hi as [y [Hy Hyr]].
    assert (y = x) by (apply Hinj; [now right | now left | assumption]).
    subst. contradiction.
  - exfalso. apply Hn. now apply in_map.
  - f_equal. now apply IH.
Qed.

Definition code_dec (x y : option Z) : {x = y} + {x <> y}.
Proof. decide equality. apply Z.eq_dec. Defined.

Lemma first_seen_codes_distinct (col : list string) :
  List.length (nodup code_dec (first_seen_codes col col))
  = List.length (nodup string_dec col).
Proof.
  unfold first_seen_codes. apply nodup_map_length.
  intros a b Ha _ E. apply (index_of_inj (unique col)); [|assumption].
  now apply unique_complete.
Qed.

Lemma fit_transform_column_distinct (col : list string) (codes : list (option Z)) :
  LabelEncoder_contract LabelEncoder_fit_transform ->
  fit_transform_column col = Some codes ->
  List.length (nodup code_dec codes) = List.length (nodup string_dec col).
Proof.
  intros Hle. unfold fit_transform_column.
  destruct (LabelEncoder_fit_transform col) as [zs|] eqn:E; [|discriminate].
  destruct (Nat.eqb _ _); [|discriminate].
  intros H. inversion H; subst. clear H.
  destruct (Hle col zs E) as [code [-> Hinj]].
  rewrite map_map. apply nodup_map_length.
  intros a b Ha Hb Hab. apply Hinj; try assumption. now inversion Hab.
Qed.

(** Both encoders give as many distinct codes as the column has distinct
    strings after its own coercion, whether the label encoder raises or
    not. *)
Lemma encode_column_safe_distinct (col : list value) :
  LabelEncoder_contract LabelEncoder_fit_transform ->
  List.length (nodup code_dec (encode_column_safe col))
  = List.length (nodup string_dec (map (fun v => str (coerce_clusters v)) col)).
Proof.
  intros Hle. unfold encode_column_safe.
  destruct (fit_transform_column _) as [codes|] eqn:E.
  - now apply fit_transform_column_distinct.
  - apply first_seen_codes_distinct.
Qed.

Lemma coerce_datasets_idem (v : value) :
  coerce_datasets (coerce_datasets v) = coerce_datasets v.
Proof.
  destruct v as [| |s|q]; try reflexivity.
  unfold coerce_datasets. simpl.
  destruct (String.eqb_spec s ""); simpl; [reflexivity|].
  destruct (String.eqb_spec s ""); [contradiction | reflexivity].
Qed.

Lemma prepare_column_distinct (col : list value) :
  LabelEncoder_contract LabelEncoder_fit_transform ->
  List.length (nodup code_dec (snd (prepare_column col)))
  = List.length (nodup string_dec (map (fun v => str (coerce_datasets v)) col)).
Proof.
  intros Hle. unfold prepare_column.
  rewrite (map_map coerce_datasets str).
  destruct (fit_transform_column _) as [codes|] eqn:E; simpl.
  - now apply fit_transform_column_distinct.
  - rewrite (map_map coerce_datasets coerce_datasets).
    rewrite (map_ext _ _ coerce_datasets_idem).
    rewrite (map_map coerce_datasets str).
    apply first_seen_codes_distinct.
Qed.

Lemma fit_transform_column_length (col : list string) (codes : list (option Z)) :
  fit_transform_column col = Some codes ->
  List.length codes = List.length col.
Proof.
  unfold fit_transform_column.
  destruct (LabelEncoder_fit_transform col) as [zs|]; [|discriminate].
  destruct (Nat.eqb_spec (List.length zs) (List.length col)); [|discriminate].
  intros H. inversion H. now rewrite length_map.
Qed.

Lemma encode_column_safe_length (col : list value) :
  List.length (encode_column_safe col) = List.length col.
Proof.
  unfold encode_column_safe.
  destruct (fit_transform_column _) as [codes|] eqn:E.
  - apply fit_transform_column_length in E. now rewrite length_map in E.
  - unfold first_seen_codes. now rewrite !length_map.
Qed.

Lemma prepare_column_length (col : list value) :
  List.length (fst (prepare_column col)) = List.length col /\
  List.length (snd (prepare_column col)) = List.length col.
Proof.
  unfold prepare_column.
  destruct (fit_transform_column _) as [codes|] eqn:E; simpl.
  - apply fit_transform_column_length in E.
    rewrite !length_map in E. now rewrite length_map.
  - unfold first_seen_codes. now rewrite !length_map.
Qed.

End EncoderFacts.


Lemma insert_class_In (s x : string) (classes : list string) :
  In x (insert_class s classes) <-> x = s \/ In x classes.
Proof.
  induction classes as [|c rest IH]; simpl; [intuition|].
  destruct (String.compare s c) eqn:E; simpl.
  - apply String.compare_eq_iff in E. subst. intuition.
  - intuition.
  - rewrite IH. intuition.
Qed.

Lemma classes_In (col : list string) (x : string) :
  In x col -> In x (classes_ col).
Proof.
  unfold classes_. induction col as [|s rest IH]; intros H; [destruct H|].
  simpl. apply insert_class_In. destruct H as [->|H]; auto.
Qed.

Lemma position_nonneg (s : string) (classes : list string) :
  0 <= position s classes.
Proof.
  induction classes as [|c rest IH]; cbn [position]; [lia|].
  destruct (String.eqb c s); lia.
Qed.

Lemma position_inj (classes : list string) (a b : string) :
  In a classes -> position a classes = position b classes -> a = b.
Proof.
  induction classes as [|c rest IH]; intros Ha E; [destruct Ha|].
  cbn [position] in E.
  destruct (String.eqb_spec c a) as [Ca|Ca];
    destruct (String.eqb_spec c b) as [Cb|Cb].
  - congruence.
  - pose proof (position_nonneg b rest). lia.
  - pose proof (position_nonneg a rest). lia.
  - destruct Ha as [Ha|Ha]; [contradiction|]. apply IH; [assumption|lia].
Qed.

(** The label encoder as modelled meets the contract the routes rely on. *)
Lemma sklearn_fit_transform_contract :
  LabelEncoder_contract sklearn_fit_transform.
Proof.
  intros col codes H. unfold sklearn_fit_transform in H. inversion H.
  exists (fun s => position s (classes_ col)). split; [reflexivity|].
  intros a b Ha _ E. apply (position_inj (classes_ col)); [|assumption].
  now apply classes_In.
Qed.

(** C6, at the input where the claim and the code part: a column holding a
    null and the string "Unknown".  [encode_categorical_safe] turns the
    null into the string "None" before its [fillna] runs, leaves a blank
    cell blank, and so gives the two cells two codes, with the label
    encoder and with the first-seen fallback alike; the encoder of
    [normalize_and_prepare_df] fills first and gives them one code. *)
Theorem encode_categorical_safe_null_is_not_Unknown :
  map (fun v => str (coerce_clusters v)) [VNone; VStr ""; VStr "Unknown"]
  = ["None"; ""; "Unknown"]
  /\ encode_column_safe (C := reference) [VNone; VStr "Unknown"]
     = [Some 0; Some 1]
  /\ encode_column_safe (C := with_encoder (fun _ => None) reference)
       [VNone; VStr "Unknown"]
     = [Some 0; Some 1]
  /\ map (fun r => es_enc r)
       (encode_categorical_safe (C := reference)
          (DataFrame
             [mkStudent 1 1 (set_column Sex VNone (filled_row 90 10000))
                (VStr "Average") (VStr "Middle");
              mkStudent 2 1 (set_column Sex (VStr "Unknown") (filled_row 85 12000))
                (VStr "Average") (VStr "Middle")])
          [Sex])
     = [[(Sex, Some 0)]; [(Sex, Some 1)]]
  /\ prepare_column (C := reference) [VNone; VStr "Unknown"]
     = ([VStr "Unknown"; VStr "Unknown"], [Some 0; Some 0]).
Proof. repeat split; vm_compute; reflexivity. Qed.

(** ** K-Selector *)

Lemma range_In (a b x : Z) : In x (range a b) -> a <= x < b.
Proof.
  unfold range. rewrite in_map_iff. intros [i [<- Hi]].
  apply in_seq in Hi. lia.
Qed.

Lemma fallback_k_bounds (wcss : list Q) :
  2 <= fallback_k wcss <= 5 /\
  (fallback_k wcss = 2 \/ fallback_k wcss <= len wcss / 2).
Proof. unfold fallback_k. lia. Qed.

(** C7, refuted as stated.  Rows that are all equal cost nothing to
    cluster whatever k is: their curve over 6..10 is flat, five times 0.
    On a flat curve the detector has no knee to find (its normalization
    divides by max - min = 0, so no point of the difference curve is a
    local maximum), and whether it answers "no knee" or raises, the
    recommender returns the fallback max(2, min(5, 5 // 2)) = 2, below
    the range. *)
Lemma recommend_k_below_k_min :
  len flat5 = 10 - 6 + 1
  /\ (forall C : Collaborators,
        KneeLocator_knee (range 6 (6 + len flat5)) flat5 = Some None
        \/ KneeLocator_knee (range 6 (6 + len flat5)) flat5 = None ->
        recommend_k_by_curvature flat5 6 = 2)
  /\ recommend_k_by_curvature (C := reference) flat5 6 = 2
  /\ recommend_k_by_curvature (C := with_knee (fun _ _ => None) reference)
       flat5 6 = 2
  /\ ~ (6 <= recommend_k_by_curvature (C := reference) flat5 6 <= 10).
Proof.
  split; [reflexivity|]. split.
  - intros C H. unfold recommend_k_by_curvature.
    destruct H as [-> | ->]; reflexivity.
  - split; [reflexivity|]. split; [reflexivity|].
    intros [H _]. apply H. reflexivity.
Qed.

(** C7, amended: for a curve computed over [k_min, k_max] with
    1 <= k_min <= 2 <= k_max (the routes use 2..10), the recommender
    returns the knee when the detector finds one and the fallback
    max(2, min(5, len // 2)) when it finds none or raises, and the
    recommended k lies in [k_min, k_max]. *)
Theorem recommend_k_in_range {C : Collaborators} (wcss : list Q) (k_min k_max : Z) :
  KneeLocator_contract KneeLocator_knee ->
  len wcss = k_max - k_min + 1 ->
  1 <= k_min <= 2 ->
  2 <= k_max ->
  let detected := KneeLocator_knee (range k_min (k_min + len wcss)) wcss in
  let k := recommend_k_by_curvature wcss k_min in
  k_min <= k <= k_max
  /\ (forall knee, detected = Some (Some knee) -> k = knee)
  /\ (detected = Some None \/ detected = None ->
      k = Z.max 2 (Z.min 5 (len wcss / 2))).
Proof.
  intros Hknee Hlen Hmin Hmax detected k.
  assert (Hfb : k_min <= fallback_k wcss <= k_max).
  { pose proof (fallback_k_bounds wcss) as [Hb [H2|Hh]]; [lia|].
    assert (len wcss / 2 <= len wcss) by (apply Z.div_le_upper_bound; lia).
    lia. }
  subst k. unfold recommend_k_by_curvature. fold detected.
  destruct detected as [[knee|]|] eqn:E.
  - split; [|split].
    + apply Hknee in E. apply range_In in E. lia.
    + intros knee' H. now inversion H.
    + intros [H|H]; discriminate.
  - split; [assumption|split]; [discriminate | reflexivity].
  - split; [assumption|split]; [discriminate | reflexivity].
Qed.

Lemma second_abscissa_contract : KneeLocator_contract second_abscissa.
Proof.
  intros xs ys knee. unfold second_abscissa.
  destruct xs as [|a [|b r]]; try discriminate.
  intros H. inversion H. right. now left.
Qed.

Lemma recommend_k_in_range_witness :
  let C := with_knee second_abscissa reference in
  2 <= recommend_k_by_curvature (C := C) wcss9 2 <= 10
  /\ recommend_k_by_curvature (C := C) wcss9 2 = 3.
Proof.
  intros C.
  destruct (recommend_k_in_range (C := C) wcss9 2 10
              second_abscissa_contract eq_refl) as [Hr [Hk _]];
    [lia | lia |].
  split; [exact Hr | apply Hk; reflexivity].
Defined.

(** ** Handlers and the store *)

Create HintDb frame.

(** [preserves R m]: whatever [m] returns or raises, the committed store
    it leaves is related by [R] to the one it found. *)
Definition preserves {A : Type} (R : store -> store -> Prop) (m : M A) : Prop :=
  forall w r w', m w = (r, w') -> R (db w) (db w').

(** [respects m]: the outcome of [m] depends on the world only through the
    committed store and the connection attempts, and so do the store and
    the connection attempts it leaves. *)
Definition respects {A : Type} (m : M A) : Prop :=
  forall w1 w2,
    db w1 = db w2 -> connections w1 = connections w2 ->
    fst (m w1) = fst (m w2) /\
    db (snd (m w1)) = db (snd (m w2)) /\
    connections (snd (m w1)) = connections (snd (m w2)).

Section Preservation.
Context {C : Collaborators}.
Variable R : store -> store -> Prop.
Hypothesis R_refl : forall c, R c c.
Hypothesis R_trans : forall a b c, R a b -> R b c -> R a c.

Lemma preserves_ret {A : Type} (a : A) : preserves R (ret a).
Proof. intros w r w' H. inversion H. apply R_refl. Qed.

Lemma preserves_raise {A : Type} (e : exn) : preserves R (@raise A e).
Proof. intros w r w' H. inversion H. apply R_refl. Qed.

Lemma preserves_lift {A : Type} (x : result A) : preserves R (lift x).
Proof. intros w r w' H. inversion H. apply R_refl. Qed.

Lemma preserves_bind {A B : Type} (m : M A) (f : A -> M B) :
  preserves R m -> (forall a, preserves R (f a)) -> preserves R (bind m f).
Proof.
  intros Hm Hf w r w' H. unfold bind in H.
  destruct (m w) as [[a|e] w1] eqn:E.
  - eapply R_trans; [eapply Hm; eassumption | eapply Hf; eassumption].
  - inversion H; subst. eapply Hm; eassumption.
Qed.

Lemma preserves_catch {A : Type} (m : M A) (h : exn -> M A) :
  preserves R m -> (forall e, preserves R (h e)) -> preserves R (catch m h).
Proof.
  intros Hm Hh w r w' H. unfold catch in H.
  destruct (m w) as [[a|e] w1] eqn:E.
  - inversion H; subst. eapply Hm; eassumption.
  - eapply R_trans; [eapply Hm; eassumption | eapply Hh; eassumption].
Qed.

Lemma preserves_get_db_connection : preserves R get_db_connection.
Proof.
  intros w r w' H. unfold get_db_connection in H.
  destruct (connections w) as [|[|] rest]; inversion H; apply R_refl.
Qed.

Lemma preserves_fit (X : list (list Q)) (k : Z) : preserves R (fit X k).
Proof.
  intros w r w' H. unfold fit in H.
  destruct (cluster_engine X k); inversion H; apply R_refl.
Qed.

Lemma preserves_fit_inertia (X : list (list Q)) (k : Z) :
  preserves R (fit_inertia X k).
Proof.
  intros w r w' H. unfold fit_inertia in H.
  destruct (kmeans_inertia X k); inversion H; apply R_refl.
Qed.

Lemma preserves_create_task (k : Z) (u : user) : preserves R (create_task k u).
Proof. intros w r w' H. inversion H. apply R_refl. Qed.

Lemma preserves_commit (c : store) :
  (forall c0, R c0 c) -> preserves R (commit c).
Proof. intros Hc w r w' H. inversion H. apply Hc. Qed.

Lemma preserves_wcss_loop (X : list (list Q)) (ks : list Z) :
  preserves R (wcss_loop X ks).
Proof.
  induction ks as [|k rest IH]; simpl.
  - apply preserves_ret.
  - apply preserves_bind; [apply preserves_fit_inertia|].
    intros i. apply preserves_bind; [exact IH|].
    intros wcss. apply preserves_ret.
Qed.

End Preservation.

#[local] Hint Resolve preserves_ret preserves_raise preserves_lift
  preserves_get_db_connection preserves_fit preserves_fit_inertia
  preserves_create_task preserves_wcss_loop : frame.

Section Determinism.
Context {C : Collaborators}.

Lemma respects_ret {A : Type} (a : A) : respects (ret a).
Proof. intros w1 w2 Hd Hc. simpl. auto. Qed.

Lemma respects_raise {A : Type} (e : exn) : respects (@raise A e).
Proof. intros w1 w2 Hd Hc. simpl. auto. Qed.

Lemma respects_lift {A : Type} (x : result A) : respects (lift x).
Proof. intros w1 w2 Hd Hc. simpl. auto. Qed.

Lemma respects_bind {A B : Type} (m : M A) (f : A -> M B) :
  respects m -> (forall a, respects (f a)) -> respects (bind m f).
Proof.
  intros Hm Hf w1 w2 Hd Hc. unfold bind.
  destruct (Hm w1 w2 Hd Hc) as [H1 [H2 H3]].
  destruct (m w1) as [[a|e] w1'], (m w2) as [[b|e'] w2']; simpl in *;
    try congruence.
  - inversion H1; subst. now apply Hf.
  - inversion H1. auto.
Qed.

Lemma respects_get_db_connection : respects get_db_connection.
Proof.
  intros w1 w2 Hd Hc. unfold get_db_connection. rewrite Hc, Hd.
  destruct (connections w2) as [|[|] rest] eqn:E; simpl;
    repeat split; congruence.
Qed.

Lemma respects_fit (X : list (list Q)) (k : Z) : respects (fit X k).
Proof.
  intros w1 w2 Hd Hc. unfold fit.
  destruct (cluster_engine X k); simpl; auto.
Qed.

Lemma respects_commit (c : store) : respects (commit c).
Proof. intros w1 w2 Hd Hc. simpl. auto. Qed.

End Determinism.

#[local] Hint Resolve respects_ret respects_raise respects_lift
  respects_get_db_connection respects_fit respects_commit : frame.

Ltac side := try solve [intros; simpl in *; congruence | intros; reflexivity].

Ltac frame_step :=
  match goal with
  | |- preserves _ (bind _ _) => apply preserves_bind; [side | | intros ?]
  | |- preserves _ (catch _ _) => apply preserves_catch; [side | | intros ?]
  | |- preserves _ (ret _) => apply preserves_ret; side
  | |- preserves _ (raise _) => apply preserves_raise; side
  | |- preserves _ (lift _) => apply preserves_lift; side
  | |- preserves _ get_db_connection => apply preserves_get_db_connection; side
  | |- preserves _ (fit _ _) => apply preserves_fit; side
  | |- preserves _ (create_task _ _) => apply preserves_create_task; side
  | |- preserves _ (wcss_loop _ _) => apply preserves_wcss_loop; side
  | |- preserves _ (match ?x with _ => _ end) => destruct x eqn:?
  | |- respects (bind _ _) => apply respects_bind; [ | intros ?]
  | |- respects (ret _) => apply respects_ret
  | |- respects (raise _) => apply respects_raise
  | |- respects (lift _) => apply respects_lift
  | |- respects get_db_connection => apply respects_get_db_connection
  | |- respects (fit _ _) => apply respects_fit
  | |- respects (commit _) => apply respects_commit
  | |- respects (match ?x with _ => _ end) => destruct x eqn:?
  end.

(** ** Preview clustering *)

Section Preview.
Context {C : Collaborators}.

Lemma recluster_viewer_frame (k : Z) (u : user) :
  role u = "Viewer" -> preserves (fun a b => b = a) (recluster k u).
Proof.
  intros Hrole. unfold recluster. rewrite Hrole.
  change (String.eqb "Viewer" "Admin") with false.
  cbv zeta. repeat frame_step.
Qed.

Lemma cluster_playground_frame (k : Z) (u : user) :
  preserves (fun a b => b = a) (cluster_playground k u).
Proof. unfold cluster_playground. cbv zeta. repeat frame_step. Qed.

Lemma recluster_respects (k : Z) (u : user) : respects (recluster k u).
Proof. unfold recluster. cbv zeta. repeat frame_step. Qed.

Lemma cluster_playground_respects (k : Z) (u : user) :
  respects (cluster_playground k u).
Proof. unfold cluster_playground. cbv zeta. repeat frame_step. Qed.

End Preview.

(** C9: a preview (the recluster route called by a Viewer, or the
    playground route) leaves the committed store as it found it, whatever
    it returns or raises; and two calls that find the same store and the
    same connection outcomes return the same response, labels and
    centroids included. *)
Theorem preview_is_read_only_and_repeatable {C : Collaborators} (k : Z) (u : user) :
  (role u = "Viewer" ->
   forall w r w', post_recluster k u w = (r, w') -> db w' = db w)
  /\ (forall w r w', get_playground k u w = (r, w') -> db w' = db w)
  /\ (forall w1 w2,
        db w1 = db w2 -> connections w1 = connections w2 ->
        fst (post_recluster k u w1) = fst (post_recluster k u w2)
        /\ fst (get_playground k u w1) = fst (get_playground k u w2)).
Proof.
  split; [|split].
  - intros Hrole w r w' H. unfold post_recluster in H.
    destruct (k <? 2).
    + now inversion H.
    + exact (recluster_viewer_frame k u Hrole w r w' H).
  - intros w r w' H. unfold get_playground in H.
    destruct ((k <? 2) || (10 <? k)).
    + now inversion H.
    + exact (cluster_playground_frame k u w r w' H).
  - intros w1 w2 Hd Hc. unfold post_recluster, get_playground.
    split.
    + destruct (k <? 2); [reflexivity|].
      apply (recluster_respects k u w1 w2 Hd Hc).
    + destruct ((k <? 2) || (10 <? k)); [reflexivity|].
      apply (cluster_playground_respects k u w1 w2 Hd Hc).
Qed.

Lemma preview_is_read_only_and_repeatable_witness :
  let w := world_of (after_upload "a.csv" sheet3 2 100 empty_store) in
  let first := post_recluster (C := reference) 2 viewer w in
  db (snd first) = db w
  /\ db (snd (get_playground (C := reference) 2 viewer w)) = db w
  /\ fst (post_recluster (C := reference) 2 viewer (snd first)) = fst first.
Proof.
  intros w first.
  destruct (preview_is_read_only_and_repeatable (C := reference) 2 viewer)
    as [H1 [H2 H3]].
  split; [|split].
  - exact (H1 eq_refl w (fst first) (snd first) (surjective_pairing first)).
  - exact (H2 w _ _ (surjective_pairing (get_playground (C := reference) 2 viewer w))).
  - destruct (H3 (snd first) w) as [Ha _].
    + vm_compute. reflexivity.
    + vm_compute. reflexivity.
    + exact Ha.
Defined.

(** ** Authorization in [recluster] *)

(** C5, at the inputs where the claim and the code part: a principal with
    the role "Guest".  With three clusterable students stored, [recluster]
    runs the cluster engine and only then answers 403; where the engine
    raises, or no dataset is stored, the caller gets that failure and no
    authorization error.  The store is the same after each call.  The
    playground, for the same principal, answers 403 with no fit run. *)
Theorem recluster_authorizes_after_clustering :
  let w := world_of (after_upload "a.csv" sheet3 2 100 empty_store) in
  fst (post_recluster (C := reference) 2 guest w)
  = Raise (HTTPException 403 "Unauthorized role")
  /\ List.length (fits (snd (post_recluster (C := reference) 2 guest w))) = 1%nat
  /\ db (snd (post_recluster (C := reference) 2 guest w)) = db w
  /\ fst (post_recluster (C := reference) 2 guest (world_of store_one_complete))
     = Raise (PyError "ValueError")
  /\ fst (post_recluster (C := reference) 2 guest (world_of empty_store))
     = Raise (HTTPException 404 "No dataset found")
  /\ get_playground (C := reference) 2 guest w
     = (Raise (HTTPException 403 "Unauthorized role"), w).
Proof. cbv zeta. repeat apply conj; vm_compute; reflexivity. Qed.

(** ** Upload of a sheet without complete rows *)

(** C8, at an input where the claim and the code part: a sheet of two rows,
    both without income.  The dataset, its two students and an empty
    cluster run are committed and no assignment is written, but the
    handler then reads the quality metrics that this branch never
    assigned, and the caller gets the 500 of the [except] clause. *)
Theorem upload_without_complete_rows_fails :
  let out := upload_dataset (C := reference) "x.csv" (Some sheet_incomplete)
               (Some 2) 5 admin (world_of empty_store) in
  and_then (normalize_and_prepare_df (C := reference) sheet_incomplete)
    (fun df =>
       Ok (filter (fun r => @is_record_complete_row reference (pr_info r)) df))
  = Ok []
  /\ fst out = Raise (HTTPException 500 "Error processing dataset")
  /\ map ds_id (datasets (db (snd out))) = [1]
  /\ map st_id (students (db (snd out))) = [1; 2]
  /\ clusters (db (snd out)) = [mkCluster 1 1 (Some 2) []]
  /\ student_cluster (db (snd out)) = [].
Proof. cbv zeta. repeat apply conj; vm_compute; reflexivity. Qed.

(** ** What an upload commits *)

Section UploadFacts.
Context {C : Collaborators}.

Lemma get_db_connection_inv (w : world) (r : result (option store)) (w1 : world) :
  get_db_connection w = (r, w1) ->
  db w1 = db w /\ fits w1 = fits w /\ tasks w1 = tasks w /\
  (r = Ok (Some (db w)) \/ r = Ok None).
Proof.
  unfold get_db_connection.
  destruct (connections w) as [|[|] rest]; intros H; inversion H; subst;
    simpl; auto.
Qed.

Lemma get_db_connection_ok (w : world) :
  connections w = [] -> get_db_connection w = (Ok (Some (db w)), w).
Proof. intros H. unfold get_db_connection. now rewrite H. Qed.

Lemma persist_row_spec (d cid : Z) (B : store) (rc : prepared * Z) :
  let S := persist_row d cid B rc in
  students S = students B ++ [stored_student d (next_student_id B) (fst rc)]
  /\ student_cluster S
     = student_cluster B
       ++ (if snd rc =? -1 then []
           else [mkAssignment (next_student_id B) cid (snd rc)])
  /\ clusters S = clusters B
  /\ datasets S = datasets B
  /\ next_student_id S = next_student_id B + 1
  /\ next_cluster_id S = next_cluster_id B
  /\ next_dataset_id S = next_dataset_id B.
Proof.
  unfold persist_row. destruct (snd rc =? -1); simpl;
    rewrite ?app_nil_r; repeat apply conj; reflexivity.
Qed.

Lemma persist_rows_spec (d cid : Z) (rows : list (prepared * Z)) (B : store) :
  let S := fold_left (persist_row d cid) rows B in
  students S = students B ++ new_students d (next_student_id B) rows
  /\ student_cluster S
     = student_cluster B ++ new_assignments cid (next_student_id B) rows
  /\ clusters S = clusters B
  /\ datasets S = datasets B
  /\ next_student_id S = next_student_id B + len rows
  /\ next_cluster_id S = next_cluster_id B
  /\ next_dataset_id S = next_dataset_id B.
Proof.
  revert B. induction rows as [|rc rest IH]; intros B; simpl.
  - rewrite !app_nil_r. unfold len. simpl. repeat apply conj; auto; lia.
  - destruct (persist_row_spec d cid B rc) as (Hs & Ha & Hc & Hd & Hn & Hnc & Hnd).
    destruct (IH (persist_row d cid B rc)) as (Is & Ia & Ic & Id & In_ & Inc & Ind).
    rewrite Is, Ia, Ic, Id, In_, Inc, Ind, Hs, Ha, Hc, Hd, Hn, Hnc, Hnd.
    rewrite <- !app_assoc. unfold len. simpl List.length.
    repeat apply conj; auto; lia.
Qed.

Lemma upload_persist_spec (fn : string) (uid now : Z) (locals : upload_locals)
  (df : list prepared) (Cluster : list Z) (B : store) :
  let S := fst (upload_persist fn uid now locals df Cluster B) in
  students S
  = students B
    ++ new_students (next_dataset_id B) (next_student_id B) (combine df Cluster)
  /\ student_cluster S
     = student_cluster B
       ++ new_assignments (next_cluster_id B) (next_student_id B)
            (combine df Cluster)
  /\ clusters S
     = clusters B
       ++ [mkCluster (next_cluster_id B) (next_dataset_id B) (up_k locals)
             (up_centroids locals)]
  /\ next_student_id S = next_student_id B + len (combine df Cluster)
  /\ next_cluster_id S = next_cluster_id B + 1
  /\ next_dataset_id S = next_dataset_id B + 1
  /\ snd (upload_persist fn uid now locals df Cluster B) = next_dataset_id B.
Proof.
  unfold upload_persist. cbv zeta. cbn [fst snd].
  match goal with
  | |- context [fold_left (persist_row ?d ?c) ?rows ?B0] =>
      destruct (persist_rows_spec d c rows B0) as (Hs & Ha & Hc & Hd & Hn & Hnc & Hnd)
  end.
  cbv zeta in *. rewrite Hs, Ha, Hc, Hn, Hnc, Hnd. simpl.
  repeat apply conj; reflexivity.
Qed.

Lemma upload_cluster_frame (dfc : list prepared) (k : option Z) :
  preserves (fun a b => b = a) (upload_cluster dfc k).
Proof.
  unfold upload_cluster, compute_wcss_for_range. cbv zeta.
  repeat frame_step.
Qed.

Lemma bind_inv {A B : Type} (m : M A) (f : A -> M B) (w : world)
  (r : result B) (w' : world) :
  bind m f w = (r, w') ->
  (exists a w1, m w = (Ok a, w1) /\ f a w1 = (r, w')) \/
  (exists e, m w = (Raise e, w') /\ r = Raise e).
Proof.
  unfold bind. destruct (m w) as [[a|e] w1]; intros H.
  - left. now exists a, w1.
  - right. exists e. now inversion H.
Qed.

Lemma lift_inv {A : Type} (x : result A) (w : world) (r : result A) (w' : world) :
  lift x w = (r, w') -> r = x /\ w' = w.
Proof. intros H. now inversion H. Qed.

Ltac nothing_written :=
  left; split; [reflexivity || congruence | intros ?; discriminate].

(** Either nothing is committed and the call raises, or the rows of the
    normalized sheet are committed, with or without the activity entry
    that follows the commit. *)
Lemma upload_try_inv (fn : string) (file : option frame)
  (k : option Z) (now : Z) (u : user) (w : world) (r : result response)
  (w' : world) :
  upload_try fn file k now u w = (r, w') ->
  (db w' = db w /\ forall resp, r <> Ok resp) \/
  exists sheet df locals Cluster w1,
    file = Some sheet /\
    normalize_and_prepare_df sheet = Ok df /\
    upload_cluster
      (filter (fun r => is_record_complete_row (pr_info r)) df) k w
    = (Ok locals, w1) /\
    (if is_empty (filter (fun r => is_record_complete_row (pr_info r)) df)
     then Ok (map (fun _ => -1) df)
     else set_clusters df (up_preds locals))
    = Ok Cluster /\
    (db w' = fst (upload_persist fn (user_id u) now locals df Cluster (db w))
     \/ db w' = insert_activity (user_id u) "Upload Dataset"
                  (fst (upload_persist fn (user_id u) now locals df Cluster
                          (db w)))) /\
    (forall d t kk q, r = Ok (UploadResult d t kk q) ->
       d = next_dataset_id (db w) /\ t = len df /\ kk = up_k locals /\
       up_quality locals = Some q).
Proof.
  unfold upload_try. intros E.
  apply bind_inv in E. destruct E as [(sh & w0 & E0 & E)|(e & E0 & ->)];
    apply lift_inv in E0; destruct E0 as [E0 ->]; [|nothing_written].
  destruct file as [sheet|]; [|discriminate]. inversion E0; subst sh. clear E0.
  apply bind_inv in E. destruct E as [(df & w0 & E0 & E)|(e & E0 & ->)];
    apply lift_inv in E0; destruct E0 as [E0 ->]; [|nothing_written].
  cbv zeta in E.
  apply bind_inv in E. destruct E as [(locals & w1 & E1 & E)|(e & E1 & ->)];
    pose proof (upload_cluster_frame _ _ _ _ _ E1) as Hdb1;
    [|nothing_written].
  apply bind_inv in E. destruct E as [(Cluster & w2 & E2 & E)|(e & E2 & ->)];
    apply lift_inv in E2; destruct E2 as [E2 ->]; [|nothing_written].
  apply bind_inv in E. destruct E as [(conn & w3 & E3 & E)|(e & E3 & ->)];
    destruct (get_db_connection_inv _ _ _ E3) as (Hdb3 & _ & _ & Hconn);
    [|nothing_written].
  destruct Hconn as [Hc|Hc]; inversion Hc; subst conn; clear Hc;
    [|inversion E; subst; nothing_written].
  rewrite Hdb1 in E.
  right. exists sheet, df, locals, Cluster, w1.
  split; [reflexivity|split; [now symmetry|split; [exact E1|split;
    [now symmetry|]]]].
  destruct (upload_persist_spec fn (user_id u) now locals df Cluster (db w))
    as (_ & _ & _ & _ & _ & _ & Hid).
  remember (upload_persist fn (user_id u) now locals df Cluster (db w))
    as P eqn:HP.
  clear HP E1 E2 E3.
  apply bind_inv in E. destruct E as [(x & w4 & E4 & E)|(e & E4 & _)];
    [|discriminate].
  inversion E4; subst x w4; clear E4.
  apply bind_inv in E. destruct E as [(x & w5 & E5 & E)|(e & E5 & ->)].
  - unfold log_activity in E5. apply bind_inv in E5.
    destruct E5 as [(conn & w6 & E6 & E5)|(e & E6 & He)];
      destruct (get_db_connection_inv _ _ _ E6) as (Hdb6 & _ & _ & Hconn);
      cbn [db] in Hdb6; [|destruct Hconn; subst; discriminate].
    destruct Hconn as [Hc|Hc]; inversion Hc; subst conn; clear Hc;
      [|discriminate].
    inversion E5; subst w5. clear E5.
    destruct (up_quality locals) as [q0|] eqn:Eq; inversion E; subst;
      cbn [db].
    + split; [now right|]. intros d t kk q Hres. inversion Hres; subst.
      auto.
    + split; [now right|]. intros d t kk q Hres. discriminate.
  - unfold log_activity in E5. apply bind_inv in E5.
    destruct E5 as [(conn & w6 & E6 & E5)|(e0 & E6 & He)];
      destruct (get_db_connection_inv _ _ _ E6) as (Hdb6 & _ & _ & Hconn);
      cbn [db] in Hdb6; [|destruct Hconn; subst; discriminate].
    destruct Hconn as [Hc|Hc]; inversion Hc; subst conn; clear Hc;
      [discriminate|].
    inversion E5; subst. split; [left; congruence|].
    intros d t kk q Hres. discriminate.
Qed.

Lemma upload_dataset_inv (fn : string) (file : option frame)
  (k : option Z) (now : Z) (u : user) (w : world) (r : result response)
  (w' : world) :
  upload_dataset fn file k now u w = (r, w') ->
  (db w' = db w /\ forall resp, r <> Ok resp) \/
  exists sheet df locals Cluster w1,
    file = Some sheet /\
    normalize_and_prepare_df sheet = Ok df /\
    upload_cluster
      (filter (fun r => is_record_complete_row (pr_info r)) df) k w
    = (Ok locals, w1) /\
    (if is_empty (filter (fun r => is_record_complete_row (pr_info r)) df)
     then Ok (map (fun _ => -1) df)
     else set_clusters df (up_preds locals))
    = Ok Cluster /\
    (db w' = fst (upload_persist fn (user_id u) now locals df Cluster (db w))
     \/ db w' = insert_activity (user_id u) "Upload Dataset"
                  (fst (upload_persist fn (user_id u) now locals df Cluster
                          (db w)))) /\
    (forall d t kk q, r = Ok (UploadResult d t kk q) ->
       d = next_dataset_id (db w) /\ t = len df /\ kk = up_k locals /\
       up_quality locals = Some q).
Proof.
  unfold upload_dataset.
  destruct (negb (String.eqb (role u) "Admin"));
    [intros H; inversion H; nothing_written|].
  destruct (negb _); [intros H; inversion H; nothing_written|].
  unfold catch.
  destruct (upload_try fn file k now u w) as [[a|e] w2] eqn:E; intros H;
    inversion H; subst; clear H.
  - exact (upload_try_inv _ _ _ _ _ _ _ _ E).
  - destruct (upload_try_inv _ _ _ _ _ _ _ _ E)
      as [[Hl _]|(sheet & df & locals & Cluster & w1 & H1 & H2 & H3 & H4 & H5 & _)];
      [nothing_written|].
    right. exists sheet, df, locals, Cluster, w1.
    repeat (split; [assumption|]). intros; discriminate.
Qed.

End UploadFacts.

(** ** The cells an upload stores *)

Section PersistedFacts.
Context {C : Collaborators}.

Lemma is_missing_of (val : value) :
  null_blank_or_sentinel val -> is_missing val = true.
Proof.
  unfold is_missing. intros [H|[H|H]].
  - now rewrite H.
  - rewrite H. simpl. now rewrite orb_true_r.
  - apply str_in_In in H. rewrite H. now rewrite orb_true_r.
Qed.

Lemma safe_text_persisted (val : value) :
  text_persisted val (VStr (safe_text val)).
Proof.
  split; [reflexivity|]. intros H. unfold safe_text.
  now rewrite (is_missing_of val H).
Qed.

Lemma safe_num_persisted (val : value) :
  num_persisted val (VNum (safe_num val)).
Proof.
  split; [reflexivity|]. unfold safe_num. intros [H|H].
  - now rewrite (is_missing_of val H).
  - rewrite H. now destruct (is_missing val).
Qed.

Lemma new_students_In (d id : Z) (rows : list (prepared * Z)) (s : student) :
  In s (new_students d id rows) ->
  exists rc id', In rc rows /\ id <= id' /\ s = stored_student d id' (fst rc).
Proof.
  revert id. induction rows as [|rc rest IH]; intros id H; [destruct H|].
  destruct H as [H|H].
  - exists rc, id. split; [now left|split; [lia|now symmetry]].
  - destruct (IH (id + 1) H) as (rc' & id' & Hin & Hle & Hs).
    exists rc', id'. split; [now right|split; [lia|assumption]].
Qed.

End PersistedFacts.

Section SheetFacts.
Context {C : Collaborators}.

Lemma fit_transform_column_filled (col : list value) :
  fst (prepare_column col) = map coerce_datasets col.
Proof.
  unfold prepare_column. now destruct (fit_transform_column _).
Qed.

Lemma map_combine_filled {A B D E : Type} (h : A -> B) (F : A -> B -> D -> E)
  (G : A -> B -> E) (df : list A) (codes : list D) :
  List.length codes = List.length df ->
  (forall a b d, F a b d = G a b) ->
  map (fun t => F (fst t) (fst (snd t)) (snd (snd t)))
    (combine df (combine (map h df) codes))
  = map (fun a => G a (h a)) df.
Proof.
  intros Hlen HF. revert codes Hlen.
  induction df as [|a df IH]; intros [|d codes] Hlen; simpl in *;
    try discriminate; [reflexivity|].
  rewrite HF. f_equal. apply IH. now inversion Hlen.
Qed.

(** One round of the categorical loop, seen from the required cells and
    the derived labels. *)
Lemma prepare_categorical_view (df : list prepared) (col : categorical) :
  map (fun r => (pr_info r, pr_Honors r, pr_IncomeCategory r))
    (prepare_categorical df col)
  = map (fun r => (set_column col (coerce_datasets (column col (pr_info r)))
                     (pr_info r),
                   pr_Honors r, pr_IncomeCategory r)) df.
Proof.
  unfold prepare_categorical. cbv zeta.
  rewrite fit_transform_column_filled, !map_map.
  apply (map_combine_filled
           (fun r => coerce_datasets (column col (pr_info r)))
           (fun r b (d : option Z) =>
              (set_column col b (pr_info r), pr_Honors r, pr_IncomeCategory r))
           (fun r b =>
              (set_column col b (pr_info r), pr_Honors r, pr_IncomeCategory r))).
  - destruct (prepare_column_length
                (map (fun r => column col (pr_info r)) df)) as [_ H].
    now rewrite H, length_map.
  - reflexivity.
Qed.

Lemma fold_prepare_categorical_view (cols : list categorical) (df : list prepared) :
  map (fun r => (pr_info r, pr_Honors r, pr_IncomeCategory r))
    (fold_left prepare_categorical cols df)
  = map (fun r =>
           (fold_left (fun i c => set_column c (coerce_datasets (column c i)) i)
              cols (pr_info r),
            pr_Honors r, pr_IncomeCategory r)) df.
Proof.
  revert df. induction cols as [|col rest IH]; intros df; [reflexivity|].
  cbn [fold_left]. rewrite IH.
  rewrite <- (map_map (fun r => (pr_info r, pr_Honors r, pr_IncomeCategory r))
                (fun t => (fold_left
                             (fun i c => set_column c (coerce_datasets (column c i)) i)
                             rest (fst (fst t)), snd (fst t), snd t))).
  rewrite prepare_categorical_view. now rewrite map_map.
Qed.

(** The frame that lines 60 to 85 of [normalize_and_prepare_df] build,
    row by row. *)
Lemma prepare_rows_view (sheet : list fields) :
  map (fun r => (pr_info r, pr_Honors r, pr_IncomeCategory r))
    (prepare_rows sheet)
  = map (fun f => (prepared_fields f, classify_honors (gwa f),
                   classify_income (income f))) sheet.
Proof.
  unfold prepare_rows. cbv zeta.
  rewrite fold_prepare_categorical_view, map_map.
  apply map_ext. intros f. reflexivity.
Qed.

Lemma prepare_rows_In (sheet : list fields) (row : prepared) :
  In row (prepare_rows sheet) ->
  exists f, In f sheet /\
    pr_info row = prepared_fields f /\
    pr_Honors row = classify_honors (gwa f) /\
    pr_IncomeCategory row = classify_income (income f).
Proof.
  intros H.
  apply (in_map (fun r => (pr_info r, pr_Honors r, pr_IncomeCategory r))) in H.
  rewrite prepare_rows_view in H. apply in_map_iff in H.
  destruct H as [f [E Hf]]. exists f. inversion E. auto.
Qed.

End SheetFacts.

(** The loop sees the frame that [normalize_and_prepare_df] returns: a
    categorical cell that is null in the sheet has been filled there, and
    reaches the loop, and the table, as "Unknown". *)
Example null_sex_is_stored_as_Unknown :
  getitem "Gender" sheet_no_sex = Ok [VNaN]
  /\ map (fun s => sex (st_info s))
       (students (after_upload "x.csv" sheet_no_sex 1 5 empty_store))
     = [VStr "Unknown"].
Proof. split; vm_compute; reflexivity. Qed.

Lemma stored_student_persisted {C : Collaborators} (dataset_id id : Z)
  (row : prepared) :
  row_persisted row (stored_student dataset_id id row).
Proof.
  unfold row_persisted, stored_student, persisted_fields. simpl.
  repeat (split; [first [apply safe_text_persisted
                        | apply safe_num_persisted]|]).
  apply safe_num_persisted.
Qed.

(** C10: the body of the persist loop of [upload_dataset] appends one
    student row per row of the frame it iterates over, and in it each of
    the nine text fields (first and last name, sex, program,
    municipality, SHS type and origin, Honors, IncomeCategory) is the
    string "Incomplete" when the row's value is null, blank or one of the
    sentinels "n/a", "na", "none" in any case, and its stripped string
    otherwise; [income] and [gwa] are a number, -1 when the value is null,
    blank, a sentinel or does not parse.  No field is stored null.  Every
    student row that an upload adds to the store was written this way
    from a row of the normalized sheet. *)
Theorem upload_stores_Incomplete_and_minus_one {C : Collaborators} :
  (forall dataset_id cluster_id cursor row,
     exists s,
       students (persist_row dataset_id cluster_id cursor row)
       = students cursor ++ [s]
       /\ row_persisted (fst row) s)
  /\ (forall fn file k now u w r w' s,
        upload_dataset fn file k now u w = (r, w') ->
        In s (students (db w')) ->
        In s (students (db w)) \/
        exists sheet df row,
          file = Some sheet /\
          normalize_and_prepare_df sheet = Ok df /\
          In row df /\
          row_persisted row s).
Proof.
  split.
  - intros d cid cursor row.
    exists (stored_student d (next_student_id cursor) (fst row)).
    split; [|apply stored_student_persisted].
    destruct (persist_row_spec d cid cursor row) as (Hs & _). exact Hs.
  - intros fn file k now u w r w' s Hup Hin.
    destruct (upload_dataset_inv _ _ _ _ _ _ _ _ Hup)
      as [[Hdb _]|(sheet & df & locals & Cluster & w1 & Hf & Hn & _ & _ & Hdb & _)].
    + left. now rewrite <- Hdb.
    + assert (Hst : students (db w')
                    = students (db w)
                      ++ new_students (next_dataset_id (db w))
                           (next_student_id (db w)) (combine df Cluster)).
      { destruct (upload_persist_spec fn (user_id u) now locals df Cluster
                    (db w)) as (Hs & _).
        destruct Hdb as [-> | ->]; [exact Hs|]. simpl. exact Hs. }
      rewrite Hst in Hin. apply in_app_or in Hin. destruct Hin as [Hin|Hin];
        [now left|].
      right. apply new_students_In in Hin.
      destruct Hin as (rc & id' & Hrc & _ & ->).
      exists sheet, df, (fst rc).
      split; [assumption|]. split; [assumption|]. split.
      * destruct rc as [row c]. now apply in_combine_l in Hrc.
      * apply stored_student_persisted.
Qed.

Lemma upload_stores_Incomplete_and_minus_one_witness :
  let out := upload_dataset (C := reference) "x.csv" (Some sheet10) (Some 2) 5
               admin (world_of empty_store) in
  let s := nth 2 (students (db (snd out)))
             (mkStudent 0 0 (filled_row 0 0) VNone VNone) in
  income (st_info s) = VNum (-1 # 1)%Q /\
  (In s (students (db (world_of empty_store))) \/
   exists sheet df row,
     Some sheet10 = Some sheet /\
     normalize_and_prepare_df (C := reference) sheet = Ok df /\
     In row df /\
     row_persisted (C := reference) row s).
Proof.
  intros out s. split; [vm_compute; reflexivity|].
  apply (proj2 (upload_stores_Incomplete_and_minus_one (C := reference))
           "x.csv" (Some sheet10) (Some 2) 5 admin (world_of empty_store)
           (fst out) (snd out) s (surjective_pairing out)).
  vm_compute. right. right. left. reflexivity.
Defined.

(** ** The frame of [recluster] *)

Section FrameFacts.
Context {C : Collaborators}.

Lemma map_fst_combine {A B : Type} (l : list A) (l' : list B) :
  List.length l = List.length l' -> map fst (combine l l') = l.
Proof.
  revert l'. induction l as [|a l IH]; intros [|b l'] H; simpl in *;
    try discriminate; [reflexivity|].
  f_equal. apply IH. now inversion H.
Qed.

Lemma attach_codes_students (c : categorical) (codes : list (option Z))
  (df : list encoded_student) :
  List.length codes = List.length df ->
  map es_student (attach_codes c codes df) = map es_student df.
Proof.
  intros H. unfold attach_codes. rewrite map_map. simpl.
  rewrite <- (map_map fst es_student). now rewrite map_fst_combine.
Qed.

Lemma encode_categorical_safe_students (cats : list categorical)
  (df : list encoded_student) :
  map es_student (encode_categorical_safe df cats) = map es_student df.
Proof.
  unfold encode_categorical_safe. revert df.
  induction cats as [|c rest IH]; intros df; [reflexivity|].
  simpl. rewrite IH. apply attach_codes_students.
  now rewrite encode_column_safe_length, length_map.
Qed.

Lemma DataFrame_students (rows : list student) :
  map es_student (DataFrame rows) = rows.
Proof.
  unfold DataFrame. rewrite map_map. simpl. apply map_id.
Qed.

Lemma map_filter_comm {A B : Type} (f : A -> B) (p : B -> bool) (l : list A) :
  map f (filter (fun a => p (f a)) l) = filter p (map f l).
Proof.
  induction l as [|a l IH]; [reflexivity|]. simpl.
  destruct (p (f a)); simpl; now rewrite IH.
Qed.

(** The students of the filtered frame are the complete stored students,
    in table order. *)
Lemma df_complete_students (rows : list student) :
  map es_student
    (filter_complete_students_df
       (encode_categorical_safe (DataFrame rows) categorical_cols))
  = filter (fun s => is_record_complete_row (st_info s)) rows.
Proof.
  unfold filter_complete_students_df.
  rewrite (map_filter_comm es_student
             (fun s => is_record_complete_row (st_info s))).
  now rewrite encode_categorical_safe_students, DataFrame_students.
Qed.

Lemma mapR_length {A B : Type} (f : A -> result B) (l : list A) (out : list B) :
  mapR f l = Ok out -> List.length out = List.length l.
Proof.
  revert out. induction l as [|a l IH]; intros out H; simpl in H.
  - now inversion H.
  - destruct (f a); [|discriminate].
    destruct (mapR f l) as [bs|]; [|discriminate].
    inversion H. simpl. f_equal. now apply IH.
Qed.

Lemma fit_inv (X : list (list Q)) (k : Z) (w : world)
  (r : result (list Z * list (list Q))) (w1 : world) :
  fit X k w = (r, w1) ->
  db w1 = db w /\ connections w1 = connections w /\ tasks w1 = tasks w /\
  fits w1 = fits w ++ [(X, k)] /\
  (forall out, r = Ok out -> cluster_engine X k = Some out).
Proof.
  unfold fit. destruct (cluster_engine X k) as [out|]; intros H;
    inversion H; subst; simpl; repeat apply conj; auto.
  - intros out' E. now inversion E.
  - intros out' E. discriminate.
Qed.

Lemma nth_error_skipn {A : Type} (l : list A) (i : nat) (a : A) :
  nth_error l i = Some a -> skipn i l = a :: skipn (S i) l.
Proof.
  revert i. induction l as [|x l IH]; intros [|i] H; simpl in *;
    try discriminate.
  - now inversion H.
  - now apply IH.
Qed.

(** The Admin loop appends one row per clustered student, pairing the ids
    with the labels from position [idx] on, and touches nothing else. *)
Lemma insert_assignments_spec (nid : Z) (preds : list Z) (ids : list Z)
  (idx : nat) (c c' : store) :
  insert_assignments nid preds idx ids c = Ok c' ->
  (List.length ids <= List.length (skipn idx preds))%nat
  /\ student_cluster c'
     = student_cluster c
       ++ map (fun sp => mkAssignment (fst sp) nid (snd sp))
            (combine ids (skipn idx preds))
  /\ students c' = students c /\ clusters c' = clusters c
  /\ datasets c' = datasets c /\ activity_logs c' = activity_logs c
  /\ next_student_id c' = next_student_id c
  /\ next_cluster_id c' = next_cluster_id c
  /\ next_dataset_id c' = next_dataset_id c.
Proof.
  revert idx c. induction ids as [|sid rest IH]; intros idx c H; simpl in H.
  - inversion H; subst. simpl. rewrite app_nil_r.
    repeat apply conj; auto; lia.
  - destruct (nth_error preds idx) as [p|] eqn:E; [|discriminate].
    apply IH in H. simpl in H.
    destruct H as (Hl & Ha & Hs & Hc & Hd & Hl' & Hn1 & Hn2 & Hn3).
    rewrite (nth_error_skipn _ _ _ E). simpl.
    rewrite Ha, <- app_assoc. simpl.
    repeat apply conj; auto. lia.
Qed.

Lemma fold_delete_student_cluster (olds : list Z) (c : store) :
  let c' := fold_left (fun c oc => delete_student_cluster oc c) olds c in
  student_cluster c'
  = filter (fun a => negb (existsb (Z.eqb (sc_cluster_id a)) olds))
      (student_cluster c)
  /\ students c' = students c /\ clusters c' = clusters c
  /\ datasets c' = datasets c /\ activity_logs c' = activity_logs c
  /\ next_student_id c' = next_student_id c
  /\ next_cluster_id c' = next_cluster_id c
  /\ next_dataset_id c' = next_dataset_id c.
Proof.
  revert c. induction olds as [|oc rest IH]; intros c; simpl.
  - repeat apply conj; auto.
    induction (student_cluster c) as [|a l IHl]; [reflexivity|].
    simpl. now rewrite <- IHl.
  - destruct (IH (delete_student_cluster oc c))
      as (Ha & Hs & Hc & Hd & Hl & Hn1 & Hn2 & Hn3).
    cbv zeta in *. rewrite Ha, Hs, Hc, Hd, Hl, Hn1, Hn2, Hn3. simpl.
    repeat apply conj; auto.
    induction (student_cluster c) as [|a l IHl]; [reflexivity|].
    simpl. destruct (sc_cluster_id a =? oc) eqn:E; simpl.
    + exact IHl.
    + now rewrite IHl.
Qed.

(** The store a successful replacement leaves. *)
Lemma replace_cluster_run_spec (d k : Z) (centroids : list (list Q))
  (preds ids : list Z) (c c' : store) :
  replace_cluster_run d k centroids preds ids c = Ok c' ->
  (List.length ids <= List.length preds)%nat
  /\ student_cluster c'
     = filter (fun a => negb (existsb (Z.eqb (sc_cluster_id a))
                                (select_cluster_ids c d)))
         (student_cluster c)
       ++ map (fun sp => mkAssignment (fst sp) (next_cluster_id c) (snd sp))
            (combine ids preds)
  /\ clusters c'
     = filter (fun r => negb (cl_dataset_id r =? d)) (clusters c)
       ++ [mkCluster (next_cluster_id c) d (Some k) centroids]
  /\ students c' = students c /\ datasets c' = datasets c
  /\ activity_logs c' = activity_logs c
  /\ next_student_id c' = next_student_id c
  /\ next_cluster_id c' = next_cluster_id c + 1
  /\ next_dataset_id c' = next_dataset_id c.
Proof.
  unfold replace_cluster_run. cbv zeta.
  destruct (fold_delete_student_cluster (select_cluster_ids c d) c)
    as (Ha & Hs & Hc & Hd & Hl & Hn1 & Hn2 & Hn3).
  cbv zeta in *.
  remember (fold_left (fun c oc => delete_student_cluster oc c)
              (select_cluster_ids c d) c) as c1 eqn:E1.
  clear E1. unfold insert_cluster. cbn [fst snd].
  intros H. apply insert_assignments_spec in H. simpl in H.
  destruct H as (Hlen & Ia & Is & Ic & Id & Il & In1 & In2 & In3).
  rewrite Ia, Is, Ic, Id, Il, In1, In2, In3, Ha, Hs, Hc, Hd, Hl, Hn1, Hn2, Hn3.
  repeat apply conj; auto.
Qed.

(** Every path of [recluster] but the saved one leaves the store alone;
    the saved one went through the replacement. *)
Lemma recluster_inv (k : Z) (u : user) (w : world) (r : result response)
  (w' : world) :
  recluster k u w = (r, w') ->
  (db w' = db w /\ forall k', r <> Ok (ReclusterSaved k')) \/
  exists latest X preds centroids,
    r = Ok (ReclusterSaved k)
    /\ latest_dataset (datasets (db w)) = Some latest
    /\ role u = "Admin"
    /\ feature_matrix
         (filter_complete_students_df
            (encode_categorical_safe
               (DataFrame (select_students (db w) (ds_id latest)))
               categorical_cols))
         (_pick_feature_columns categorical_cols) = Ok X
    /\ cluster_engine X k = Some (preds, centroids)
    /\ replace_cluster_run (ds_id latest) k centroids preds
         (map (fun r => st_id (es_student r))
            (filter_complete_students_df
               (encode_categorical_safe
                  (DataFrame (select_students (db w) (ds_id latest)))
                  categorical_cols)))
         (db w) = Ok (db w').
Proof.
  unfold recluster. cbv zeta. intros E.
  assert (Hfail : forall (e : exn) (w0 : world),
             db w0 = db w -> (Raise e, w0) = (r, w') ->
             db w' = db w /\ forall k', r <> Ok (ReclusterSaved k')).
  { intros e w0 Hd H. inversion H; subst. split; [assumption|discriminate]. }
  apply bind_inv in E. destruct E as [(conn & w0 & E0 & E)|(e & E0 & ->)];
    destruct (get_db_connection_inv _ _ _ E0) as (Hdb0 & _ & _ & Hconn);
    [|left; split; [assumption|discriminate]].
  destruct Hconn as [Hc|Hc]; inversion Hc; subst conn; clear Hc;
    [|left; now apply (Hfail _ _ Hdb0 E)].
  destruct (latest_dataset (datasets (db w))) as [latest|];
    [|left; now apply (Hfail _ _ Hdb0 E)].
  destruct (is_empty (select_students (db w) (ds_id latest)));
    [left; now apply (Hfail _ _ Hdb0 E)|].
  destruct (len (select_students (db w) (ds_id latest)) <? k);
    [left; now apply (Hfail _ _ Hdb0 E)|].
  destruct (is_empty (_pick_feature_columns categorical_cols));
    [left; now apply (Hfail _ _ Hdb0 E)|].
  apply bind_inv in E. destruct E as [(X & w1 & E1 & E)|(e & E1 & ->)];
    apply lift_inv in E1; destruct E1 as [E1 ->];
    [|left; split; [assumption|discriminate]].
  apply bind_inv in E. destruct E as [(fitted & w2 & E2 & E)|(e & E2 & ->)];
    destruct (fit_inv _ _ _ _ _ E2) as (Hdb2 & _ & _ & _ & Hfit);
    [|left; split; [congruence|discriminate]].
  specialize (Hfit fitted eq_refl).
  assert (Hdb : db w2 = db w) by congruence.
  destruct (String.eqb_spec (role u) "Admin") as [Hrole|Hrole].
  - apply bind_inv in E. destruct E as [(conn2 & w3 & E3 & E)|(e & E3 & ->)];
      destruct (get_db_connection_inv _ _ _ E3) as (Hdb3 & _ & _ & Hconn);
      [|left; split; [congruence|discriminate]].
    destruct Hconn as [Hc|Hc]; inversion Hc; subst conn2; clear Hc;
      [|left; apply (Hfail _ _ (eq_trans Hdb3 Hdb) E)].
    apply bind_inv in E. destruct E as [(c2 & w4 & E4 & E)|(e & E4 & ->)];
      apply lift_inv in E4; destruct E4 as [E4 ->];
      [|left; split; [congruence|discriminate]].
    apply bind_inv in E. destruct E as [(x & w5 & E5 & E)|(e & E5 & _)];
      [|discriminate].
    inversion E5; subst x w5. clear E5. inversion E; subst r w'. clear E.
    right. exists latest, X, (fst fitted), (snd fitted).
    rewrite <- surjective_pairing.
    rewrite Hdb in E4. cbn [db].
    repeat apply conj; auto.
  - destruct (String.eqb (role u) "Viewer");
      [|left; now apply (Hfail _ _ Hdb E)].
    apply bind_inv in E. destruct E as [(out & w3 & E3 & E)|(e & E3 & ->)];
      apply lift_inv in E3; destruct E3 as [E3 ->].
    + inversion E; subst. left. split; [assumption|discriminate].
    + left. split; [assumption|discriminate].
Qed.

(** What a saved recluster went through. *)
Lemma recluster_saved_inv (k : Z) (u : user) (w : world) (k' : Z) (w' : world) :
  recluster k u w = (Ok (ReclusterSaved k'), w') ->
  exists latest X preds centroids,
    latest_dataset (datasets (db w)) = Some latest
    /\ role u = "Admin" /\ k' = k
    /\ feature_matrix
         (filter_complete_students_df
            (encode_categorical_safe
               (DataFrame (select_students (db w) (ds_id latest)))
               categorical_cols))
         (_pick_feature_columns categorical_cols) = Ok X
    /\ cluster_engine X k = Some (preds, centroids)
    /\ replace_cluster_run (ds_id latest) k centroids preds
         (map (fun r => st_id (es_student r))
            (filter_complete_students_df
               (encode_categorical_safe
                  (DataFrame (select_students (db w) (ds_id latest)))
                  categorical_cols)))
         (db w) = Ok (db w').
Proof.
  intros E. destruct (recluster_inv _ _ _ _ _ E)
    as [[_ Hne]|(latest & X & preds & centroids & Hr & H)].
  - now destruct (Hne k').
  - exists latest, X, preds, centroids. inversion Hr; subst.
    destruct H as (H1 & H2 & H3 & H4 & H5). repeat apply conj; auto.
Qed.

End FrameFacts.

(** ** Assignment rows by student *)

Section AssignmentFacts.
Context {C : Collaborators}.

Lemma filter_none {A : Type} (f : A -> bool) (l : list A) :
  (forall a, In a l -> f a = false) -> filter f l = [].
Proof.
  induction l as [|a l IH]; intros H; [reflexivity|].
  simpl. rewrite (H a (or_introl eq_refl)). apply IH.
  intros b Hb. apply H. now right.
Qed.

Lemma NoDup_map_filter {X Y : Type} (key : X -> Y) (keep : X -> bool)
  (xs : list X) :
  NoDup (map key xs) -> NoDup (map key (filter keep xs)).
Proof.
  intros H. induction xs as [|x xs IH]; [constructor|].
  simpl in *. inversion H as [|y ys Hfresh Hrest]; subst.
  destruct (keep x); simpl; [|now apply IH].
  constructor; [|now apply IH].
  intros Hin. apply Hfresh. apply in_map_iff in Hin.
  destruct Hin as [x' [Hkey Hin]]. apply filter_In in Hin.
  apply in_map_iff. exists x'. tauto.
Qed.

Lemma NoDup_map_inj {A B : Type} (f : A -> B) (l : list A) (a b : A) :
  NoDup (map f l) -> In a l -> In b l -> f a = f b -> a = b.
Proof.
  induction l as [|x l IH]; intros H Ha Hb E; [destruct Ha|].
  simpl in H. inversion H as [|y ys Hn Hd]; subst.
  destruct Ha as [->|Ha], Hb as [->|Hb]; auto.
  - exfalso. apply Hn. rewrite E. now apply in_map.
  - exfalso. apply Hn. rewrite <- E. now apply in_map.
Qed.

(** Among the rows written for distinct ids, a student has the row of its
    own id and no other. *)
Lemma paired_rows_absent (nid sid : Z) (ids labels : list Z) :
  ~ In sid ids ->
  filter (fun a => sc_student_id a =? sid)
    (map (fun sp => mkAssignment (fst sp) nid (snd sp)) (combine ids labels))
  = [].
Proof.
  intros Hn. apply filter_none. intros a Ha.
  apply in_map_iff in Ha. destruct Ha as [[i p] [<- Hin]]. simpl.
  apply in_combine_l in Hin. apply Z.eqb_neq. congruence.
Qed.

Lemma paired_rows_present (nid sid : Z) (ids labels : list Z) :
  NoDup ids -> In sid ids ->
  (List.length ids <= List.length labels)%nat ->
  exists p, In p labels /\
    filter (fun a => sc_student_id a =? sid)
      (map (fun sp => mkAssignment (fst sp) nid (snd sp)) (combine ids labels))
    = [mkAssignment sid nid p].
Proof.
  revert labels. induction ids as [|i ids IH]; intros labels Hd Hin Hl;
    [destruct Hin|].
  destruct labels as [|p labels]; [simpl in Hl; lia|].
  inversion Hd as [|x xs Hni Hd']; subst. simpl.
  destruct (Z.eqb_spec i sid) as [->|Hne].
  - exists p. split; [now left|].
    f_equal. now apply paired_rows_absent.
  - destruct Hin as [Hin|Hin]; [contradiction|].
    destruct (IH labels Hd' Hin) as [q [Hq Hf]]; [simpl in Hl; lia|].
    exists q. split; [now right|assumption].
Qed.

(** The same for the rows an upload writes, whose ids count up from
    [id0]. *)
Lemma new_assignments_below (cid id0 sid : Z) (rows : list (prepared * Z)) :
  sid < id0 ->
  filter (fun a => sc_student_id a =? sid) (new_assignments cid id0 rows) = [].
Proof.
  revert id0. induction rows as [|rc rest IH]; intros id0 H; [reflexivity|].
  simpl. rewrite filter_app, IH by lia. rewrite app_nil_r.
  destruct (snd rc =? -1); [reflexivity|]. simpl.
  destruct (Z.eqb_spec id0 sid); [lia|reflexivity].
Qed.

Lemma new_assignments_at (cid id0 : Z) (rows : list (prepared * Z)) (i : nat)
  (rc : prepared * Z) :
  nth_error rows i = Some rc ->
  filter (fun a => sc_student_id a =? id0 + Z.of_nat i)
    (new_assignments cid id0 rows)
  = if snd rc =? -1 then []
    else [mkAssignment (id0 + Z.of_nat i) cid (snd rc)].
Proof.
  revert id0 i. induction rows as [|r0 rest IH]; intros id0 [|i] H;
    simpl in H; try discriminate.
  - inversion H; subst r0. simpl. rewrite filter_app.
    rewrite new_assignments_below by lia. rewrite app_nil_r, Z.add_0_r.
    destruct (snd rc =? -1); [reflexivity|]. simpl.
    now rewrite Z.eqb_refl.
  - simpl new_assignments. rewrite filter_app.
    replace (id0 + Z.of_nat (S i)) with (id0 + 1 + Z.of_nat i) by lia.
    rewrite (IH (id0 + 1) i H).
    destruct (snd r0 =? -1); [reflexivity|]. simpl.
    destruct (Z.eqb_spec id0 (id0 + 1 + Z.of_nat i)); [lia|reflexivity].
Qed.

Lemma new_students_at (d id0 : Z) (rows : list (prepared * Z)) (i : nat)
  (rc : prepared * Z) :
  nth_error rows i = Some rc ->
  In (stored_student d (id0 + Z.of_nat i) (fst rc)) (new_students d id0 rows).
Proof.
  revert id0 i. induction rows as [|r0 rest IH]; intros id0 [|i] H;
    simpl in H; try discriminate.
  - inversion H; subst. left. now rewrite Z.add_0_r.
  - right. replace (id0 + Z.of_nat (S i)) with (id0 + 1 + Z.of_nat i) by lia.
    now apply IH.
Qed.

(** The labels that [set_clusters] lays over the frame. *)
Lemma set_clusters_spec (df : list prepared) (preds Cluster : list Z) :
  set_clusters df preds = Ok Cluster ->
  List.length Cluster = List.length df /\
  forall i row c,
    nth_error df i = Some row -> nth_error Cluster i = Some c ->
    if is_record_complete_row (pr_info row) then In c preds else c = -1.
Proof.
  revert preds Cluster. induction df as [|r df IH]; intros preds Cluster H;
    simpl in H.
  - destruct preds; [|discriminate]. inversion H; subst.
    split; [reflexivity|]. intros [|i] row c Hr; discriminate.
  - destruct (is_record_complete_row (pr_info r)) eqn:Ec.
    + destruct preds as [|p ps]; [discriminate|].
      destruct (set_clusters df ps) as [cs|] eqn:Es; [|discriminate].
      inversion H; subst. destruct (IH ps cs Es) as [Hl Hi].
      split; [simpl; now rewrite Hl|].
      intros [|i] row c Hr Hc; simpl in Hr, Hc.
      * inversion Hr; inversion Hc; subst. rewrite Ec. now left.
      * specialize (Hi i row c Hr Hc).
        destruct (is_record_complete_row (pr_info row)); [now right|assumption].
    + destruct (set_clusters df preds) as [cs|] eqn:Es; [|discriminate].
      inversion H; subst. destruct (IH preds cs Es) as [Hl Hi].
      split; [simpl; now rewrite Hl|].
      intros [|i] row c Hr Hc; simpl in Hr, Hc.
      * inversion Hr; inversion Hc; subst. now rewrite Ec.
      * exact (Hi i row c Hr Hc).
Qed.

Lemma nth_error_combine {A B : Type} (l : list A) (l' : list B) (i : nat) (a : A) :
  List.length l' = List.length l ->
  nth_error l i = Some a ->
  exists b, nth_error l' i = Some b /\ nth_error (combine l l') i = Some (a, b).
Proof.
  revert l' i. induction l as [|x l IH]; intros [|y l'] [|i] Hl H;
    simpl in *; try discriminate.
  - inversion H; subst. now exists y.
  - apply IH; [now inversion Hl|assumption].
Qed.

Lemma filter_nil_all {A : Type} (f : A -> bool) (l : list A) (a : A) :
  filter f l = [] -> In a l -> f a = false.
Proof.
  intros H Hin. destruct (f a) eqn:E; [|reflexivity].
  assert (Hf : In a (filter f l)) by (apply filter_In; auto).
  rewrite H in Hf. destruct Hf.
Qed.

(** What the clustering step of an upload leaves in its locals. *)
Lemma upload_cluster_inv (dfc : list prepared) (k : option Z) (w : world)
  (locals : upload_locals) (w1 : world) :
  upload_cluster dfc k w = (Ok locals, w1) ->
  (dfc = [] /\ locals = mkLocals k [] [] None) \/
  (dfc <> [] /\
   exists X k',
     List.length X = List.length dfc /\ up_k locals = Some k' /\
     cluster_engine X k' = Some (up_preds locals, up_centroids locals) /\
     up_quality locals <> None).
Proof.
  unfold upload_cluster. destruct dfc as [|r0 rest]; simpl is_empty; cbv iota.
  - intros H. inversion H. now left.
  - intros E. right. split; [discriminate|]. cbv zeta in E.
    apply bind_inv in E. destruct E as [(k' & w0 & _ & E)|(e & _ & ?)];
      [|discriminate].
    apply bind_inv in E. destruct E as [(fitted & w2 & E2 & E)|(e & _ & ?)];
      [|discriminate].
    destruct (fit_inv _ _ _ _ _ E2) as (_ & _ & _ & _ & Hfit).
    specialize (Hfit fitted eq_refl).
    inversion E; subst. simpl.
    eexists. exists k'. rewrite <- surjective_pairing.
    split; [|split; [reflexivity|split; [exact Hfit|discriminate]]].
    simpl. now rewrite length_map.
Qed.

End AssignmentFacts.

(** ** Official recluster *)

(** C1: after an official recluster has been saved, the latest dataset has
    exactly one cluster run, the one just inserted under a fresh id; every
    assignment row of a student of that dataset refers to that run, the
    rows of the prior runs and the prior runs themselves being gone; and
    no assignment row is left without its run. *)
Theorem official_recluster_replaces_run {C : Collaborators}
  (k : Z) (u : user) (w : world) (k' : Z) (w' : world) :
  store_wf (db w) ->
  recluster k u w = (Ok (ReclusterSaved k'), w') ->
  exists latest run,
    latest_dataset (datasets (db w)) = Some latest
    /\ role u = "Admin"
    /\ In run (clusters (db w'))
    /\ cl_dataset_id run = ds_id latest
    /\ cl_k run = Some k
    /\ (forall r, In r (clusters (db w)) -> cl_id r <> cl_id run)
    /\ (forall r, In r (clusters (db w')) ->
          cl_dataset_id r = ds_id latest -> r = run)
    /\ (forall a s,
          In a (student_cluster (db w')) -> In s (students (db w')) ->
          st_id s = sc_student_id a -> st_dataset_id s = ds_id latest ->
          sc_cluster_id a = cl_id run)
    /\ (forall a, In a (student_cluster (db w')) ->
          exists r, In r (clusters (db w')) /\ cl_id r = sc_cluster_id a).
Proof.
  intros Hwf Hrun.
  destruct (recluster_saved_inv _ _ _ _ _ Hrun)
    as (latest & X & preds & centroids & Hlatest & Hrole & -> & _ & _ & Hrep).
  apply replace_cluster_run_spec in Hrep.
  destruct Hrep as (_ & Ha & Hc & Hs & _).
  set (d := ds_id latest) in *.
  set (run := mkCluster (next_cluster_id (db w)) d (Some k) centroids) in *.
  assert (Hkept : forall a,
             In a (filter (fun a => negb (existsb (Z.eqb (sc_cluster_id a))
                                            (select_cluster_ids (db w) d)))
                     (student_cluster (db w))) ->
             exists r, In r (clusters (db w)) /\ cl_id r = sc_cluster_id a
                       /\ cl_dataset_id r <> d
                       /\ In a (student_cluster (db w))).
  { intros a Hin. apply filter_In in Hin. destruct Hin as [Hin Hnot].
    destruct (wf_assignment_run _ Hwf a Hin) as (r & Hr & Hid & _).
    exists r. repeat split; auto. intros Hd.
    apply negb_true_iff in Hnot.
    assert (Hex : existsb (Z.eqb (sc_cluster_id a))
                    (select_cluster_ids (db w) d) = true).
    { apply existsb_exists. exists (cl_id r). split; [|apply Z.eqb_eq; auto].
      unfold select_cluster_ids. apply in_map. apply filter_In.
      split; [assumption|now apply Z.eqb_eq]. }
    congruence. }
  exists latest, run. split; [assumption|split; [assumption|]].
  split; [rewrite Hc; apply in_or_app; right; now left|].
  split; [reflexivity|split; [reflexivity|]].
  split.
  { intros r Hr. apply (wf_cluster_fresh _ Hwf) in Hr. simpl. lia. }
  split.
  { intros r Hr Hd. rewrite Hc in Hr. apply in_app_or in Hr.
    destruct Hr as [Hr|[Hr|[]]]; [|now symmetry].
    apply filter_In in Hr. destruct Hr as [_ Hr].
    apply negb_true_iff, Z.eqb_neq in Hr. contradiction. }
  split.
  { intros a s Hin Hst Hid Hd. rewrite Ha in Hin. apply in_app_or in Hin.
    destruct Hin as [Hin|Hin].
    - exfalso. pose proof Hin as Hf. apply filter_In in Hf.
      destruct Hf as [Hold Hnot].
      destruct (wf_assignment_run _ Hwf a Hold) as (r & Hr & Hrid & Hds).
      rewrite Hs in Hst. specialize (Hds s Hst Hid).
      apply negb_true_iff in Hnot.
      assert (Hex : existsb (Z.eqb (sc_cluster_id a))
                      (select_cluster_ids (db w) d) = true).
      { apply existsb_exists. exists (cl_id r).
        split; [|apply Z.eqb_eq; auto].
        unfold select_cluster_ids. apply in_map. apply filter_In.
        split; [assumption|apply Z.eqb_eq; unfold d; congruence]. }
      congruence.
    - apply in_map_iff in Hin. destruct Hin as [sp [<- _]]. reflexivity. }
  intros a Hin. rewrite Ha in Hin. apply in_app_or in Hin.
  destruct Hin as [Hin|Hin].
  - destruct (Hkept a Hin) as (r & Hr & Hid & Hd & _).
    exists r. split; [|assumption]. rewrite Hc. apply in_or_app. left.
    apply filter_In. split; [assumption|].
    apply negb_true_iff. now apply Z.eqb_neq.
  - apply in_map_iff in Hin. destruct Hin as [sp [<- _]].
    exists run. split; [|reflexivity].
    rewrite Hc. apply in_or_app. right. now left.
Qed.

(** ** The store invariant *)

Section Invariant.
Context {C : Collaborators}.

Lemma store_wf_empty : store_wf empty_store.
Proof.
  constructor; simpl; try (intros ? []). constructor.
Qed.

Lemma store_wf_ext (c c' : store) :
  students c' = students c -> clusters c' = clusters c ->
  student_cluster c' = student_cluster c ->
  next_student_id c' = next_student_id c ->
  next_cluster_id c' = next_cluster_id c ->
  store_wf c -> store_wf c'.
Proof.
  intros Hs Hc Ha Hn1 Hn2 [H1 H2 H3 H4 H5].
  constructor; rewrite ?Hs, ?Hc, ?Ha, ?Hn1, ?Hn2; assumption.
Qed.

Lemma new_students_bounds (d id0 : Z) (rows : list (prepared * Z)) (s : student) :
  In s (new_students d id0 rows) ->
  id0 <= st_id s < id0 + len rows /\ st_dataset_id s = d.
Proof.
  revert id0. induction rows as [|rc rest IH]; intros id0 H; [destruct H|].
  unfold len. simpl List.length. destruct H as [<-|H].
  - simpl. split; [lia|reflexivity].
  - apply IH in H. unfold len in H. split; [lia|tauto].
Qed.

Lemma new_students_NoDup (d id0 : Z) (rows : list (prepared * Z)) :
  NoDup (map st_id (new_students d id0 rows)).
Proof.
  revert id0. induction rows as [|rc rest IH]; intros id0; simpl;
    constructor; [|apply IH].
  intros Hin. apply in_map_iff in Hin. destruct Hin as [s [Hid Hs]].
  apply new_students_bounds in Hs. lia.
Qed.

Lemma new_assignments_bounds (cid id0 : Z) (rows : list (prepared * Z))
  (a : assignment) :
  In a (new_assignments cid id0 rows) ->
  id0 <= sc_student_id a < id0 + len rows /\ sc_cluster_id a = cid.
Proof.
  revert id0. induction rows as [|rc rest IH]; intros id0 H; [destruct H|].
  unfold len. simpl List.length. simpl in H. apply in_app_or in H.
  destruct H as [H|H].
  - destruct (snd rc =? -1); [destruct H|].
    destruct H as [<-|[]]. simpl. split; [lia|reflexivity].
  - apply IH in H. unfold len in H. split; [lia|tauto].
Qed.

Lemma upload_persist_wf (fn : string) (uid now : Z) (locals : upload_locals)
  (df : list prepared) (Cluster : list Z) (B : store) :
  store_wf B ->
  store_wf (fst (upload_persist fn uid now locals df Cluster B)).
Proof.
  intros [H1 H2 H3 H4 H5].
  destruct (upload_persist_spec fn uid now locals df Cluster B)
    as (Hs & Ha & Hc & Hn1 & Hn2 & _).
  cbv zeta in *.
  remember (fst (upload_persist fn uid now locals df Cluster B)) as S eqn:ES.
  clear ES.
  assert (Hlen : 0 <= len (combine df Cluster)) by (unfold len; lia).
  constructor; rewrite ?Hs, ?Ha, ?Hc, ?Hn1, ?Hn2.
  - rewrite map_app. apply NoDup_app; [assumption|apply new_students_NoDup|].
    intros i Hi Hj.
    apply in_map_iff in Hi. destruct Hi as [s [<- Hs0]]. apply H2 in Hs0.
    apply in_map_iff in Hj. destruct Hj as [s' [Hid Hs']].
    apply new_students_bounds in Hs'. lia.
  - intros s Hin. apply in_app_or in Hin. destruct Hin as [Hin|Hin].
    + apply H2 in Hin. lia.
    + apply new_students_bounds in Hin. lia.
  - intros r Hin. apply in_app_or in Hin. destruct Hin as [Hin|[<-|[]]].
    + apply H3 in Hin. lia.
    + simpl. lia.
  - intros a Hin. apply in_app_or in Hin. destruct Hin as [Hin|Hin].
    + apply H4 in Hin. lia.
    + apply new_assignments_bounds in Hin. lia.
  - intros a Hin. apply in_app_or in Hin. destruct Hin as [Hin|Hin].
    + destruct (H5 a Hin) as (r & Hr & Hid & Hds).
      exists r. split; [apply in_or_app; now left|split; [assumption|]].
      intros s Hs0 Hsid. apply in_app_or in Hs0. destruct Hs0 as [Hs0|Hs0].
      * now apply Hds.
      * apply new_students_bounds in Hs0. apply H4 in Hin. lia.
    + apply new_assignments_bounds in Hin. destruct Hin as [Hb Hcid].
      eexists. split; [apply in_or_app; right; now left|].
      split; [simpl; now symmetry|].
      intros s Hs0 Hsid. apply in_app_or in Hs0. destruct Hs0 as [Hs0|Hs0].
      * apply H2 in Hs0. lia.
      * apply new_students_bounds in Hs0. simpl. tauto.
Qed.

(** An upload keeps the invariant, whatever it returns. *)
Lemma upload_dataset_wf (fn : string) (file : option frame)
  (k : option Z) (now : Z) (u : user) (w : world) (r : result response)
  (w' : world) :
  upload_dataset fn file k now u w = (r, w') ->
  store_wf (db w) -> store_wf (db w').
Proof.
  intros Hup Hwf.
  destruct (upload_dataset_inv _ _ _ _ _ _ _ _ Hup)
    as [[Hdb _]|(sheet & df & locals & Cluster & w1 & _ & _ & _ & _ & Hdb & _)].
  - now rewrite Hdb.
  - pose proof (upload_persist_wf fn (user_id u) now locals
                  df Cluster (db w) Hwf) as HS.
    destruct Hdb as [-> | ->]; [assumption|].
    eapply store_wf_ext; [| | | | |exact HS]; reflexivity.
Qed.

Lemma NoDup_complete_ids (rows : list student) (d : Z) :
  NoDup (map st_id rows) ->
  NoDup (map st_id
           (filter (fun s => is_record_complete_row (st_info s))
              (filter (fun s => st_dataset_id s =? d) rows))).
Proof. intros H. now do 2 apply NoDup_map_filter. Qed.

(** The ids handed to the Admin loop are those of the complete students
    of the dataset. *)
Lemma clustered_student_ids_eq (c : store) (d : Z) :
  map (fun r => st_id (es_student r))
    (filter_complete_students_df
       (encode_categorical_safe (DataFrame (select_students c d))
          categorical_cols))
  = map st_id
      (filter (fun s => is_record_complete_row (st_info s)) (select_students c d)).
Proof.
  rewrite <- (map_map es_student st_id). now rewrite df_complete_students.
Qed.

(** A recluster keeps the invariant, whatever it returns. *)
Lemma recluster_wf (k : Z) (u : user) (w : world) (r : result response)
  (w' : world) :
  recluster k u w = (r, w') -> store_wf (db w) -> store_wf (db w').
Proof.
  intros Hrun Hwf.
  destruct (recluster_inv _ _ _ _ _ Hrun)
    as [[Hdb _]|(latest & X & preds & centroids & _ & _ & _ & _ & _ & Hrep)].
  - now rewrite Hdb.
  - apply replace_cluster_run_spec in Hrep.
    rewrite clustered_student_ids_eq in Hrep.
    destruct Hrep as (_ & Ha & Hc & Hs & _ & _ & Hn1 & Hn2 & _).
    destruct Hwf as [H1 H2 H3 H4 H5].
    constructor; rewrite ?Ha, ?Hc, ?Hs, ?Hn1, ?Hn2; try assumption.
    + intros r0 Hin. apply in_app_or in Hin. destruct Hin as [Hin|[<-|[]]].
      * apply filter_In in Hin. destruct Hin as [Hin _].
        apply H3 in Hin. lia.
      * simpl. lia.
    + intros a Hin. apply in_app_or in Hin. destruct Hin as [Hin|Hin].
      * apply filter_In in Hin. destruct Hin as [Hin _]. now apply H4.
      * apply in_map_iff in Hin. destruct Hin as [[sid p] [<- Hin]].
        apply in_combine_l in Hin. apply in_map_iff in Hin.
        destruct Hin as [s [<- Hs0]]. simpl.
        apply filter_In in Hs0. destruct Hs0 as [Hs0 _].
        apply filter_In in Hs0. destruct Hs0 as [Hs0 _]. now apply H2.
    + intros a Hin. apply in_app_or in Hin. destruct Hin as [Hin|Hin].
      * apply filter_In in Hin. destruct Hin as [Hin Hnot].
        destruct (H5 a Hin) as (r0 & Hr0 & Hid & Hds).
        exists r0. split; [|split; assumption].
        apply in_or_app. left. apply filter_In. split; [assumption|].
        apply negb_true_iff. apply Z.eqb_neq. intros Hd.
        apply negb_true_iff in Hnot.
        assert (Hex : existsb (Z.eqb (sc_cluster_id a))
                        (select_cluster_ids (db w) (ds_id latest)) = true).
        { apply existsb_exists. exists (cl_id r0).
          split; [|apply Z.eqb_eq; auto].
          unfold select_cluster_ids. apply in_map. apply filter_In.
          split; [assumption|now apply Z.eqb_eq]. }
        congruence.
      * apply in_map_iff in Hin. destruct Hin as [[sid p] [<- Hin]].
        apply in_combine_l in Hin. apply in_map_iff in Hin.
        destruct Hin as [s [<- Hs0]].
        apply filter_In in Hs0. destruct Hs0 as [Hs0 _].
        apply filter_In in Hs0. destruct Hs0 as [Hs0 Hd].
        apply Z.eqb_eq in Hd.
        eexists. split; [apply in_or_app; right; now left|].
        split; [reflexivity|]. simpl.
        intros s' Hs' Hid.
        rewrite (NoDup_map_inj st_id (students (db w)) s' s H1 Hs' Hs0 Hid).
        assumption.
Qed.

End Invariant.

Lemma official_recluster_replaces_run_witness :
  let w0 := world_of (after_upload "a.csv" sheet3 2 100 empty_store) in
  let w1 := snd (recluster (C := reference) 3 admin w0) in
  let out := recluster (C := reference) 2 admin w1 in
  store_wf (db w1)
  /\ fst out = Ok (ReclusterSaved 2)
  /\ exists latest run,
       latest_dataset (datasets (db w1)) = Some latest
       /\ role admin = "Admin"
       /\ In run (clusters (db (snd out)))
       /\ cl_dataset_id run = ds_id latest
       /\ cl_k run = Some 2
       /\ (forall r, In r (clusters (db w1)) -> cl_id r <> cl_id run)
       /\ (forall r, In r (clusters (db (snd out))) ->
             cl_dataset_id r = ds_id latest -> r = run)
       /\ (forall a s,
             In a (student_cluster (db (snd out))) ->
             In s (students (db (snd out))) ->
             st_id s = sc_student_id a -> st_dataset_id s = ds_id latest ->
             sc_cluster_id a = cl_id run)
       /\ (forall a, In a (student_cluster (db (snd out))) ->
             exists r, In r (clusters (db (snd out))) /\ cl_id r = sc_cluster_id a).
Proof.
  intros w0 w1 out.
  assert (Hwf : store_wf (db w1)).
  { apply (recluster_wf (C := reference) 3 admin w0
             (fst (recluster (C := reference) 3 admin w0)) w1
             (surjective_pairing _)).
    apply (upload_dataset_wf (C := reference) "a.csv" (Some sheet3) (Some 2)
             100 admin (world_of empty_store) _ _ (surjective_pairing _)).
    apply store_wf_empty. }
  split; [exact Hwf|]. split; [vm_compute; reflexivity|].
  apply (official_recluster_replaces_run (C := reference) 2 admin w1 2
           (snd out) Hwf).
  vm_compute. reflexivity.
Defined.

(** Two official reclusters in a row: only the rows of the second run are
    left for the dataset. *)
Example two_reclusters_leave_one_run :
  let w0 := world_of (after_upload "a.csv" sheet3 2 100 empty_store) in
  let w1 := snd (recluster (C := reference) 3 admin w0) in
  let w2 := snd (recluster (C := reference) 2 admin w1) in
  map cl_id (clusters (db w0)) = [1]
  /\ map cl_id (clusters (db w1)) = [2]
  /\ map cl_id (clusters (db w2)) = [3]
  /\ student_cluster (db w2)
     = [mkAssignment 1 3 0; mkAssignment 2 3 1; mkAssignment 3 3 0].
Proof. cbv zeta. repeat apply conj; vm_compute; reflexivity. Qed.

(** ** The reference engine and the ten-row sheet *)

Lemma reference_engine_sound : engine_sound reference.
Proof.
  intros X k preds centroids H. simpl in H. unfold round_robin_engine in H.
  destruct ((k <? 1) || (len X <? k)) eqn:E; [discriminate|].
  apply orb_false_iff in E. destruct E as [E1 E2].
  apply Z.ltb_ge in E1, E2. inversion H; subst. clear H.
  split; [now rewrite length_map, length_seq|].
  split.
  - apply Forall_forall. intros p Hp. apply in_map_iff in Hp.
    destruct Hp as [i [<- _]]. apply Z.mod_pos_bound. lia.
  - unfold len in *. rewrite length_firstn. lia.
Qed.

Lemma reference_engine_total : engine_total reference.
Proof.
  intros X k [H1 H2]. simpl. unfold round_robin_engine.
  destruct (Z.ltb_spec k 1); [lia|].
  destruct (Z.ltb_spec (len X) k); [lia|]. simpl. discriminate.
Qed.

Lemma reference_engine_rejects : engine_rejects reference.
Proof.
  intros X k H. simpl. unfold round_robin_engine.
  destruct (Z.ltb_spec (len X) k); [|lia]. now rewrite orb_true_r.
Qed.

(** The ten-row sheet with two rows lacking income, uploaded with k = 2:
    eight students are assigned, with labels 0 and 1, the third and the
    seventh are not, and the run holds two centroids. *)
Example upload_ten_rows_two_without_income :
  let c := after_upload "x.csv" sheet10 2 5 empty_store in
  map st_id (students c) = [1; 2; 3; 4; 5; 6; 7; 8; 9; 10]
  /\ map sc_student_id (student_cluster c) = [1; 2; 4; 5; 6; 8; 9; 10]
  /\ forallb (fun a => (sc_cluster_number a =? 0) || (sc_cluster_number a =? 1))
       (student_cluster c) = true
  /\ assignments_of 3 c = [] /\ assignments_of 7 c = []
  /\ map (fun r => List.length (cl_centroids r)) (clusters c) = [2%nat].
Proof. cbv zeta. repeat apply conj; vm_compute; reflexivity. Qed.

(** ** Validation of k *)

Section ValidationFacts.
Context {C : Collaborators}.

Lemma bind_ok {A B : Type} (m : M A) (f : A -> M B) (w w1 : world) (a : A) :
  m w = (Ok a, w1) -> bind m f w = f a w1.
Proof. intros H. unfold bind. now rewrite H. Qed.

Lemma mapR_ok {A B : Type} (f : A -> result B) (l : list A) :
  (forall a, In a l -> exists b, f a = Ok b) ->
  exists out, mapR f l = Ok out.
Proof.
  induction l as [|a l IH]; intros H; [now exists []|].
  destruct (H a (or_introl eq_refl)) as [b Hb].
  destruct IH as [bs Hbs]; [intros x Hx; apply H; now right|].
  exists (b :: bs). simpl. now rewrite Hb, Hbs.
Qed.

Lemma astype_float_enc_cell (c : categorical) (enc : list (categorical * option Z)) :
  exists q, astype_float (enc_cell c enc) = Ok q.
Proof.
  induction enc as [|[c' code] rest IH]; simpl.
  - now exists 0%Q.
  - destruct (categorical_eqb c' c); [|exact IH].
    destruct code as [z|]; [now exists (inject_Z z)|now exists 0%Q].
Qed.

Lemma astype_float_numeric (v : value) :
  float (fillna (VNum 0) v) <> None -> exists q, astype_float v = Ok q.
Proof.
  unfold astype_float. destruct (float (fillna (VNum 0) v)) as [q|];
    [now exists q|congruence].
Qed.

Lemma feature_matrix_ok (dfc : list encoded_student) (cols : list column_name) :
  complete_is_numeric C ->
  (forall r, In r dfc -> is_record_complete_row (st_info (es_student r)) = true) ->
  (forall col, In col cols -> forall c, col <> ColCat c) ->
  exists X, feature_matrix dfc cols = Ok X.
Proof.
  intros Hnum Hcomplete Hcols. unfold feature_matrix. apply mapR_ok.
  intros r Hr. apply mapR_ok. intros col Hcol.
  destruct (Hnum _ (Hcomplete r Hr)) as [Hg Hi].
  destruct col as [| |c|c]; simpl.
  - now apply astype_float_numeric.
  - now apply astype_float_numeric.
  - now destruct (Hcols _ Hcol c).
  - apply astype_float_enc_cell.
Qed.

Lemma insert_assignments_ok (nid : Z) (preds ids : list Z) (idx : nat) (c : store) :
  (List.length ids + idx <= List.length preds)%nat ->
  exists c', insert_assignments nid preds idx ids c = Ok c'.
Proof.
  revert idx c. induction ids as [|sid rest IH]; intros idx c H; simpl.
  - now exists c.
  - destruct (nth_error preds idx) as [p|] eqn:E.
    + apply IH. simpl in H. lia.
    + apply nth_error_None in E. simpl in H. lia.
Qed.

Lemma preview_students_ok (dfc : list encoded_student) (preds ids : list Z)
  (idx : nat) :
  (forall sid, In sid ids -> In sid (map (fun r => st_id (es_student r)) dfc)) ->
  (List.length ids + idx <= List.length preds)%nat ->
  exists out, preview_students dfc preds idx ids = Ok out.
Proof.
  revert idx. induction ids as [|sid rest IH]; intros idx Hin H; simpl.
  - now exists [].
  - destruct (find (fun r => st_id (es_student r) =? sid) dfc) as [row|] eqn:Ef.
    + destruct (nth_error preds idx) as [p|] eqn:E.
      * destruct (IH (S idx)) as [out Hout].
        { intros x Hx. apply Hin. now right. }
        { simpl in H. lia. }
        rewrite Hout. now eexists.
      * apply nth_error_None in E. simpl in H. lia.
    + exfalso. specialize (Hin sid (or_introl eq_refl)).
      apply in_map_iff in Hin. destruct Hin as [r [Hr Hrin]].
      pose proof (find_none _ _ Ef r Hrin) as Hf. simpl in Hf.
      rewrite Hr, Z.eqb_refl in Hf. discriminate.
Qed.

Lemma attach_clusters_ok (dfc : list encoded_student) (preds : list Z) :
  List.length preds = List.length dfc ->
  exists out, attach_clusters dfc preds = Ok out.
Proof.
  revert preds. induction dfc as [|r rest IH]; intros [|p ps] H;
    simpl in *; try discriminate.
  - now exists [].
  - destruct (IH ps) as [out Hout]; [now inversion H|].
    rewrite Hout. now eexists.
Qed.

Lemma df_complete_all (rows : list student) (r : encoded_student) :
  In r (filter_complete_students_df
          (encode_categorical_safe (DataFrame rows) categorical_cols)) ->
  is_record_complete_row (st_info (es_student r)) = true.
Proof.
  unfold filter_complete_students_df. intros H. apply filter_In in H. tauto.
Qed.

Lemma df_complete_length (rows : list student) :
  List.length (filter_complete_students_df
                 (encode_categorical_safe (DataFrame rows) categorical_cols))
  = List.length (filter (fun s => is_record_complete_row (st_info s)) rows).
Proof.
  rewrite <- (df_complete_students rows). now rewrite length_map.
Qed.

Lemma filter_length_le {A : Type} (f : A -> bool) (l : list A) :
  (List.length (filter f l) <= List.length l)%nat.
Proof.
  induction l as [|a l IH]; simpl; [lia|].
  destruct (f a); simpl; lia.
Qed.

(** [k] above the number of stored students of the latest dataset is
    answered with 400, the world untouched. *)
Lemma recluster_rejects_large_k (k : Z) (u : user) (w : world) (latest : dataset) :
  connections w = [] ->
  latest_dataset (datasets (db w)) = Some latest ->
  select_students (db w) (ds_id latest) <> [] ->
  len (select_students (db w) (ds_id latest)) < k ->
  recluster k u w
  = (Raise (HTTPException 400 "k cannot be greater than number of students"), w).
Proof.
  intros Hconn Hlatest Hne Hk. unfold recluster. cbv zeta.
  erewrite bind_ok by (apply get_db_connection_ok; exact Hconn).
  cbv beta iota.
  rewrite Hlatest.
  destruct (select_students (db w) (ds_id latest)) as [|s rest] eqn:Es;
    [now destruct Hne|]. simpl is_empty. cbv iota.
  apply Z.ltb_lt in Hk. now rewrite Hk.
Qed.

Lemma cluster_playground_rejects_large_k (k : Z) (u : user) (w : world)
  (latest : dataset) :
  str_in (role u) ["Admin"; "Viewer"] = true ->
  connections w = [] ->
  latest_dataset (datasets (db w)) = Some latest ->
  select_students (db w) (ds_id latest) <> [] ->
  len (select_students (db w) (ds_id latest)) < k ->
  cluster_playground k u w
  = (Raise (HTTPException 400 "k cannot be greater than the number of students"), w).
Proof.
  intros Hrole Hconn Hlatest Hne Hk. unfold cluster_playground. cbv zeta.
  rewrite Hrole. change (negb true) with false. cbv iota.
  erewrite bind_ok by (apply get_db_connection_ok; exact Hconn).
  cbv beta iota.
  rewrite Hlatest.
  destruct (select_students (db w) (ds_id latest)) as [|s rest] eqn:Es;
    [now destruct Hne|]. simpl is_empty. cbv iota.
  apply Z.ltb_lt in Hk. now rewrite Hk.
Qed.

End ValidationFacts.

Section SuccessFacts.
Context {C : Collaborators}.

Lemma replace_cluster_run_ok (d k : Z) (centroids : list (list Q))
  (preds ids : list Z) (c : store) :
  (List.length ids <= List.length preds)%nat ->
  exists c', replace_cluster_run d k centroids preds ids c = Ok c'.
Proof.
  intros H. unfold replace_cluster_run. cbv zeta. unfold insert_cluster.
  apply insert_assignments_ok. lia.
Qed.

(** With [k] the number of complete students of the latest dataset, an
    Admin or a Viewer gets a response from [recluster]. *)
Lemma recluster_succeeds (k : Z) (u : user) (w : world) (latest : dataset) :
  engine_sound C -> engine_total C -> complete_is_numeric C ->
  connections w = [] ->
  latest_dataset (datasets (db w)) = Some latest ->
  k = len (filter (fun s => is_record_complete_row (st_info s))
             (select_students (db w) (ds_id latest))) ->
  1 <= k ->
  role u = "Admin" \/ role u = "Viewer" ->
  exists resp, fst (recluster k u w) = Ok resp.
Proof.
  intros Hsound Htotal Hnum Hconn Hlatest Hk Hk1 Hrole.
  unfold recluster. cbv zeta.
  erewrite bind_ok by (apply get_db_connection_ok; exact Hconn).
  cbv beta iota. rewrite Hlatest.
  set (rows := select_students (db w) (ds_id latest)) in *.
  pose proof (filter_length_le (fun s => is_record_complete_row (st_info s)) rows)
    as Hle.
  assert (He : is_empty rows = false).
  { destruct rows; [unfold len in Hk; simpl in Hk; lia|reflexivity]. }
  rewrite He.
  assert (Hlt : (len rows <? k) = false)
    by (apply Z.ltb_ge; unfold len in *; lia).
  rewrite Hlt.
  replace (is_empty (_pick_feature_columns categorical_cols)) with false
    by reflexivity.
  set (dfc := filter_complete_students_df
                (encode_categorical_safe (DataFrame rows) categorical_cols)).
  assert (Hdfc : List.length dfc
                 = List.length (filter (fun s => is_record_complete_row (st_info s))
                                  rows))
    by apply df_complete_length.
  destruct (feature_matrix_ok dfc (_pick_feature_columns categorical_cols) Hnum)
    as [X HX].
  { intros r Hr. exact (df_complete_all rows r Hr). }
  { intros col Hcol c.
    simpl in Hcol. intuition (subst; discriminate). }
  rewrite HX. erewrite bind_ok by reflexivity. cbv beta.
  pose proof (mapR_length _ _ _ HX) as HlenX.
  destruct (cluster_engine X k) as [[preds centroids]|] eqn:Heng.
  2:{ exfalso. apply (Htotal X k); [unfold len in *; lia|assumption]. }
  destruct (Hsound _ _ _ _ Heng) as (Hpreds & _ & _).
  erewrite bind_ok by (unfold fit; rewrite Heng; reflexivity).
  cbv beta. cbn [fst snd].
  destruct Hrole as [Hrole|Hrole]; rewrite Hrole.
  - change (String.eqb "Admin" "Admin") with true. cbv iota.
    erewrite bind_ok by (apply get_db_connection_ok; exact Hconn).
    cbv beta iota. cbn [db].
    destruct (replace_cluster_run_ok (ds_id latest) k centroids preds
                (map (fun r => st_id (es_student r)) dfc) (db w)) as [c2 Hc2].
    { rewrite length_map. lia. }
    rewrite Hc2. erewrite bind_ok by reflexivity. cbv beta.
    erewrite bind_ok by reflexivity. now eexists.
  - change (String.eqb "Viewer" "Admin") with false.
    change (String.eqb "Viewer" "Viewer") with true. cbv iota.
    destruct (preview_students_ok dfc preds
                (map (fun r => st_id (es_student r)) dfc) 0) as [out Hout].
    { auto. }
    { rewrite length_map. lia. }
    rewrite Hout. erewrite bind_ok by reflexivity. now eexists.
Qed.

(** The same for the playground. *)
Lemma cluster_playground_succeeds (k : Z) (u : user) (w : world)
  (latest : dataset) :
  engine_sound C -> engine_total C -> complete_is_numeric C ->
  connections w = [] ->
  latest_dataset (datasets (db w)) = Some latest ->
  k = len (filter (fun s => is_record_complete_row (st_info s))
             (select_students (db w) (ds_id latest))) ->
  1 <= k ->
  role u = "Admin" \/ role u = "Viewer" ->
  exists resp, fst (cluster_playground k u w) = Ok resp.
Proof.
  intros Hsound Htotal Hnum Hconn Hlatest Hk Hk1 Hrole.
  unfold cluster_playground. cbv zeta.
  replace (negb (str_in (role u) ["Admin"; "Viewer"])) with false
    by (destruct Hrole as [-> | ->]; reflexivity).
  cbv iota.
  erewrite bind_ok by (apply get_db_connection_ok; exact Hconn).
  cbv beta iota. rewrite Hlatest.
  set (rows := select_students (db w) (ds_id latest)) in *.
  pose proof (filter_length_le (fun s => is_record_complete_row (st_info s)) rows)
    as Hle.
  assert (He : is_empty rows = false).
  { destruct rows; [unfold len in Hk; simpl in Hk; lia|reflexivity]. }
  rewrite He.
  assert (Hlt : (len rows <? k) = false)
    by (apply Z.ltb_ge; unfold len in *; lia).
  rewrite Hlt.
  set (dfc := filter_complete_students_df
                (encode_categorical_safe (DataFrame rows) categorical_cols)).
  assert (Hdfc : List.length dfc
                 = List.length (filter (fun s => is_record_complete_row (st_info s))
                                  rows))
    by apply df_complete_length.
  assert (Hne : is_empty dfc = false).
  { destruct dfc; [unfold len in Hk; simpl in Hdfc; lia|reflexivity]. }
  rewrite Hne.
  destruct (feature_matrix_ok dfc [ColGwa; ColIncome] Hnum) as [X HX].
  { intros r Hr. exact (df_complete_all rows r Hr). }
  { intros col Hcol c. simpl in Hcol. intuition (subst; discriminate). }
  rewrite HX. erewrite bind_ok by reflexivity. cbv beta.
  pose proof (mapR_length _ _ _ HX) as HlenX.
  destruct (cluster_engine X k) as [[preds centroids]|] eqn:Heng.
  2:{ exfalso. apply (Htotal X k); [unfold len in *; lia|assumption]. }
  destruct (Hsound _ _ _ _ Heng) as (Hpreds & _ & _).
  erewrite bind_ok by (unfold fit; rewrite Heng; reflexivity).
  cbv beta. cbn [fst snd].
  destruct (attach_clusters_ok dfc preds) as [out Hout]; [lia|].
  rewrite Hout. erewrite bind_ok by reflexivity. now eexists.
Qed.

End SuccessFacts.

(** ** A k between the complete and the stored students *)

Section EngineReached.
Context {C : Collaborators}.

Lemma bind_raise {A B : Type} (m : M A) (f : A -> M B) (w w1 : world) (e : exn) :
  m w = (Raise e, w1) -> bind m f w = (Raise e, w1).
Proof. intros H. unfold bind. now rewrite H. Qed.

(** The guard of [recluster] counts the stored students: a k that it lets
    through and that exceeds the number of complete ones reaches the
    cluster engine, and the caller gets the engine's error. *)
Lemma recluster_fails_in_the_engine (k : Z) (u : user) (w : world)
  (latest : dataset) :
  engine_rejects C -> complete_is_numeric C ->
  connections w = [] ->
  latest_dataset (datasets (db w)) = Some latest ->
  len (filter (fun s => is_record_complete_row (st_info s))
         (select_students (db w) (ds_id latest))) < k ->
  k <= len (select_students (db w) (ds_id latest)) ->
  exists X,
    recluster k u w
    = (Raise (PyError "ValueError"),
       mkWorld (db w) (connections w) (fits w ++ [(X, k)]) (tasks w)).
Proof.
  intros Hrej Hnum Hconn Hlatest Hlo Hhi.
  unfold recluster. cbv zeta.
  erewrite bind_ok by (apply get_db_connection_ok; exact Hconn).
  cbv beta iota. rewrite Hlatest.
  set (rows := select_students (db w) (ds_id latest)) in *.
  assert (He : is_empty rows = false).
  { destruct rows; [unfold len in *; simpl in *; lia|reflexivity]. }
  rewrite He.
  assert (Hlt : (len rows <? k) = false) by (apply Z.ltb_ge; lia).
  rewrite Hlt.
  replace (is_empty (_pick_feature_columns categorical_cols)) with false
    by reflexivity.
  set (dfc := filter_complete_students_df
                (encode_categorical_safe (DataFrame rows) categorical_cols)).
  assert (Hdfc : List.length dfc
                 = List.length (filter (fun s => is_record_complete_row (st_info s))
                                  rows))
    by apply df_complete_length.
  destruct (feature_matrix_ok dfc (_pick_feature_columns categorical_cols) Hnum)
    as [X HX].
  { intros r Hr. exact (df_complete_all rows r Hr). }
  { intros col Hcol c.
    simpl in Hcol. intuition (subst; discriminate). }
  rewrite HX. erewrite bind_ok by reflexivity. cbv beta.
  pose proof (mapR_length _ _ _ HX) as HlenX.
  assert (Heng : cluster_engine X k = None)
    by (apply Hrej; unfold len in *; lia).
  exists X. apply bind_raise. unfold fit. now rewrite Heng.
Qed.

(** The same for the playground, when at least one student is complete. *)
Lemma cluster_playground_fails_in_the_engine (k : Z) (u : user) (w : world)
  (latest : dataset) :
  engine_rejects C -> complete_is_numeric C ->
  connections w = [] ->
  str_in (role u) ["Admin"; "Viewer"] = true ->
  latest_dataset (datasets (db w)) = Some latest ->
  0 < len (filter (fun s => is_record_complete_row (st_info s))
             (select_students (db w) (ds_id latest))) < k ->
  k <= len (select_students (db w) (ds_id latest)) ->
  exists X,
    cluster_playground k u w
    = (Raise (PyError "ValueError"),
       mkWorld (db w) (connections w) (fits w ++ [(X, k)]) (tasks w)).
Proof.
  intros Hrej Hnum Hconn Hrole Hlatest Hlo Hhi.
  unfold cluster_playground. rewrite Hrole.
  change (negb true) with false. cbv iota.
  erewrite bind_ok by (apply get_db_connection_ok; exact Hconn).
  cbv beta iota. rewrite Hlatest. cbv zeta.
  set (rows := select_students (db w) (ds_id latest)) in *.
  assert (He : is_empty rows = false).
  { destruct rows; [unfold len in *; simpl in *; lia|reflexivity]. }
  rewrite He.
  assert (Hlt : (len rows <? k) = false) by (apply Z.ltb_ge; lia).
  rewrite Hlt.
  set (dfc := filter_complete_students_df
                (encode_categorical_safe (DataFrame rows) categorical_cols)).
  assert (Hdfc : List.length dfc
                 = List.length (filter (fun s => is_record_complete_row (st_info s))
                                  rows))
    by apply df_complete_length.
  assert (Hne : is_empty dfc = false).
  { destruct dfc; [unfold len in *; simpl in *; lia|reflexivity]. }
  rewrite Hne.
  destruct (feature_matrix_ok dfc [ColGwa; ColIncome] Hnum) as [X HX].
  { intros r Hr. exact (df_complete_all rows r Hr). }
  { intros col Hcol c.
    simpl in Hcol. intuition (subst; discriminate). }
  rewrite HX. erewrite bind_ok by reflexivity. cbv beta.
  pose proof (mapR_length _ _ _ HX) as HlenX.
  assert (Heng : cluster_engine X k = None)
    by (apply Hrej; unfold len in *; lia).
  exists X. apply bind_raise. unfold fit. now rewrite Heng.
Qed.

End EngineReached.

(** C2, at an input where the claim and the code part.  Three students
    are stored for the latest dataset and one of them is complete.  A
    request with k = 2 exceeds the number of complete records, so the
    claim has it rejected with a validation error before any clustering.
    The guard of both routes compares k with the number of stored
    students, three, and lets it through: the cluster engine is run on
    the one complete row, and what reaches the caller, Admin or Viewer,
    is the engine's error, not a 400. *)
Theorem k_above_complete_count_reaches_the_engine :
  let w := world_of store_one_complete in
  len (select_students (db w) 1) = 3
  /\ len (filter (fun s => @is_record_complete_row reference (st_info s))
            (select_students (db w) 1)) = 1
  /\ fst (post_recluster (C := reference) 2 viewer w) = Raise (PyError "ValueError")
  /\ List.length (fits (snd (post_recluster (C := reference) 2 viewer w))) = 1%nat
  /\ fst (post_recluster (C := reference) 2 admin w) = Raise (PyError "ValueError")
  /\ List.length (fits (snd (post_recluster (C := reference) 2 admin w))) = 1%nat
  /\ fst (get_playground (C := reference) 2 viewer w) = Raise (PyError "ValueError")
  /\ List.length (fits (snd (get_playground (C := reference) 2 viewer w))) = 1%nat
  /\ fst (post_recluster (C := reference) 4 viewer w)
     = Raise (HTTPException 400 "k cannot be greater than number of students").
Proof. cbv zeta. repeat apply conj; vm_compute; reflexivity. Qed.

(** What the guard does check, and the half of C2 that holds: for a
    request by an Admin or a Viewer, with the store reachable, a k above
    the number of stored students of the latest dataset (complete or not)
    is answered with 400 and the world is left as it was, so no fit has
    run (for the playground when k is within its route bound of 10); and
    with k equal to the number of complete records, at least 2 (and at
    most 10 for the playground), the request succeeds. *)
Lemma k_is_checked_against_stored_students {C : Collaborators}
  (k : Z) (u : user) (w : world) (latest : dataset) :
  connections w = [] ->
  latest_dataset (datasets (db w)) = Some latest ->
  role u = "Admin" \/ role u = "Viewer" ->
  (select_students (db w) (ds_id latest) <> [] ->
   len (select_students (db w) (ds_id latest)) < k ->
   post_recluster k u w
   = (Raise (HTTPException 400 "k cannot be greater than number of students"), w)
   /\ (k <= 10 ->
       get_playground k u w
       = (Raise (HTTPException 400
                   "k cannot be greater than the number of students"), w)))
  /\ (engine_sound C -> engine_total C -> complete_is_numeric C ->
      k = len (filter (fun s => is_record_complete_row (st_info s))
                 (select_students (db w) (ds_id latest))) ->
      2 <= k ->
      (exists resp, fst (post_recluster k u w) = Ok resp)
      /\ (k <= 10 -> exists resp, fst (get_playground k u w) = Ok resp)).
Proof.
  intros Hconn Hlatest Hrole. split.
  - intros Hne Hlt.
    assert (Hk2 : 2 <= k).
    { destruct (select_students (db w) (ds_id latest));
        [now destruct Hne|unfold len in Hlt; simpl in Hlt; lia]. }
    unfold post_recluster, get_playground.
    destruct (Z.ltb_spec k 2); [lia|]. split.
    + now apply recluster_rejects_large_k with (latest := latest).
    + intros H10. destruct (Z.ltb_spec 10 k); [lia|]. simpl.
      apply cluster_playground_rejects_large_k with (latest := latest);
        try assumption.
      destruct Hrole as [-> | ->]; reflexivity.
  - intros Hsound Htotal Hnum Hk Hk2.
    unfold post_recluster, get_playground.
    destruct (Z.ltb_spec k 2); [lia|]. split.
    + apply recluster_succeeds with (latest := latest); auto; lia.
    + intros H10. destruct (Z.ltb_spec 10 k); [lia|]. simpl.
      apply cluster_playground_succeeds with (latest := latest); auto; lia.
Qed.

Lemma reference_complete_is_numeric : complete_is_numeric reference.
Proof.
  intros f H. simpl in H. unfold complete_by_spec in H.
  repeat (apply andb_true_iff in H; destruct H as [H ?]).
  split.
  - destruct (gwa f) as [| |s|q]; simpl in *; try discriminate.
    destruct (parse_unsigned s); [discriminate|congruence].
  - destruct (income f) as [| |s|q]; simpl in *; try discriminate.
    destruct (parse_unsigned s); [discriminate|congruence].
Qed.

Example k_is_checked_against_stored_students_at_three :
  let w := world_of (after_upload "a.csv" sheet3 2 100 empty_store) in
  post_recluster (C := reference) 4 viewer w
  = (Raise (HTTPException 400 "k cannot be greater than number of students"), w)
  /\ (exists resp, fst (post_recluster (C := reference) 3 viewer w) = Ok resp)
  /\ (exists resp, fst (get_playground (C := reference) 3 viewer w) = Ok resp).
Proof.
  intros w.
  destruct (k_is_checked_against_stored_students (C := reference) 4 viewer w
              (mkDataset 1 "a.csv" 1 100 true) eq_refl eq_refl
              (or_intror eq_refl)) as [Hreject _].
  destruct (k_is_checked_against_stored_students (C := reference) 3 viewer w
              (mkDataset 1 "a.csv" 1 100 true) eq_refl eq_refl
              (or_intror eq_refl)) as [_ Haccept].
  split.
  - apply Hreject; [vm_compute; discriminate|vm_compute; reflexivity].
  - destruct (Haccept reference_engine_sound reference_engine_total
                reference_complete_is_numeric) as [H1 H2];
      [vm_compute; reflexivity|lia|].
    split; [exact H1|apply H2; lia].
Defined.

(** ** Edits that complete a record *)

Section EditFacts.
Context {C : Collaborators}.

Lemma catch_ok {A : Type} (m : M A) (h : exn -> M A) (w w1 : world) (a : A) :
  m w = (Ok a, w1) -> catch m h w = (Ok a, w1).
Proof. intros H. unfold catch. now rewrite H. Qed.

Lemma select_student_updated (c : store) (student_id : Z) (s : student)
  (info : fields) (honors income_category : value) :
  select_student c student_id = Some s ->
  select_student (update_student_row student_id info honors income_category c)
    student_id
  = Some (mkStudent (st_id s) (st_dataset_id s) info honors income_category).
Proof.
  unfold select_student, update_student_row. simpl.
  induction (students c) as [|x l IH]; simpl; [discriminate|].
  destruct (st_id x =? student_id) eqn:E; simpl.
  - rewrite E. intros H. now inversion H.
  - rewrite E. exact IH.
Qed.

(** The world an edit leaves when every connection succeeds. *)
Lemma update_student_spec (student_id : Z) (data : student_data) (u : user)
  (w : world) (student : student) :
  connections w = [] ->
  select_student (db w) student_id = Some student ->
  let info := edited_fields data (st_info student) in
  let edited :=
    insert_activity (user_id u) "Edit Student Record"
      (update_student_row student_id info (classify_honors (gwa info))
         (classify_income (income info)) (db w)) in
  let became_complete :=
    negb (is_record_complete_row (st_info student))
    && is_record_complete_row info in
  update_student student_id data u w
  = (Ok StudentUpdated,
     mkWorld edited (connections w) (fits w)
       (if became_complete
        then tasks w ++ [mkTask (k_to_use_of (select_last_k (db w))) u]
        else tasks w)).
Proof.
  intros Hconn Hsel. destruct w as [d cs fs ts]. simpl in Hconn, Hsel.
  subst cs. cbn [db connections fits tasks].
  set (info := edited_fields data (st_info student)).
  set (edited := insert_activity (user_id u) "Edit Student Record"
                   (update_student_row student_id info
                      (classify_honors (gwa info))
                      (classify_income (income info)) d)).
  set (became_complete := negb (is_record_complete_row (st_info student))
                          && is_record_complete_row info).
  unfold update_student. cbv zeta.
  erewrite bind_ok by (apply get_db_connection_ok; reflexivity).
  cbv beta iota. cbn [db]. rewrite Hsel. fold info.
  set (w2 := mkWorld edited [] fs ts).
  erewrite bind_ok with (a := tt) (w1 := w2).
  2:{ apply catch_ok. reflexivity. }
  erewrite bind_ok by (apply get_db_connection_ok; reflexivity).
  cbv beta iota. cbn [db w2].
  assert (Hupd : select_student edited student_id
                 = Some (mkStudent (st_id student) (st_dataset_id student) info
                           (classify_honors (gwa info))
                           (classify_income (income info)))).
  { unfold edited. unfold select_student, insert_activity. cbn [students].
    apply (select_student_updated d student_id student). exact Hsel. }
  rewrite Hupd. cbn [st_info]. fold became_complete.
  destruct became_complete.
  - erewrite bind_ok with (a := tt)
      (w1 := mkWorld edited [] fs
               (ts ++ [mkTask (k_to_use_of (select_last_k d)) u])).
    + reflexivity.
    + erewrite bind_ok by (apply get_db_connection_ok; reflexivity).
      reflexivity.
  - erewrite bind_ok by reflexivity. reflexivity.
Qed.



End EditFacts.




(** ** Edits and the store invariant *)

Section EditInvariant.
Context {C : Collaborators}.

Lemma catch_inv {A : Type} (m : M A) (h : exn -> M A) (w : world)
  (r : result A) (w' : world) :
  catch m h w = (r, w') ->
  m w = (r, w') \/ exists e w1, m w = (Raise e, w1) /\ h e w1 = (r, w').
Proof.
  unfold catch. destruct (m w) as [[a|e] w1]; intros H.
  - now left.
  - right. now exists e, w1.
Qed.

Lemma store_wf_update_student_row (student_id : Z) (info : fields)
  (honors income_category : value) (c : store) :
  store_wf c ->
  store_wf (update_student_row student_id info honors income_category c).
Proof.
  intros [H1 H2 H3 H4 H5].
  set (upd := fun s : student =>
                if st_id s =? student_id
                then mkStudent (st_id s) (st_dataset_id s) info honors
                       income_category
                else s).
  assert (Hid : forall s, st_id (upd s) = st_id s /\
                          st_dataset_id (upd s) = st_dataset_id s).
  { intros s. unfold upd. destruct (st_id s =? student_id); auto. }
  assert (Hin : forall s, In s (map upd (students c)) ->
                  exists s0, In s0 (students c) /\ st_id s = st_id s0 /\
                             st_dataset_id s = st_dataset_id s0).
  { intros s Hs. apply in_map_iff in Hs. destruct Hs as [s0 [<- Hs0]].
    exists s0. destruct (Hid s0). auto. }
  constructor; unfold update_student_row; cbn [students clusters student_cluster
    next_student_id next_cluster_id]; fold upd; try assumption.
  - rewrite map_map. rewrite (map_ext _ st_id); [assumption|].
    intros s. apply Hid.
  - intros s Hs. destruct (Hin s Hs) as (s0 & Hs0 & -> & _). now apply H2.
  - intros a Ha. destruct (H5 a Ha) as (r & Hr & Hrid & Hds).
    exists r. split; [assumption|split; [assumption|]].
    intros s Hs Hsid. destruct (Hin s Hs) as (s0 & Hs0 & Hi & ->).
    apply Hds; [assumption|congruence].
Qed.

(** What an edit leaves in the store, on every path. *)
Lemma update_student_inv (student_id : Z) (data : student_data) (u : user)
  (w : world) (r : result response) (w' : world) :
  update_student student_id data u w = (r, w') ->
  db w' = db w \/
  exists student,
    select_student (db w) student_id = Some student /\
    let info := edited_fields data (st_info student) in
    let updated :=
      update_student_row student_id info (classify_honors (gwa info))
        (classify_income (income info)) (db w) in
    db w' = updated \/
    db w' = insert_activity (user_id u) "Edit Student Record" updated.
Proof.
  unfold update_student. cbv zeta. intros E.
  apply bind_inv in E. destruct E as [(conn & w0 & E0 & E)|(e & E0 & _)];
    destruct (get_db_connection_inv _ _ _ E0) as (Hdb0 & _ & _ & Hconn);
    [|now left].
  destruct Hconn as [Hc|Hc]; inversion Hc; subst conn; clear Hc;
    [|inversion E; subst; now left].
  destruct (select_student (db w) student_id) as [student|] eqn:Hsel;
    [|inversion E; subst; now left].
  right. exists student. split; [reflexivity|]. cbv zeta.
  set (info := edited_fields data (st_info student)) in *.
  set (updated := update_student_row student_id info
                    (classify_honors (gwa info))
                    (classify_income (income info)) (db w)) in *.
  assert (Hedit : forall rr ww,
             (commit updated ;;; log_activity (user_id u) "Edit Student Record")
               w0 = (rr, ww) ->
             (rr = Ok tt /\
              db ww = insert_activity (user_id u) "Edit Student Record" updated)
             \/ (exists e, rr = Raise e /\ db ww = updated)).
  { intros rr ww Em.
    apply bind_inv in Em. destruct Em as [(x & w1 & E1 & Em)|(e & E1 & _)];
      [|discriminate].
    inversion E1; subst x w1. clear E1. unfold log_activity in Em.
    apply bind_inv in Em. destruct Em as [(conn & w2 & E2 & Em)|(e & E2 & _)];
      destruct (get_db_connection_inv _ _ _ E2) as (Hdb2 & _ & _ & Hconn);
      cbn [db] in Hdb2; [|destruct Hconn; subst; discriminate].
    destruct Hconn as [Hc|Hc]; inversion Hc; subst conn; clear Hc.
    - inversion Em; subst. left. split; reflexivity.
    - inversion Em; subst. right. eexists. split; [reflexivity|assumption]. }
  apply bind_inv in E. destruct E as [(x & w1 & E1 & E)|(e & E1 & _)].
  - assert (Hdb1 : db w1
                   = insert_activity (user_id u) "Edit Student Record" updated).
    { apply catch_inv in E1. destruct E1 as [E1|(e & w2 & _ & E1)];
        [|discriminate].
      destruct (Hedit _ _ E1) as [[_ H]|(e & He & _)]; [exact H|discriminate]. }
    right. rewrite <- Hdb1. revert E.
    match goal with
    | |- ?m w1 = (r, w') -> _ =>
        assert (Htail : preserves (fun a b => b = a) m)
    end.
    { repeat frame_step. }
    intros E. exact (Htail _ _ _ E).
  - left. apply catch_inv in E1. destruct E1 as [E1|(e0 & w2 & E1 & E2)].
    + destruct (Hedit _ _ E1) as [[He _]|(e0 & _ & H)]; [discriminate|exact H].
    + destruct (Hedit _ _ E1) as [[He _]|(e1 & _ & H)]; [discriminate|].
      inversion E2; subst. exact H.
Qed.

(** An edit keeps the invariant, whatever it returns. *)
Lemma update_student_wf (student_id : Z) (data : student_data) (u : user)
  (w : world) (r : result response) (w' : world) :
  update_student student_id data u w = (r, w') ->
  store_wf (db w) -> store_wf (db w').
Proof.
  intros E Hwf. destruct (update_student_inv _ _ _ _ _ _ E)
    as [Hdb|(student & _ & Hdb)].
  - now rewrite Hdb.
  - cbv zeta in Hdb.
    pose proof (store_wf_update_student_row student_id
                  (edited_fields data (st_info student))
                  (classify_honors (gwa (edited_fields data (st_info student))))
                  (classify_income (income (edited_fields data (st_info student))))
                  (db w) Hwf) as Hu.
    destruct Hdb as [-> | ->]; [assumption|].
    eapply store_wf_ext; [| | | | |exact Hu]; reflexivity.
Qed.

End EditInvariant.

(** ** Who gets an assignment *)

Section Assigned.
Context {C : Collaborators}.

Lemma set_clusters_ok (df : list prepared) (preds : list Z) :
  List.length preds
  = List.length (filter (fun r => is_record_complete_row (pr_info r)) df) ->
  exists Cluster, set_clusters df preds = Ok Cluster.
Proof.
  revert preds. induction df as [|r df IH]; intros preds H; simpl in *.
  - destruct preds; [now eexists|discriminate].
  - destruct (is_record_complete_row (pr_info r)).
    + destruct preds as [|p ps]; [discriminate|].
      simpl in H. destruct (IH ps) as [cs ->]; [lia|]. now eexists.
    + destruct (IH preds H) as [cs ->]. now eexists.
Qed.

(** A requested k is the k of the run. *)
Lemma upload_cluster_requested (dfc : list prepared) (k0 : Z) (w : world)
  (locals : upload_locals) (w1 : world) :
  upload_cluster dfc (Some k0) w = (Ok locals, w1) ->
  up_k locals = Some k0.
Proof.
  unfold upload_cluster. destruct (is_empty dfc).
  - intros H. inversion H. reflexivity.
  - cbv zeta. intros E.
    apply bind_inv in E. destruct E as [(k' & w0 & E0 & E)|(e & _ & ?)];
      [|discriminate].
    inversion E0; subst k' w0. clear E0.
    apply bind_inv in E. destruct E as [(fitted & w2 & E2 & E)|(e & _ & ?)];
      [|discriminate].
    inversion E. reflexivity.
Qed.

(** What the rows committed by an upload look like. *)
Lemma upload_rows_assigned (fn : string) (uid now : Z) (locals : upload_locals)
  (df : list prepared) (Cluster : list Z) (k : option Z) (c c' : store)
  (w0 w1 : world) :
  engine_sound C ->
  store_wf c ->
  upload_cluster (filter (fun r => is_record_complete_row (pr_info r)) df) k w0
  = (Ok locals, w1) ->
  (if is_empty (filter (fun r => is_record_complete_row (pr_info r)) df)
   then Ok (map (fun _ => -1) df)
   else set_clusters df (up_preds locals)) = Ok Cluster ->
  (c' = fst (upload_persist fn uid now locals df Cluster c)
   \/ c' = insert_activity uid "Upload Dataset"
             (fst (upload_persist fn uid now locals df Cluster c))) ->
  exists run k_used,
    In run (clusters c')
    /\ cl_id run = next_cluster_id c
    /\ cl_dataset_id run = next_dataset_id c
    /\ cl_k run = up_k locals
    /\ (forall k0, k = Some k0 -> cl_k run = Some k0)
    /\ (filter (fun r => is_record_complete_row (pr_info r)) df <> [] ->
        cl_k run = Some k_used /\ len (cl_centroids run) = k_used)
    /\ rows_assigned df (next_student_id c) run k_used c'.
Proof.
  intros Hsound Hwf E1 E2 Hdb.
  destruct (upload_persist_spec fn uid now locals df Cluster c)
    as (Hs & Ha & Hc & _).
  cbv zeta in Hs, Ha, Hc.
  assert (Hst : students c'
                = students c
                  ++ new_students (next_dataset_id c) (next_student_id c)
                       (combine df Cluster))
    by (destruct Hdb as [-> | ->]; exact Hs).
  assert (Has : student_cluster c'
                = student_cluster c
                  ++ new_assignments (next_cluster_id c) (next_student_id c)
                       (combine df Cluster))
    by (destruct Hdb as [-> | ->]; exact Ha).
  assert (Hcl : clusters c'
                = clusters c
                  ++ [mkCluster (next_cluster_id c) (next_dataset_id c)
                        (up_k locals) (up_centroids locals)])
    by (destruct Hdb as [-> | ->]; exact Hc).
  clear Hs Ha Hc Hdb.
  assert (Hold : forall i : nat,
             filter (fun a => sc_student_id a =? next_student_id c + Z.of_nat i)
               (student_cluster c) = []).
  { intros i. apply filter_none. intros a Hin.
    apply (wf_assignment_fresh _ Hwf) in Hin. apply Z.eqb_neq. lia. }
  assert (Hreq : forall k0, k = Some k0 -> up_k locals = Some k0).
  { intros k0 ->. exact (upload_cluster_requested _ _ _ _ _ E1). }
  assert (Hrows : exists k_used,
             (filter (fun r => is_record_complete_row (pr_info r)) df <> [] ->
              up_k locals = Some k_used /\
              len (up_centroids locals) = k_used) /\
             List.length Cluster = List.length df /\
             forall i row c,
               nth_error df i = Some row -> nth_error Cluster i = Some c ->
               if is_record_complete_row (pr_info row)
               then 0 <= c < k_used else c = -1).
  { destruct (upload_cluster_inv _ _ _ _ _ E1)
      as [[Hnil ->]|(Hne & X & k' & HX & Hk & Heng & _)].
    - exists 0. rewrite Hnil in *. simpl in E2. inversion E2; subst Cluster.
      split; [intros Hc; now destruct Hc|].
      split; [now rewrite length_map|].
      intros i row c0 Hr Hc.
      rewrite (filter_nil_all _ _ row Hnil (nth_error_In _ _ Hr)).
      rewrite nth_error_map, Hr in Hc. now inversion Hc.
    - exists k'. destruct (Hsound _ _ _ _ Heng) as (_ & Hrange & Hcent).
      split; [intros _; now split|].
      destruct (filter _ df) eqn:Ef; [now destruct Hne|].
      simpl in E2. destruct (set_clusters_spec _ _ _ E2) as [Hl Hi].
      split; [assumption|].
      intros i row c0 Hr Hc. specialize (Hi i row c0 Hr Hc).
      destruct (is_record_complete_row (pr_info row)); [|assumption].
      rewrite Forall_forall in Hrange. now apply Hrange. }
  destruct Hrows as (k_used & Hk & Hlen & Hlab).
  eexists. exists k_used.
  split; [rewrite Hcl; apply in_or_app; right; now left|].
  split; [reflexivity|]. split; [reflexivity|]. split; [reflexivity|].
  split; [exact Hreq|]. split; [exact Hk|].
  intros i row Hr sid. cbn [cl_dataset_id cl_id].
  destruct (nth_error_combine df Cluster i row Hlen Hr) as (c0 & Hc & Hrc).
  split.
  { rewrite Hst. apply in_or_app. right.
    exact (new_students_at _ _ _ _ _ Hrc). }
  unfold assignments_of. rewrite Has, filter_app. unfold sid.
  rewrite Hold, (new_assignments_at _ _ _ _ _ Hrc). simpl.
  specialize (Hlab i row c0 Hr Hc).
  destruct (is_record_complete_row (pr_info row)).
  + exists c0. split; [assumption|].
    destruct (Z.eqb_spec c0 (-1)); [lia|reflexivity].
  + subst c0. reflexivity.
Qed.

End Assigned.

Section UploadSucceeds.
Context {C : Collaborators}.

(** The clustering step of an upload for a requested k that the complete
    rows allow. *)
Lemma upload_cluster_ok (dfc : list prepared) (k : Z) (w : world) :
  engine_sound C -> engine_total C ->
  1 <= k <= len dfc ->
  exists preds centroids q,
    List.length preds = List.length dfc /\
    upload_cluster dfc (Some k) w
    = (Ok (mkLocals (Some k) preds centroids (Some q)),
       mkWorld (db w) (connections w)
         (fits w ++ [(map (fun r => [numeric_cell (gwa (pr_info r));
                                     numeric_cell (income (pr_info r))]) dfc,
                      k)])
         (tasks w)).
Proof.
  intros Hsound Htotal Hk. unfold upload_cluster.
  destruct dfc as [|r0 rest] eqn:Ed; [unfold len in Hk; simpl in Hk; lia|].
  rewrite <- Ed in *. replace (is_empty dfc) with false by (now rewrite Ed).
  cbv zeta.
  set (X := map (fun r => [numeric_cell (gwa (pr_info r));
                           numeric_cell (income (pr_info r))]) dfc).
  assert (HX : List.length X = List.length dfc) by apply length_map.
  destruct (cluster_engine X k) as [[preds centroids]|] eqn:Heng.
  2:{ exfalso. apply (Htotal X k); [unfold len in *; lia|assumption]. }
  destruct (Hsound _ _ _ _ Heng) as (Hpreds & _ & _).
  exists preds, centroids.
  exists (match quality_scores X preds with
          | Some scores => scores
          | None => (0%Q, 0%Q, 0%Q)
          end).
  split; [congruence|].
  unfold bind, ret, fit. rewrite Heng. reflexivity.
Qed.

Lemma upload_dataset_with_k (fn : string) (sheet : frame) (df : list prepared)
  (k now : Z) (u : user) (w : world) :
  engine_sound C -> engine_total C ->
  connections w = [] ->
  role u = "Admin" ->
  (endswith fn ".csv" || endswith fn ".xlsx") = true ->
  normalize_and_prepare_df sheet = Ok df ->
  1 <= k <= len (filter (fun r => is_record_complete_row (pr_info r)) df) ->
  exists q w',
    upload_dataset fn (Some sheet) (Some k) now u w
    = (Ok (UploadResult (next_dataset_id (db w)) (len df) (Some k) q), w').
Proof.
  intros Hsound Htotal Hconn Hrole Hext Hn Hk.
  unfold upload_dataset. rewrite Hrole, Hext.
  change (negb (String.eqb "Admin" "Admin")) with false.
  change (negb true) with false. cbv iota.
  set (dfc := filter (fun r => is_record_complete_row (pr_info r)) df) in *.
  destruct (upload_cluster_ok dfc k w Hsound Htotal Hk)
    as (preds & centroids & q & Hlen & Hcl).
  destruct (set_clusters_ok df preds Hlen) as [Cluster HC].
  assert (Hne : is_empty dfc = false).
  { destruct dfc; [unfold len in Hk; simpl in Hk; lia|reflexivity]. }
  exists q. eexists.
  apply catch_ok. unfold upload_try.
  erewrite bind_ok by reflexivity. cbv beta.
  erewrite bind_ok by (unfold lift; rewrite Hn; reflexivity). cbv beta zeta.
  fold dfc. erewrite bind_ok by exact Hcl. cbv beta.
  rewrite Hne. cbn [up_preds]. rewrite HC.
  erewrite bind_ok by reflexivity. cbv beta.
  erewrite bind_ok by (apply get_db_connection_ok; exact Hconn).
  cbv beta iota. cbn [db user_id].
  erewrite bind_ok by reflexivity. cbv beta.
  erewrite bind_ok
    by (unfold log_activity;
        erewrite bind_ok by (apply get_db_connection_ok; exact Hconn);
        reflexivity).
  cbv beta. cbn [up_quality up_k].
  destruct (upload_persist_spec fn (user_id u) now
              (mkLocals (Some k) preds centroids (Some q)) df Cluster (db w))
    as (_ & _ & _ & _ & _ & _ & Hid).
  rewrite Hid. reflexivity.
Qed.

End UploadSucceeds.

Section ReclusterSaves.
Context {C : Collaborators}.

(** An Admin's recluster with a k that the complete students allow is
    saved. *)
Lemma recluster_saves (k : Z) (u : user) (w : world) (latest : dataset) :
  engine_sound C -> engine_total C -> complete_is_numeric C ->
  connections w = [] ->
  latest_dataset (datasets (db w)) = Some latest ->
  1 <= k <= len (filter (fun s => is_record_complete_row (st_info s))
                   (select_students (db w) (ds_id latest))) ->
  role u = "Admin" ->
  exists w', recluster k u w = (Ok (ReclusterSaved k), w').
Proof.
  intros Hsound Htotal Hnum Hconn Hlatest Hk Hrole.
  unfold recluster. cbv zeta.
  erewrite bind_ok by (apply get_db_connection_ok; exact Hconn).
  cbv beta iota. rewrite Hlatest.
  set (rows := select_students (db w) (ds_id latest)) in *.
  pose proof (filter_length_le (fun s => is_record_complete_row (st_info s)) rows)
    as Hle.
  assert (He : is_empty rows = false).
  { destruct rows; [unfold len in Hk; simpl in Hk; lia|reflexivity]. }
  rewrite He.
  assert (Hlt : (len rows <? k) = false)
    by (apply Z.ltb_ge; unfold len in *; lia).
  rewrite Hlt.
  replace (is_empty (_pick_feature_columns categorical_cols)) with false
    by reflexivity.
  set (dfc := filter_complete_students_df
                (encode_categorical_safe (DataFrame rows) categorical_cols)).
  assert (Hdfc : List.length dfc
                 = List.length (filter (fun s => is_record_complete_row (st_info s))
                                  rows))
    by apply df_complete_length.
  destruct (feature_matrix_ok dfc (_pick_feature_columns categorical_cols) Hnum)
    as [X HX].
  { intros r Hr. exact (df_complete_all rows r Hr). }
  { intros col Hcol c.
    simpl in Hcol. intuition (subst; discriminate). }
  rewrite HX. erewrite bind_ok by reflexivity. cbv beta.
  pose proof (mapR_length _ _ _ HX) as HlenX.
  destruct (cluster_engine X k) as [[preds centroids]|] eqn:Heng.
  2:{ exfalso. apply (Htotal X k); [unfold len in *; lia|assumption]. }
  destruct (Hsound _ _ _ _ Heng) as (Hpreds & _ & _).
  erewrite bind_ok by (unfold fit; rewrite Heng; reflexivity).
  cbv beta. cbn [fst snd].
  rewrite Hrole.
  change (String.eqb "Admin" "Admin") with true. cbv iota.
  erewrite bind_ok by (apply get_db_connection_ok; exact Hconn).
  cbv beta iota. cbn [db].
  destruct (replace_cluster_run_ok (ds_id latest) k centroids preds
              (map (fun r => st_id (es_student r)) dfc) (db w)) as [c2 Hc2].
  { rewrite length_map. lia. }
  rewrite Hc2. erewrite bind_ok by reflexivity. cbv beta.
  erewrite bind_ok by reflexivity. now eexists.
Qed.

(** What a saved recluster leaves in the store. *)
Lemma recluster_students_assigned (k : Z) (u : user) (w : world) (k' : Z)
  (w' : world) :
  engine_sound C ->
  store_wf (db w) ->
  recluster k u w = (Ok (ReclusterSaved k'), w') ->
  exists latest run,
    latest_dataset (datasets (db w)) = Some latest
    /\ role u = "Admin" /\ k' = k
    /\ In run (clusters (db w'))
    /\ cl_id run = next_cluster_id (db w)
    /\ cl_dataset_id run = ds_id latest
    /\ cl_k run = Some k
    /\ len (cl_centroids run) = k
    /\ students_assigned (ds_id latest) run k (db w').
Proof.
  intros Hsound Hwf Hrun.
  destruct (recluster_saved_inv _ _ _ _ _ Hrun)
    as (latest & X & preds & centroids & Hlatest & Hrole & -> & HX & Heng & Hrep).
  apply replace_cluster_run_spec in Hrep.
  rewrite clustered_student_ids_eq in Hrep.
  destruct Hrep as (Hlen & Ha & Hc & Hs & _).
  destruct (Hsound _ _ _ _ Heng) as (_ & Hrange & Hcent).
  exists latest. eexists.
  split; [assumption|]. split; [assumption|]. split; [reflexivity|].
  split; [rewrite Hc; apply in_or_app; right; now left|].
  split; [reflexivity|]. split; [reflexivity|]. split; [reflexivity|].
  split; [exact Hcent|].
  intros s Hin Hd. cbn [cl_id]. rewrite Hs in Hin.
  assert (Hsel : In s (select_students (db w) (ds_id latest)))
    by (apply filter_In; split; [assumption|now apply Z.eqb_eq]).
  unfold assignments_of. rewrite Ha, filter_app.
  rewrite (filter_none (fun a => sc_student_id a =? st_id s)).
  2:{ intros a Hk. apply filter_In in Hk. destruct Hk as [Hold Hnot].
      apply Z.eqb_neq. intros Hid.
      destruct (wf_assignment_run _ Hwf a Hold) as (r0 & Hr0 & Hrid & Hds).
      specialize (Hds s Hin (eq_sym Hid)).
      apply negb_true_iff in Hnot.
      assert (Hex : existsb (Z.eqb (sc_cluster_id a))
                      (select_cluster_ids (db w) (ds_id latest)) = true).
      { apply existsb_exists. exists (cl_id r0).
        split; [|apply Z.eqb_eq; auto].
        unfold select_cluster_ids. apply in_map. apply filter_In.
        split; [assumption|apply Z.eqb_eq; congruence]. }
      congruence. }
  simpl.
  pose proof (NoDup_complete_ids (students (db w)) (ds_id latest)
                (wf_student_ids _ Hwf)) as Hnd.
  fold (select_students (db w) (ds_id latest)) in Hnd.
  destruct (is_record_complete_row (st_info s)) eqn:Ec.
  + assert (Hid : In (st_id s)
                    (map st_id
                       (filter (fun s => is_record_complete_row (st_info s))
                          (select_students (db w) (ds_id latest)))))
      by (apply in_map; apply filter_In; auto).
    destruct (paired_rows_present (next_cluster_id (db w)) (st_id s) _ preds
                Hnd Hid Hlen) as (p & Hp & Hf).
    exists p. split; [|exact Hf].
    rewrite Forall_forall in Hrange. now apply Hrange.
  + apply paired_rows_absent. intros Hid.
    apply in_map_iff in Hid. destruct Hid as (s' & Hsid & Hs').
    apply filter_In in Hs'. destruct Hs' as [Hs' Hc'].
    apply filter_In in Hs'. destruct Hs' as [Hs' _].
    rewrite (NoDup_map_inj st_id (students (db w)) s' s
               (wf_student_ids _ Hwf) Hs' Hin Hsid) in Hc'.
    congruence.
Qed.

End ReclusterSaves.

(** C3: an Admin's upload of a sheet with a requested k between 1 and the
    number of complete rows returns successfully, and it has written,
    for the row at position [i] of the normalized sheet, the student with
    the next id plus [i]; that student has exactly one assignment row, to
    the new run and with a label in [0, k), when the row is complete, and
    none when it is not; the new run records the requested k and holds k
    centroids.  Whatever an upload returns, it either raises with the
    store untouched or has written the rows in this way, the run
    recording the requested k when one was given.  An Admin's official
    recluster with a k between 1 and the number of complete students of
    the latest dataset is saved, and every saved recluster leaves each
    student of that dataset with exactly one assignment row, to the new
    run and with a label in [0, k), when the student is complete, and
    with none when it is not. *)
Theorem complete_rows_get_the_assignments {C : Collaborators} :
  engine_sound C ->
  (engine_total C ->
   forall fn sheet df k now u w,
     store_wf (db w) ->
     connections w = [] ->
     role u = "Admin" ->
     (endswith fn ".csv" || endswith fn ".xlsx") = true ->
     normalize_and_prepare_df sheet = Ok df ->
     1 <= k <= len (filter (fun r => is_record_complete_row (pr_info r)) df) ->
     exists q w' run,
       upload_dataset fn (Some sheet) (Some k) now u w
       = (Ok (UploadResult (next_dataset_id (db w)) (len df) (Some k) q), w')
       /\ In run (clusters (db w'))
       /\ cl_id run = next_cluster_id (db w)
       /\ cl_dataset_id run = next_dataset_id (db w)
       /\ cl_k run = Some k
       /\ len (cl_centroids run) = k
       /\ rows_assigned df (next_student_id (db w)) run k (db w'))
  /\ (forall fn sheet k now u w r w',
        store_wf (db w) ->
        upload_dataset fn (Some sheet) k now u w = (r, w') ->
        (db w' = db w /\ forall resp, r <> Ok resp) \/
        exists df run k_used,
          normalize_and_prepare_df sheet = Ok df
          /\ In run (clusters (db w'))
          /\ cl_id run = next_cluster_id (db w)
          /\ cl_dataset_id run = next_dataset_id (db w)
          /\ (forall k0, k = Some k0 -> cl_k run = Some k0)
          /\ (filter (fun r => is_record_complete_row (pr_info r)) df <> [] ->
              cl_k run = Some k_used /\ len (cl_centroids run) = k_used)
          /\ (forall d t kk q,
                r = Ok (UploadResult d t kk q) ->
                d = cl_dataset_id run /\ t = len df /\ kk = cl_k run)
          /\ rows_assigned df (next_student_id (db w)) run k_used (db w'))
  /\ (engine_total C -> complete_is_numeric C ->
      forall k u w latest,
        store_wf (db w) ->
        connections w = [] ->
        role u = "Admin" ->
        latest_dataset (datasets (db w)) = Some latest ->
        1 <= k <= len (filter (fun s => is_record_complete_row (st_info s))
                         (select_students (db w) (ds_id latest))) ->
        exists w' run,
          recluster k u w = (Ok (ReclusterSaved k), w')
          /\ In run (clusters (db w'))
          /\ cl_id run = next_cluster_id (db w)
          /\ cl_dataset_id run = ds_id latest
          /\ cl_k run = Some k
          /\ len (cl_centroids run) = k
          /\ students_assigned (ds_id latest) run k (db w'))
  /\ (forall k u w k' w',
        store_wf (db w) ->
        recluster k u w = (Ok (ReclusterSaved k'), w') ->
        exists latest run,
          latest_dataset (datasets (db w)) = Some latest
          /\ In run (clusters (db w'))
          /\ cl_id run = next_cluster_id (db w)
          /\ cl_dataset_id run = ds_id latest
          /\ cl_k run = Some k
          /\ len (cl_centroids run) = k
          /\ students_assigned (ds_id latest) run k (db w')).
Proof.
  intros Hsound.
  assert (Hany : forall fn sheet k now u w r w',
             store_wf (db w) ->
             upload_dataset fn (Some sheet) k now u w = (r, w') ->
             (db w' = db w /\ forall resp, r <> Ok resp) \/
             exists df run k_used,
               normalize_and_prepare_df sheet = Ok df
               /\ In run (clusters (db w'))
               /\ cl_id run = next_cluster_id (db w)
               /\ cl_dataset_id run = next_dataset_id (db w)
               /\ (forall k0, k = Some k0 -> cl_k run = Some k0)
               /\ (filter (fun r => is_record_complete_row (pr_info r)) df
                   <> [] ->
                   cl_k run = Some k_used /\ len (cl_centroids run) = k_used)
               /\ (forall d t kk q,
                     r = Ok (UploadResult d t kk q) ->
                     d = cl_dataset_id run /\ t = len df /\ kk = cl_k run)
               /\ rows_assigned df (next_student_id (db w)) run k_used (db w')).
  { intros fn sheet k now u w r w' Hwf Hup.
    destruct (upload_dataset_inv _ _ _ _ _ _ _ _ Hup)
      as [Hl|(sheet' & df & locals & Cluster & w1 & Hf & Hn & E1 & E2 & Hdb
              & Hres)]; [now left|right].
    inversion Hf; subst sheet'. clear Hf.
    destruct (upload_rows_assigned fn (user_id u) now locals df Cluster k
                (db w) (db w') w w1 Hsound Hwf E1 E2 Hdb)
      as (run & k_used & Hin & Hid & Hds & Hk & Hreq & Hne & Hrows).
    exists df, run, k_used.
    repeat (split; [assumption|]). split; [|exact Hrows].
    intros d t kk q Hr. destruct (Hres d t kk q Hr) as (-> & -> & -> & _).
    rewrite Hds, Hk. auto. }
  assert (Hsaved : forall k u w k' w',
             store_wf (db w) ->
             recluster k u w = (Ok (ReclusterSaved k'), w') ->
             exists latest run,
               latest_dataset (datasets (db w)) = Some latest
               /\ In run (clusters (db w'))
               /\ cl_id run = next_cluster_id (db w)
               /\ cl_dataset_id run = ds_id latest
               /\ cl_k run = Some k
               /\ len (cl_centroids run) = k
               /\ students_assigned (ds_id latest) run k (db w')).
  { intros k u w k' w' Hwf Hrun.
    destruct (recluster_students_assigned _ _ _ _ _ Hsound Hwf Hrun)
      as (latest & run & H1 & _ & _ & H2).
    exists latest, run. split; assumption. }
  split; [|split; [exact Hany|split; [|exact Hsaved]]].
  - intros Htotal fn sheet df k now u w Hwf Hconn Hrole Hext Hn Hk.
    destruct (upload_dataset_with_k fn sheet df k now u w Hsound Htotal Hconn
                Hrole Hext Hn Hk) as (q & w' & Hup).
    exists q, w'.
    destruct (Hany _ _ _ _ _ _ _ _ Hwf Hup)
      as [[_ Hno]|(df' & run & k_used & Hn' & Hin & Hid & Hds & Hreq & Hne
                   & _ & Hrows)].
    { exfalso. exact (Hno _ eq_refl). }
    rewrite Hn in Hn'. inversion Hn'; subst df'. clear Hn'.
    assert (Hnonempty : filter (fun r => is_record_complete_row (pr_info r)) df
                        <> []).
    { intros E. rewrite E in Hk. unfold len in Hk. simpl in Hk. lia. }
    destruct (Hne Hnonempty) as [Hku Hcent].
    assert (Ek : k_used = k)
      by (rewrite (Hreq k eq_refl) in Hku; congruence).
    rewrite Ek in *. clear Ek.
    exists run. split; [exact Hup|].
    repeat (split; [first [assumption | now apply Hreq]|]). exact Hrows.
  - intros Htotal Hnum k u w latest Hwf Hconn Hrole Hlatest Hk.
    destruct (recluster_saves k u w latest Hsound Htotal Hnum Hconn Hlatest Hk
                Hrole) as [w' Hrun].
    exists w'.
    destruct (Hsaved _ _ _ _ _ Hwf Hrun)
      as (latest' & run & Hl' & Hin & Hid & Hds & Hkr & Hc & Hst).
    rewrite Hlatest in Hl'. inversion Hl'; subst latest'.
    exists run. repeat (split; [assumption|]). exact Hst.
Qed.

Lemma complete_rows_get_the_assignments_witness :
  let w := world_of empty_store in
  let df := prepare_rows (C := reference) rows10 in
  exists q w' run,
    upload_dataset (C := reference) "x.csv" (Some sheet10) (Some 2) 5 admin w
    = (Ok (UploadResult (next_dataset_id (db w)) (len df) (Some 2) q), w')
    /\ In run (clusters (db w'))
    /\ cl_id run = next_cluster_id (db w)
    /\ cl_dataset_id run = next_dataset_id (db w)
    /\ cl_k run = Some 2
    /\ len (cl_centroids run) = 2
    /\ rows_assigned (C := reference) df (next_student_id (db w)) run 2 (db w').
Proof.
  cbv zeta.
  refine (proj1 (complete_rows_get_the_assignments (C := reference)
                   reference_engine_sound)
            reference_engine_total "x.csv" sheet10
            (prepare_rows (C := reference) rows10) 2 5 admin
            (world_of empty_store) store_wf_empty eq_refl eq_refl eq_refl _ _).
  - vm_compute. reflexivity.
  - split; vm_compute; discriminate.
Defined.

(** * Further properties of the routes *)

(** ** Codes and categories *)

Section CodeFacts.
Context {C : Collaborators}.

Lemma index_of_In (l : list string) (s : string) :
  In s l -> exists i, index_of s l = Some i.
Proof.
  induction l as [|x r IH]; intros H; [destruct H|].
  simpl. destruct (String.eqb_spec x s) as [E|N]; [now exists 0|].
  destruct H as [H|H]; [contradiction|].
  destruct (IH H) as [i ->]. now exists (Z.succ i).
Qed.

Lemma first_seen_codes_agree (keys col : list string) :
  (forall s, In s col -> In s keys) ->
  codes_agree col (first_seen_codes keys col).
Proof.
  intros Hk i j a b Ha Hb. unfold first_seen_codes.
  assert (Ia : In a (unique keys))
    by (apply unique_complete, Hk; eapply nth_error_In; eauto).
  assert (Ib : In b (unique keys))
    by (apply unique_complete, Hk; eapply nth_error_In; eauto).
  destruct (index_of_In _ _ Ia) as [ci Eci].
  destruct (index_of_In _ _ Ib) as [cj Ecj].
  exists ci, cj. repeat split.
  - rewrite nth_error_map, Ha. simpl. now rewrite Eci.
  - rewrite nth_error_map, Hb. simpl. now rewrite Ecj.
  - intros ->. apply (index_of_inj (unique keys)); congruence.
  - intros ->. congruence.
Qed.

Lemma fit_transform_column_agree (col : list string) (codes : list (option Z)) :
  LabelEncoder_contract LabelEncoder_fit_transform ->
  fit_transform_column col = Some codes ->
  codes_agree col codes.
Proof.
  intros Hle. unfold fit_transform_column.
  destruct (LabelEncoder_fit_transform col) as [zs|] eqn:E; [|discriminate].
  destruct (Nat.eqb _ _); [|discriminate].
  intros H. inversion H; subst. clear H.
  destruct (Hle col zs E) as [code [-> Hinj]].
  intros i j a b Ha Hb. exists (code a), (code b). repeat split.
  - rewrite !nth_error_map, Ha. reflexivity.
  - rewrite !nth_error_map, Hb. reflexivity.
  - apply Hinj; eapply nth_error_In; eauto.
  - intros ->. reflexivity.
Qed.

End CodeFacts.

Section EncodedFrames.
Context {C : Collaborators}.

Lemma encode_column_safe_agree (col : list value) :
  LabelEncoder_contract LabelEncoder_fit_transform ->
  codes_agree (map (fun v => str (coerce_clusters v)) col) (encode_column_safe col).
Proof.
  intros Hle. unfold encode_column_safe.
  destruct (fit_transform_column _) as [codes|] eqn:E.
  - now apply fit_transform_column_agree.
  - apply first_seen_codes_agree. auto.
Qed.

Lemma prepare_column_agree (col : list value) :
  LabelEncoder_contract LabelEncoder_fit_transform ->
  codes_agree (map (fun v => str (coerce_datasets v)) col) (snd (prepare_column col)).
Proof.
  intros Hle. unfold prepare_column. rewrite <- (map_map coerce_datasets str).
  assert (Hid : map coerce_datasets (map coerce_datasets col)
                = map coerce_datasets col).
  { rewrite map_map. apply map_ext. apply coerce_datasets_idem. }
  rewrite Hid.
  destruct (fit_transform_column _) as [codes|] eqn:E; simpl.
  - now apply fit_transform_column_agree.
  - apply first_seen_codes_agree. auto.
Qed.

Lemma nth_error_zip {X Y : Type} (xs : list X) (ys : list Y) (n : nat) (x : X) (y : Y) :
  nth_error (combine xs ys) n = Some (x, y) ->
  nth_error xs n = Some x /\ nth_error ys n = Some y.
Proof.
  revert ys n. induction xs as [|x0 xs IH]; intros [|y0 ys] [|n] H;
    simpl in *; try discriminate.
  - inversion H. auto.
  - now apply IH.
Qed.

Lemma attach_codes_nth (c : categorical) (codes : list (option Z))
  (df : list encoded_student) (i : nat) (r' : encoded_student) :
  nth_error (attach_codes c codes df) i = Some r' ->
  exists r code,
    nth_error df i = Some r /\ nth_error codes i = Some code /\
    r' = mkEncoded (es_student r) (es_enc r ++ [(c, code)]).
Proof.
  unfold attach_codes. rewrite nth_error_map.
  destruct (nth_error (combine df codes) i) as [[r code]|] eqn:E; [|discriminate].
  simpl. intros H. inversion H. apply nth_error_zip in E.
  exists r, code. tauto.
Qed.

(** The "_enc" cells of a row after [encode_categorical_safe]: one per
    listed column, holding that column's code at the row's position. *)
Lemma encode_categorical_safe_nth (cats : list categorical)
  (df : list encoded_student) (i : nat) (r' : encoded_student) :
  nth_error (encode_categorical_safe df cats) i = Some r' ->
  exists r,
    nth_error df i = Some r /\ es_student r' = es_student r /\
    es_enc r'
    = es_enc r
      ++ map (fun c =>
                (c, nth i (encode_column_safe
                             (map (fun s => column c (st_info s))
                                (map es_student df))) None)) cats.
Proof.
  revert df. induction cats as [|c cats IH]; intros df H.
  - exists r'. simpl in *. rewrite app_nil_r. auto.
  - unfold encode_categorical_safe in H. simpl in H.
    fold (encode_categorical_safe
            (attach_codes c
               (encode_column_safe
                  (map (fun r => column c (st_info (es_student r))) df)) df)
            cats) in H.
    destruct (IH _ H) as [r1 [H1 [S1 E1]]].
    destruct (attach_codes_nth _ _ _ _ _ H1) as [r [code [Hr [Hc ->]]]].
    exists r. split; [exact Hr|]. split; [exact S1|].
    rewrite E1. simpl. rewrite <- app_assoc. simpl.
    rewrite attach_codes_students
      by (rewrite encode_column_safe_length; apply length_map).
    rewrite map_map. f_equal. f_equal. f_equal.
    symmetry. now apply nth_error_nth.
Qed.

Lemma enc_cell_listed (c : categorical) (cats : list categorical)
  (f : categorical -> option Z) :
  In c cats ->
  enc_cell c (map (fun c' => (c', f c')) cats)
  = match f c with
    | Some z => VNum (inject_Z z)
    | None => VNaN
    end.
Proof.
  induction cats as [|c' cats IH]; intros H; [destruct H|].
  simpl. destruct (categorical_eqb c' c) eqn:E.
  - assert (c' = c) by (destruct c', c; simpl in E; congruence). now subst.
  - destruct H as [->|H]; [destruct c; discriminate|]. now apply IH.
Qed.

Lemma categorical_cols_all (c : categorical) : In c categorical_cols.
Proof. destruct c; simpl; tauto. Qed.

End EncodedFrames.

Section PreparedFrames.
Context {C : Collaborators}.

Lemma column_set_column_other (c c' : categorical) (v : value) (f : fields) :
  c' <> c -> column c' (set_column c v f) = column c' f.
Proof. destruct c, c'; simpl; congruence. Qed.

Lemma column_set_column_same (c : categorical) (v : value) (f : fields) :
  column c (set_column c v f) = v.
Proof. destruct c; reflexivity. Qed.

Lemma prepare_categorical_other (df : list prepared) (c c' : categorical) :
  c' <> c ->
  map (fun r => column c' (pr_info r)) (prepare_categorical df c)
  = map (fun r => column c' (pr_info r)) df.
Proof.
  intros N.
  pose proof (prepare_categorical_view df c) as V.
  apply (f_equal (map (fun t => column c' (fst (fst t))))) in V.
  rewrite !map_map in V. simpl in V. rewrite V.
  apply map_ext. intros r. now apply column_set_column_other.
Qed.

Lemma prepare_categorical_nth (df : list prepared) (c : categorical) (i : nat)
  (r' : prepared) :
  nth_error (prepare_categorical df c) i = Some r' ->
  exists r code,
    nth_error df i = Some r /\
    nth_error (snd (prepare_column (map (fun r => column c (pr_info r)) df))) i
    = Some code /\
    pr_enc r' = pr_enc r ++ [(c, code)].
Proof.
  unfold prepare_categorical. cbv zeta. rewrite nth_error_map.
  destruct (nth_error (combine df _) i) as [[r [filled code]]|] eqn:E;
    [|discriminate].
  simpl. intros H. inversion H. simpl.
  apply nth_error_zip in E. destruct E as [Hr E].
  apply nth_error_zip in E. destruct E as [_ Hc].
  exists r, code. auto.
Qed.

Lemma fold_prepare_categorical_nth (cats : list categorical) (df : list prepared)
  (i : nat) (r' : prepared) :
  NoDup cats ->
  nth_error (fold_left prepare_categorical cats df) i = Some r' ->
  exists r,
    nth_error df i = Some r /\
    pr_enc r'
    = pr_enc r
      ++ map (fun c =>
                (c, nth i (snd (prepare_column
                                  (map (fun r => column c (pr_info r)) df)))
                      None)) cats.
Proof.
  revert df. induction cats as [|c cats IH]; intros df ND H.
  - exists r'. simpl in *. rewrite app_nil_r. auto.
  - inversion ND as [|? ? Hc ND']; subst. simpl in H.
    destruct (IH _ ND' H) as [r1 [H1 E1]].
    destruct (prepare_categorical_nth _ _ _ _ H1) as [r [code [Hr [Hcode E]]]].
    exists r. split; [exact Hr|].
    rewrite E1, E. simpl. rewrite <- app_assoc. simpl.
    f_equal. f_equal.
    + f_equal. symmetry. now apply nth_error_nth.
    + apply map_ext_in. intros c' Hc'.
      rewrite prepare_categorical_other; [reflexivity|].
      intros ->. contradiction.
Qed.

Lemma NoDup_categorical_cols : NoDup categorical_cols.
Proof.
  unfold categorical_cols.
  repeat (constructor; [simpl; intuition discriminate|]). constructor.
Qed.

Lemma coerce_datasets_filled (v : value) :
  isna (coerce_datasets v) = false /\ coerce_datasets v <> VStr "".
Proof.
  unfold coerce_datasets, replace, fillna.
  destruct v as [| |s|q]; simpl; try (split; [reflexivity|discriminate]).
  destruct (String.eqb_spec s ""); simpl; split; try reflexivity;
    try discriminate. congruence.
Qed.

End PreparedFrames.

Section CodeTheorems.
Context {C : Collaborators}.

(** X1 ([clusters.encode_categorical_safe]): given a label encoder that
    separates values, every row of the encoded frame of stored students
    has a code in each of the five "_enc" columns, and two rows carry the
    same code exactly when their cells, coerced to strings, are equal;
    this holds on the encoder's path and on the fallback path alike. *)
Theorem encoded_students_share_code_iff_same_string
  (rows : list student) (c : categorical) (i j : nat)
  (r1 r2 : encoded_student) :
  LabelEncoder_contract LabelEncoder_fit_transform ->
  nth_error (encode_categorical_safe (DataFrame rows) categorical_cols) i
  = Some r1 ->
  nth_error (encode_categorical_safe (DataFrame rows) categorical_cols) j
  = Some r2 ->
  exists c1 c2,
    enc_cell c (es_enc r1) = VNum (inject_Z c1) /\
    enc_cell c (es_enc r2) = VNum (inject_Z c2) /\
    (c1 = c2 <->
     str (coerce_clusters (column c (st_info (es_student r1))))
     = str (coerce_clusters (column c (st_info (es_student r2))))).
Proof.
  intros Hle H1 H2.
  destruct (encode_categorical_safe_nth _ _ _ _ H1) as [a [Ha [Sa Ea]]].
  destruct (encode_categorical_safe_nth _ _ _ _ H2) as [b [Hb [Sb Eb]]].
  unfold DataFrame in Ha, Hb. rewrite nth_error_map in Ha, Hb.
  destruct (nth_error rows i) as [sa|] eqn:Ra; [|discriminate].
  destruct (nth_error rows j) as [sb|] eqn:Rb; [|discriminate].
  simpl in Ha, Hb. inversion Ha; subst a. inversion Hb; subst b.
  cbn [es_student es_enc app] in Sa, Sb, Ea, Eb. clear Ha Hb.
  rewrite DataFrame_students in Ea, Eb.
  pose proof (encode_column_safe_agree
                (map (fun s => column c (st_info s)) rows) Hle) as Hag.
  destruct (Hag i j (str (coerce_clusters (column c (st_info sa))))
              (str (coerce_clusters (column c (st_info sb)))))
    as [c1 [c2 [N1 [N2 Hiff]]]].
  { rewrite !nth_error_map, Ra. reflexivity. }
  { rewrite !nth_error_map, Rb. reflexivity. }
  exists c1, c2.
  rewrite Ea, Eb, Sa, Sb.
  rewrite !(enc_cell_listed c categorical_cols) by apply categorical_cols_all.
  rewrite (nth_error_nth _ _ None N1), (nth_error_nth _ _ None N2).
  auto.
Qed.

Lemma prepare_rows_codes (sheet : list fields) (c : categorical) (i j : nat)
  (r1 r2 : prepared) :
  LabelEncoder_contract LabelEncoder_fit_transform ->
  nth_error (prepare_rows sheet) i = Some r1 ->
  nth_error (prepare_rows sheet) j = Some r2 ->
  isna (column c (pr_info r1)) = false /\
  column c (pr_info r1) <> VStr "" /\
  exists c1 c2,
    enc_cell c (pr_enc r1) = VNum (inject_Z c1) /\
    enc_cell c (pr_enc r2) = VNum (inject_Z c2) /\
    (c1 = c2 <->
     str (column c (pr_info r1)) = str (column c (pr_info r2))).
Proof.
  intros Hle H1 H2.
  pose proof (prepare_rows_view sheet) as V.
  assert (I1 : exists f1, nth_error sheet i = Some f1 /\
                          pr_info r1 = prepared_fields f1).
  { apply (f_equal (fun l => nth_error l i)) in V.
    rewrite !nth_error_map, H1 in V. simpl in V.
    destruct (nth_error sheet i) as [f|]; [|discriminate].
    exists f. simpl in V. inversion V. auto. }
  assert (I2 : exists f2, nth_error sheet j = Some f2 /\
                          pr_info r2 = prepared_fields f2).
  { apply (f_equal (fun l => nth_error l j)) in V.
    rewrite !nth_error_map, H2 in V. simpl in V.
    destruct (nth_error sheet j) as [f|]; [|discriminate].
    exists f. simpl in V. inversion V. auto. }
  destruct I1 as [f1 [F1 P1]]. destruct I2 as [f2 [F2 P2]].
  assert (Hcol : forall f, column c (prepared_fields f)
                           = coerce_datasets (column c f))
    by (intros f; destruct c; reflexivity).
  rewrite P1, P2, !Hcol.
  destruct (coerce_datasets_filled (column c f1)) as [Hna Hne].
  split; [exact Hna|]. split; [exact Hne|].
  unfold prepare_rows in H1, H2. cbv zeta in H1, H2.
  destruct (fold_prepare_categorical_nth _ _ _ _ NoDup_categorical_cols H1)
    as [a [Ha Ea]].
  destruct (fold_prepare_categorical_nth _ _ _ _ NoDup_categorical_cols H2)
    as [b [Hb Eb]].
  rewrite nth_error_map in Ha, Hb. rewrite F1 in Ha. rewrite F2 in Hb.
  simpl in Ha, Hb. inversion Ha; subst a. inversion Hb; subst b.
  cbn [pr_enc app] in Ea, Eb. clear Ha Hb.
  assert (Hraw : forall c',
            map (fun x => column c'
                   (mkFields (firstname x) (lastname x) (sex x) (program x)
                      (municipality x) (to_numeric_coerce (income x))
                      (shs_type x) (shs_origin x) (to_numeric_coerce (gwa x))))
              sheet
            = map (column c') sheet)
    by (intros c'; apply map_ext; intros x; destruct c'; reflexivity).
  pose proof (prepare_column_agree (map (column c) sheet) Hle) as Hag.
  destruct (Hag i j (str (coerce_datasets (column c f1)))
              (str (coerce_datasets (column c f2))))
    as [c1 [c2 [N1 [N2 Hiff]]]].
  { rewrite !nth_error_map, F1. reflexivity. }
  { rewrite !nth_error_map, F2. reflexivity. }
  exists c1, c2. rewrite Ea, Eb.
  rewrite !(enc_cell_listed c categorical_cols) by apply categorical_cols_all.
  rewrite !map_map. cbn [pr_info]. rewrite !Hraw.
  rewrite (nth_error_nth _ _ None N1), (nth_error_nth _ _ None N2).
  auto.
Qed.

Lemma normalize_and_prepare_df_rows (sheet : frame) (df : list prepared) :
  normalize_and_prepare_df sheet = Ok df ->
  exists rows, df = prepare_rows rows.
Proof.
  unfold normalize_and_prepare_df. cbv zeta.
  destruct (split_name _) as [df1|e]; [|discriminate]. cbn [and_then].
  destruct (required_rows _) as [rows|e]; [|discriminate]. cbn [and_then].
  intros H. inversion H. now exists rows.
Qed.

(** X2 ([datasets.normalize_and_prepare_df]): given a label encoder that
    separates values, every row of the frame returned for a sheet has a
    code in each of the five "_enc" columns, its categorical cell is
    neither null nor the empty string, and two rows carry the same code
    exactly when their filled cells are equal as strings. *)
Theorem prepared_rows_share_code_iff_same_string
  (sheet : frame) (df : list prepared) (c : categorical) (i j : nat)
  (r1 r2 : prepared) :
  LabelEncoder_contract LabelEncoder_fit_transform ->
  normalize_and_prepare_df sheet = Ok df ->
  nth_error df i = Some r1 ->
  nth_error df j = Some r2 ->
  isna (column c (pr_info r1)) = false /\
  column c (pr_info r1) <> VStr "" /\
  exists c1 c2,
    enc_cell c (pr_enc r1) = VNum (inject_Z c1) /\
    enc_cell c (pr_enc r2) = VNum (inject_Z c2) /\
    (c1 = c2 <->
     str (column c (pr_info r1)) = str (column c (pr_info r2))).
Proof.
  intros Hle Hn H1 H2.
  destruct (normalize_and_prepare_df_rows _ _ Hn) as [rows ->].
  exact (prepare_rows_codes rows c i j r1 r2 Hle H1 H2).
Qed.

End CodeTheorems.

Lemma encoded_students_share_code_iff_same_string_witness :
  let rows := students (after_upload "x.csv" sheet10 2 5 empty_store) in
  let df := encode_categorical_safe (C := reference) (DataFrame rows)
              categorical_cols in
  let r1 := nth 0 df (mkEncoded (mkStudent 0 0 (filled_row 0 0) VNone VNone) []) in
  let r2 := nth 2 df (mkEncoded (mkStudent 0 0 (filled_row 0 0) VNone VNone) []) in
  exists c1 c2,
    enc_cell Program (es_enc r1) = VNum (inject_Z c1) /\
    enc_cell Program (es_enc r2) = VNum (inject_Z c2) /\
    (c1 = c2 <->
     str (C := reference)
       (coerce_clusters (C := reference) (column Program (st_info (es_student r1))))
     = str (C := reference)
         (coerce_clusters (C := reference)
            (column Program (st_info (es_student r2))))).
Proof.
  cbv zeta.
  apply (encoded_students_share_code_iff_same_string (C := reference)
           (students (after_upload "x.csv" sheet10 2 5 empty_store))
           Program 0 2).
  - exact sklearn_fit_transform_contract.
  - vm_compute. reflexivity.
  - vm_compute. reflexivity.
Defined.

Lemma prepared_rows_share_code_iff_same_string_witness :
  let df := prepare_rows (C := reference)
              [filled_row 90 10000; filled_row 85 12000; no_income_row 88] in
  let d := mkPrepared (filled_row 0 0) VNone VNone [] in
  let r1 := nth 0 df d in
  let r2 := nth 2 df d in
  isna (column Program (pr_info r1)) = false /\
  column Program (pr_info r1) <> VStr "" /\
  exists c1 c2,
    enc_cell Program (pr_enc r1) = VNum (inject_Z c1) /\
    enc_cell Program (pr_enc r2) = VNum (inject_Z c2) /\
    (c1 = c2 <->
     str (C := reference) (column Program (pr_info r1))
     = str (C := reference) (column Program (pr_info r2))).
Proof.
  cbv zeta.
  apply (prepared_rows_share_code_iff_same_string (C := reference)
           (sheet_of [filled_row 90 10000; filled_row 85 12000;
                      no_income_row 88])
           (prepare_rows (C := reference)
              [filled_row 90 10000; filled_row 85 12000; no_income_row 88])
           Program 0 2).
  - exact sklearn_fit_transform_contract.
  - vm_compute. reflexivity.
  - vm_compute. reflexivity.
  - vm_compute. reflexivity.
Defined.

(** ** What a re-clustering can change *)

Section ReclusterWrites.
Context {C : Collaborators}.

(** X3 ([clusters.recluster]): whatever a call returns or raises, it
    leaves the [datasets], [students] and [activity_logs] tables and the
    student and dataset counters as they were, and it changes the store
    only when it answers that the run was saved, which takes the Admin
    role.  A failed call and a Viewer's preview write nothing. *)
Theorem recluster_writes_only_a_saved_run (k : Z) (u : user) (w : world)
  (r : result response) (w' : world) :
  recluster k u w = (r, w') ->
  datasets (db w') = datasets (db w)
  /\ students (db w') = students (db w)
  /\ activity_logs (db w') = activity_logs (db w)
  /\ next_student_id (db w') = next_student_id (db w)
  /\ next_dataset_id (db w') = next_dataset_id (db w)
  /\ (db w' <> db w -> r = Ok (ReclusterSaved k) /\ role u = "Admin").
Proof.
  intros H. destruct (recluster_inv _ _ _ _ _ H) as [[E _]|Hs].
  - rewrite E. do 5 (split; [reflexivity|]). intros N. now destruct N.
  - destruct Hs as [latest [X [preds [centroids [-> [_ [Hr [_ [_ Hrun]]]]]]]]].
    destruct (replace_cluster_run_spec _ _ _ _ _ _ _ Hrun)
      as [_ [_ [_ [Hst [Hds [Hal [Hns [_ Hnd]]]]]]]].
    do 5 (split; [assumption|]). intros _. split; [reflexivity|exact Hr].
Qed.

(** X4 ([clusters.recluster]): a call keeps the store well formed:
    student ids stay unique and below their counter, and every
    assignment row still points at a stored run of its student's
    dataset. *)
Theorem recluster_keeps_the_store_well_formed (k : Z) (u : user) (w : world)
  (r : result response) (w' : world) :
  store_wf (db w) -> recluster k u w = (r, w') -> store_wf (db w').
Proof. intros Hwf H. exact (recluster_wf _ _ _ _ _ H Hwf). Qed.

End ReclusterWrites.

Lemma recluster_writes_only_a_saved_run_witness :
  let w := world_of (after_upload "a.csv" sheet3 2 100 empty_store) in
  let out := recluster (C := reference) 3 admin w in
  datasets (db (snd out)) = datasets (db w)
  /\ students (db (snd out)) = students (db w)
  /\ activity_logs (db (snd out)) = activity_logs (db w)
  /\ next_student_id (db (snd out)) = next_student_id (db w)
  /\ next_dataset_id (db (snd out)) = next_dataset_id (db w)
  /\ (db (snd out) <> db w ->
      fst out = Ok (ReclusterSaved 3) /\ role admin = "Admin").
Proof.
  cbv zeta.
  exact (recluster_writes_only_a_saved_run (C := reference) 3 admin _ _ _
           (surjective_pairing _)).
Defined.

Lemma after_upload_wf (name : string) (sheet : frame) (k now : Z) (c : store) :
  store_wf c -> store_wf (after_upload name sheet k now c).
Proof.
  intros Hwf. unfold after_upload.
  exact (upload_dataset_wf (C := reference) _ _ _ _ _ (world_of c) _ _
           (surjective_pairing _) Hwf).
Qed.

Lemma recluster_keeps_the_store_well_formed_witness :
  let c := after_upload "a.csv" sheet3 2 100 empty_store in
  store_wf (db (snd (recluster (C := reference) 3 admin (world_of c)))).
Proof.
  intros c.
  assert (Hwf : store_wf (db (world_of c)))
    by (exact (after_upload_wf "a.csv" sheet3 2 100 empty_store store_wf_empty)).
  exact (recluster_keeps_the_store_well_formed (C := reference) 3 admin
           (world_of c) _ _ Hwf (surjective_pairing _)).
Defined.

(** ** What an upload leaves behind *)

Section UploadOutcomes.
Context {C : Collaborators}.

(** X5 ([datasets.upload_dataset]): whatever an upload returns or raises,
    it keeps the store well formed: student ids stay unique and below
    their counter, and every assignment row points at a stored run of its
    student's dataset. *)
Theorem upload_keeps_the_store_well_formed (fn : string) (file : option frame)
  (k : option Z) (now : Z) (u : user) (w : world) (r : result response)
  (w' : world) :
  store_wf (db w) ->
  upload_dataset fn file k now u w = (r, w') ->
  store_wf (db w').
Proof. intros Hwf H. exact (upload_dataset_wf _ _ _ _ _ _ _ _ H Hwf). Qed.

Lemma persist_rows_logs (d cid : Z) (rows : list (prepared * Z)) (B : store) :
  activity_logs (fold_left (persist_row d cid) rows B) = activity_logs B.
Proof.
  revert B. induction rows as [|rc rows IH]; intros B; [reflexivity|].
  simpl. rewrite IH. unfold persist_row. cbv zeta.
  destruct (snd rc =? -1); reflexivity.
Qed.

(** The [datasets] and [activity_logs] tables after the statements of an
    upload. *)
Lemma upload_persist_datasets (fn : string) (uid now : Z)
  (locals : upload_locals) (df : list prepared) (Cluster : list Z) (B : store) :
  datasets (fst (upload_persist fn uid now locals df Cluster B))
  = map (fun d => mkDataset (ds_id d) (ds_filename d) (ds_uploaded_by d)
                    (ds_upload_date d) false) (datasets B)
    ++ [mkDataset (next_dataset_id B) fn uid now true]
  /\ activity_logs (fst (upload_persist fn uid now locals df Cluster B))
     = activity_logs B.
Proof.
  unfold upload_persist. cbv zeta. cbn [fst snd].
  split.
  - destruct (persist_rows_spec
                (snd (insert_dataset fn uid now (deactivate_datasets B)))
                (snd (insert_cluster
                        (snd (insert_dataset fn uid now (deactivate_datasets B)))
                        (up_k locals) (up_centroids locals)
                        (fst (insert_dataset fn uid now (deactivate_datasets B)))))
                (combine df Cluster)
                (fst (insert_cluster
                        (snd (insert_dataset fn uid now (deactivate_datasets B)))
                        (up_k locals) (up_centroids locals)
                        (fst (insert_dataset fn uid now (deactivate_datasets B))))))
      as (_ & _ & _ & Hd & _).
    rewrite Hd. reflexivity.
  - rewrite persist_rows_logs. reflexivity.
Qed.

(** X6 ([datasets.upload_dataset]): an Admin's upload of a sheet in which
    no row is complete never answers with success, whatever k is asked
    for: every row is committed as a student of a new, active dataset
    with an empty cluster run recording the requested k, no assignment is
    written, the upload is logged, and the caller gets the 500 of the
    [except] clause, because the response reads quality metrics that this
    branch never assigned. *)
Theorem upload_without_complete_rows_commits_then_fails (fn : string)
  (sheet : frame) (df : list prepared) (k : option Z) (now : Z) (u : user)
  (w : world) :
  connections w = [] ->
  role u = "Admin" ->
  (endswith fn ".csv" || endswith fn ".xlsx") = true ->
  normalize_and_prepare_df sheet = Ok df ->
  filter (fun r => is_record_complete_row (pr_info r)) df = [] ->
  exists w',
    upload_dataset fn (Some sheet) k now u w
    = (Raise (HTTPException 500 "Error processing dataset"), w')
    /\ fits w' = fits w
    /\ datasets (db w')
       = map (fun d => mkDataset (ds_id d) (ds_filename d) (ds_uploaded_by d)
                         (ds_upload_date d) false) (datasets (db w))
         ++ [mkDataset (next_dataset_id (db w)) fn (user_id u) now true]
    /\ clusters (db w')
       = clusters (db w)
         ++ [mkCluster (next_cluster_id (db w)) (next_dataset_id (db w)) k []]
    /\ students (db w')
       = students (db w)
         ++ new_students (next_dataset_id (db w)) (next_student_id (db w))
              (combine df (map (fun _ => -1) df))
    /\ student_cluster (db w') = student_cluster (db w)
    /\ activity_logs (db w')
       = activity_logs (db w) ++ [mkActivity (user_id u) "Upload Dataset"].
Proof.
  intros Hconn Hrole Hext Hn Hnone.
  unfold upload_dataset. rewrite Hrole, Hext.
  change (negb (String.eqb "Admin" "Admin")) with false.
  change (negb true) with false. cbv iota.
  set (locals := mkLocals k [] [] None).
  set (Cluster := map (fun _ : prepared => -1) df).
  set (P := upload_persist fn (user_id u) now locals df Cluster (db w)).
  exists (mkWorld (insert_activity (user_id u) "Upload Dataset" (fst P))
            (connections w) (fits w) (tasks w)).
  split.
  - unfold catch, upload_try.
    erewrite bind_ok by reflexivity. cbv beta.
    erewrite bind_ok by (unfold lift; rewrite Hn; reflexivity). cbv beta zeta.
    rewrite Hnone. unfold upload_cluster. cbn [is_empty].
    erewrite bind_ok by reflexivity. cbv beta.
    erewrite bind_ok by reflexivity. cbv beta.
    erewrite bind_ok by (apply get_db_connection_ok; exact Hconn).
    cbv beta iota. fold locals Cluster P.
    erewrite bind_ok by reflexivity. cbv beta.
    erewrite bind_ok
      by (unfold log_activity;
          erewrite bind_ok by (apply get_db_connection_ok; exact Hconn);
          reflexivity).
    cbv beta. cbn [up_quality locals]. reflexivity.
  - cbn [db fits].
    destruct (upload_persist_spec fn (user_id u) now locals df Cluster (db w))
      as (Hs & Ha & Hc & _).
    fold P in Hs, Ha, Hc.
    destruct (upload_persist_datasets fn (user_id u) now locals df Cluster
                (db w)) as (Hd & Hl).
    fold P in Hd, Hl.
    split; [reflexivity|]. split; [exact Hd|].
    split; [exact Hc|]. split; [exact Hs|]. split.
    + cbn [student_cluster insert_activity]. rewrite Ha.
      assert (Hno : forall (id0 : Z) (rows : list prepared),
                 new_assignments (next_cluster_id (db w)) id0
                   (combine rows (map (fun _ : prepared => -1) rows)) = []).
      { intros id0 rows. revert id0.
        induction rows as [|r rows IH]; intros id0; [reflexivity|].
        simpl. apply IH. }
      unfold Cluster. rewrite Hno. apply app_nil_r.
    + cbn [activity_logs insert_activity]. now rewrite Hl.
Qed.

End UploadOutcomes.

Lemma upload_keeps_the_store_well_formed_witness :
  let w := world_of empty_store in
  store_wf
    (db (snd (upload_dataset (C := reference) "a.csv" (Some sheet3) (Some 2) 100
                admin w))).
Proof.
  intros w.
  exact (upload_keeps_the_store_well_formed (C := reference) "a.csv"
           (Some sheet3) (Some 2) 100 admin w _ _ store_wf_empty
           (surjective_pairing _)).
Defined.

Lemma upload_without_complete_rows_commits_then_fails_witness :
  let w := world_of empty_store in
  let df := prepare_rows (C := reference) [no_income_row 88; no_income_row 79] in
  exists w',
    upload_dataset (C := reference) "x.csv" (Some sheet_incomplete) (Some 2) 5
      admin w
    = (Raise (HTTPException 500 "Error processing dataset"), w')
    /\ fits w' = fits w
    /\ datasets (db w')
       = map (fun d => mkDataset (ds_id d) (ds_filename d) (ds_uploaded_by d)
                         (ds_upload_date d) false) (datasets (db w))
         ++ [mkDataset (next_dataset_id (db w)) "x.csv" (user_id admin) 5 true]
    /\ clusters (db w')
       = clusters (db w)
         ++ [mkCluster (next_cluster_id (db w)) (next_dataset_id (db w))
               (Some 2) []]
    /\ students (db w')
       = students (db w)
         ++ new_students (C := reference) (next_dataset_id (db w))
              (next_student_id (db w)) (combine df (map (fun _ => -1) df))
    /\ student_cluster (db w') = student_cluster (db w)
    /\ activity_logs (db w')
       = activity_logs (db w) ++ [mkActivity (user_id admin) "Upload Dataset"].
Proof.
  intros w df.
  refine (upload_without_complete_rows_commits_then_fails (C := reference)
            "x.csv" sheet_incomplete df (Some 2) 5 admin w
            eq_refl eq_refl eq_refl _ _).
  - vm_compute. reflexivity.
  - vm_compute. reflexivity.
Defined.

Section ActiveDataset.
Context {C : Collaborators}.

(** X7 ([datasets.upload_dataset]): in a store whose dataset ids were
    handed out by the counter, a successful upload leaves exactly its own
    dataset active: the response's [dataset_id] names a stored dataset
    with the uploaded file's name, the uploader and the time of the
    upload, and a stored dataset is active exactly when it bears that id.
    The ids stay below the counter. *)
Theorem upload_activates_only_the_new_dataset (fn : string)
  (file : option frame) (k : option Z) (now : Z) (u : user) (w w' : world)
  (d t : Z) (kk : option Z) (q : Q * Q * Q) :
  dataset_ids_fresh (db w) ->
  upload_dataset fn file k now u w = (Ok (UploadResult d t kk q), w') ->
  dataset_ids_fresh (db w')
  /\ (forall x, In x (datasets (db w')) -> ds_is_active x = (ds_id x =? d))
  /\ In (mkDataset d fn (user_id u) now true) (datasets (db w')).
Proof.
  intros Hfresh E.
  destruct (upload_dataset_inv _ _ _ _ _ _ _ _ E)
    as [[_ Hno]|(sheet & df & locals & Cluster & w1 & _ & _ & _ & _ & Hdb & Hresp)].
  { exfalso. eapply Hno. reflexivity. }
  destruct (Hresp d t kk q eq_refl) as (Hd & _). subst d.
  destruct (upload_persist_datasets fn (user_id u) now locals df Cluster (db w))
    as (Hds & _).
  destruct (upload_persist_spec fn (user_id u) now locals df Cluster (db w))
    as (_ & _ & _ & _ & _ & Hnext & _).
  cbv zeta in Hnext.
  assert (Hds' : datasets (db w')
                 = map (fun d => mkDataset (ds_id d) (ds_filename d)
                                   (ds_uploaded_by d) (ds_upload_date d) false)
                     (datasets (db w))
                   ++ [mkDataset (next_dataset_id (db w)) fn (user_id u) now true])
    by (destruct Hdb as [-> | ->]; cbn [datasets insert_activity]; exact Hds).
  assert (Hnext' : next_dataset_id (db w') = next_dataset_id (db w) + 1)
    by (destruct Hdb as [-> | ->]; cbn [next_dataset_id insert_activity];
        exact Hnext).
  split; [|split].
  - intros x Hin. rewrite Hds' in Hin. rewrite Hnext'.
    apply in_app_or in Hin. destruct Hin as [Hin|[<-|[]]].
    + apply in_map_iff in Hin. destruct Hin as (x0 & <- & Hin0).
      cbn [ds_id]. specialize (Hfresh x0 Hin0). lia.
    + cbn [ds_id]. lia.
  - intros x Hin. rewrite Hds' in Hin.
    apply in_app_or in Hin. destruct Hin as [Hin|[<-|[]]].
    + apply in_map_iff in Hin. destruct Hin as (x0 & <- & Hin0).
      cbn [ds_id ds_is_active]. specialize (Hfresh x0 Hin0).
      symmetry. apply Z.eqb_neq. lia.
    + cbn [ds_id ds_is_active]. symmetry. apply Z.eqb_refl.
  - rewrite Hds'. apply in_or_app. right. now left.
Qed.

End ActiveDataset.

Lemma upload_activates_only_the_new_dataset_witness :
  let w := world_of (after_upload "a.csv" sheet3 2 100 empty_store) in
  let out := upload_dataset (C := reference) "b.csv" (Some sheet2) (Some 2) 200
               admin w in
  dataset_ids_fresh (db (snd out))
  /\ (forall x, In x (datasets (db (snd out))) ->
        ds_is_active x = (ds_id x =? 2))
  /\ In (mkDataset 2 "b.csv" (user_id admin) 200 true)
       (datasets (db (snd out))).
Proof.
  intros w out.
  assert (Hfresh : dataset_ids_fresh (db w)).
  { intros x Hin. vm_compute in Hin. destruct Hin as [<-|[]].
    vm_compute. reflexivity. }
  assert (Hout : out = (Ok (UploadResult 2 2 (Some 2) (0%Q, 0%Q, 0%Q)), snd out))
    by (vm_compute; reflexivity).
  exact (upload_activates_only_the_new_dataset (C := reference) "b.csv"
           (Some sheet2) (Some 2) 200 admin w (snd out) 2 2 (Some 2)
           (0%Q, 0%Q, 0%Q) Hfresh Hout).
Defined.

(** ** What an edit changes *)

Section EditOutcomes.
Context {C : Collaborators}.

Lemma update_student_row_tables (student_id : Z) (info : fields)
  (honors income_category : value) (c : store) :
  let c' := update_student_row student_id info honors income_category c in
  map (fun s => (st_id s, st_dataset_id s)) (students c')
  = map (fun s => (st_id s, st_dataset_id s)) (students c)
  /\ (forall s, In s (students c') -> st_id s <> student_id -> In s (students c))
  /\ (forall s, In s (students c') -> st_id s = student_id ->
        st_info s = info /\ st_Honors s = honors
        /\ st_IncomeCategory s = income_category).
Proof.
  cbv zeta. unfold update_student_row. cbn [students].
  split; [|split].
  - rewrite map_map. apply map_ext. intros s.
    destruct (st_id s =? student_id); reflexivity.
  - intros s Hin Hne. apply in_map_iff in Hin. destruct Hin as [s0 [E Hin]].
    destruct (Z.eqb_spec (st_id s0) student_id) as [Heq|_].
    + subst s. simpl in Hne. contradiction.
    + now subst s.
  - intros s Hin Heq. apply in_map_iff in Hin. destruct Hin as [s0 [E Hin]].
    destruct (Z.eqb_spec (st_id s0) student_id) as [_|Hne].
    + subst s. simpl. auto.
    + subst s. contradiction.
Qed.

(** X8 ([students.update_student]): whatever an edit returns or raises,
    it leaves the datasets, the cluster runs and the assignment rows as
    they were (so a record that an edit makes incomplete keeps the
    assignment it had), it changes no student but those with the given
    id, and it moves no student to another dataset.  When it changes the
    store, the edited record holds the request's fields over the stored
    ones, and its Honors and IncomeCategory are computed from the gwa and
    the income it now holds. *)
Theorem update_student_rewrites_one_record (student_id : Z)
  (data : student_data) (u : user) (w : world) (r : result response)
  (w' : world) :
  update_student student_id data u w = (r, w') ->
  datasets (db w') = datasets (db w)
  /\ clusters (db w') = clusters (db w)
  /\ student_cluster (db w') = student_cluster (db w)
  /\ map (fun s => (st_id s, st_dataset_id s)) (students (db w'))
     = map (fun s => (st_id s, st_dataset_id s)) (students (db w))
  /\ (forall s, In s (students (db w')) -> st_id s <> student_id ->
        In s (students (db w)))
  /\ (db w' <> db w ->
      exists student,
        select_student (db w) student_id = Some student /\
        forall s, In s (students (db w')) -> st_id s = student_id ->
          st_info s = edited_fields data (st_info student) /\
          st_Honors s = classify_honors (gwa (st_info s)) /\
          st_IncomeCategory s = classify_income (income (st_info s))).
Proof.
  intros H.
  destruct (update_student_inv _ _ _ _ _ _ H) as [E|[student [Hsel Hdb]]].
  - rewrite E. do 4 (split; [reflexivity|]). split; [auto|].
    intros N. now destruct N.
  - cbv zeta in Hdb.
    set (info := edited_fields data (st_info student)) in *.
    destruct (update_student_row_tables student_id info
                (classify_honors (gwa info)) (classify_income (income info))
                (db w)) as (Hids & Hother & Hsame).
    assert (Hst : students (db w')
                  = students (update_student_row student_id info
                              (classify_honors (gwa info))
                              (classify_income (income info)) (db w)))
      by (destruct Hdb as [-> | ->]; reflexivity).
    split; [destruct Hdb as [-> | ->]; reflexivity|].
    split; [destruct Hdb as [-> | ->]; reflexivity|].
    split; [destruct Hdb as [-> | ->]; reflexivity|].
    rewrite Hst.
    split; [exact Hids|]. split; [exact Hother|].
    intros _. exists student. split; [exact Hsel|].
    intros s Hin Heq. destruct (Hsame s Hin Heq) as (Hi & Hh & Hc).
    rewrite Hi, Hh, Hc. auto.
Qed.

(** X9 ([students.update_student]): with the store reachable, an edit of
    a stored record that does not turn it from incomplete to complete
    commits the edit, logs it, answers with success and schedules no
    recluster. *)
Theorem update_student_without_completion_schedules_nothing (student_id : Z)
  (data : student_data) (u : user) (w : world) (student : student) :
  connections w = [] ->
  select_student (db w) student_id = Some student ->
  is_record_complete_row (st_info student) = true
  \/ is_record_complete_row (edited_fields data (st_info student)) = false ->
  exists w',
    update_student student_id data u w = (Ok StudentUpdated, w')
    /\ tasks w' = tasks w
    /\ fits w' = fits w
    /\ select_student (db w') student_id
       = Some (mkStudent (st_id student) (st_dataset_id student)
                 (edited_fields data (st_info student))
                 (classify_honors (gwa (edited_fields data (st_info student))))
                 (classify_income
                    (income (edited_fields data (st_info student)))))
    /\ activity_logs (db w')
       = activity_logs (db w) ++ [mkActivity (user_id u) "Edit Student Record"].
Proof.
  intros Hconn Hsel Hno.
  pose proof (update_student_spec student_id data u w student Hconn Hsel) as E.
  cbv zeta in E.
  assert (Hb : negb (is_record_complete_row (st_info student))
               && is_record_complete_row (edited_fields data (st_info student))
               = false).
  { destruct Hno as [-> | ->]; [reflexivity|apply andb_false_r]. }
  rewrite Hb in E. eexists. split; [exact E|].
  cbn [tasks fits db]. split; [reflexivity|]. split; [reflexivity|]. split.
  - unfold select_student, insert_activity. cbn [students].
    apply (select_student_updated (db w) student_id student). exact Hsel.
  - reflexivity.
Qed.

(** X10 ([students.update_student]): the edit is committed before it is
    logged.  When the store answers the handler's connection and refuses
    the one [log_activity] opens next, the caller is told that the update
    failed, with status 500, although the edited record is in the store;
    the rollback of the [except] clause comes after the commit.  Nothing
    is logged and no recluster is scheduled. *)
Theorem update_student_reports_failure_after_commit (student_id : Z)
  (data : student_data) (u : user) (w : world) (student : student)
  (rest : list bool) :
  connections w = true :: false :: rest ->
  select_student (db w) student_id = Some student ->
  let info := edited_fields data (st_info student) in
  update_student student_id data u w
  = (Raise (HTTPException 500 "Database update failed"),
     mkWorld
       (update_student_row student_id info (classify_honors (gwa info))
          (classify_income (income info)) (db w))
       rest (fits w) (tasks w)).
Proof.
  intros Hconn Hsel. destruct w as [d cs fs ts]. simpl in Hconn, Hsel.
  subst cs. cbv zeta. cbn [db fits tasks].
  unfold update_student. cbv zeta.
  unfold bind at 1. unfold get_db_connection at 1. cbn [connections db fits tasks].
  rewrite Hsel.
  unfold bind at 1. unfold catch, bind, commit, log_activity, bind,
    get_db_connection, raise.
  cbn [connections db fits tasks]. reflexivity.
Qed.

End EditOutcomes.

Lemma update_student_rewrites_one_record_witness :
  let w := world_of (after_upload "a.csv" sheet3 2 100 empty_store) in
  let out := update_student (C := reference) 1 (edit_income VNone) viewer w in
  datasets (db (snd out)) = datasets (db w)
  /\ clusters (db (snd out)) = clusters (db w)
  /\ student_cluster (db (snd out)) = student_cluster (db w)
  /\ map (fun s => (st_id s, st_dataset_id s)) (students (db (snd out)))
     = map (fun s => (st_id s, st_dataset_id s)) (students (db w))
  /\ (forall s, In s (students (db (snd out))) -> st_id s <> 1 ->
        In s (students (db w)))
  /\ (db (snd out) <> db w ->
      exists student,
        select_student (db w) 1 = Some student /\
        forall s, In s (students (db (snd out))) -> st_id s = 1 ->
          st_info s = edited_fields (edit_income VNone) (st_info student) /\
          st_Honors s = @classify_honors reference (gwa (st_info s)) /\
          st_IncomeCategory s = @classify_income reference (income (st_info s))).
Proof.
  intros w out.
  exact (update_student_rewrites_one_record (C := reference) 1
           (edit_income VNone) viewer w (fst out) (snd out)
           (surjective_pairing out)).
Defined.

Lemma update_student_without_completion_schedules_nothing_witness :
  let c := after_upload "a.csv" sheet3 2 100 empty_store in
  let w := world_of c in
  let student := nth 0 (students c) (mkStudent 0 0 (filled_row 0 0) VNone VNone) in
  let data := edit_income (VNum 20000) in
  exists w',
    update_student (C := reference) 1 data viewer w = (Ok StudentUpdated, w')
    /\ tasks w' = tasks w
    /\ fits w' = fits w
    /\ select_student (db w') 1
       = Some (mkStudent (st_id student) (st_dataset_id student)
                 (edited_fields data (st_info student))
                 (@classify_honors reference
                    (gwa (edited_fields data (st_info student))))
                 (@classify_income reference
                    (income (edited_fields data (st_info student)))))
    /\ activity_logs (db w')
       = activity_logs (db w) ++ [mkActivity (user_id viewer) "Edit Student Record"].
Proof.
  intros c w student data.
  refine (update_student_without_completion_schedules_nothing (C := reference)
            1 data viewer w student eq_refl _ _).
  - vm_compute. reflexivity.
  - left. vm_compute. reflexivity.
Defined.

Lemma update_student_reports_failure_after_commit_witness :
  let c := after_upload "a.csv" sheet3 2 100 empty_store in
  let w := mkWorld c [true; false] [] [] in
  let student := nth 0 (students c) (mkStudent 0 0 (filled_row 0 0) VNone VNone) in
  let info := edited_fields (edit_income (VNum 20000)) (st_info student) in
  update_student (C := reference) 1 (edit_income (VNum 20000)) viewer w
  = (Raise (HTTPException 500 "Database update failed"),
     mkWorld
       (update_student_row 1 info (@classify_honors reference (gwa info))
          (@classify_income reference (income info)) (db w))
       [] (fits w) (tasks w)).
Proof.
  intros c w student info.
  refine (update_student_reports_failure_after_commit (C := reference) 1
            (edit_income (VNum 20000)) viewer w student [] eq_refl _).
  vm_compute. reflexivity.
Defined.

(** ** Activating a dataset *)

Section Activation.

Ltac store_kept :=
  left; split; [reflexivity || congruence | intros ?; discriminate].

Lemma latest_dataset_map (f : dataset -> dataset) (ds : list dataset) :
  (forall d, ds_upload_date (f d) = ds_upload_date d) ->
  latest_dataset (map f ds) = option_map f (latest_dataset ds).
Proof.
  intros Hf. induction ds as [|d rest IH]; [reflexivity|].
  simpl. rewrite IH. destruct (latest_dataset rest) as [m|]; simpl;
    [|reflexivity].
  rewrite !Hf. now destruct (ds_upload_date m <? ds_upload_date d).
Qed.

(** A log entry whose failure is swallowed. *)
Lemma swallowed_log (uid : Z) (action : string) (e : exn) (w : world)
  (r : result unit) (w' : world) :
  catch (log_activity uid action ;;; raise e) (fun _ => ret tt) w = (r, w') ->
  r = Ok tt
  /\ (db w' = db w \/ db w' = insert_activity uid action (db w)).
Proof.
  unfold catch, bind, log_activity, bind, get_db_connection, commit, raise, ret.
  destruct (connections w) as [|[|] rest]; cbn [db]; intros H; inversion H;
    cbn [db]; auto.
Qed.

(** The datasets table after the two updates of [activate_dataset]. *)
Lemma activated_datasets (dataset_id : Z) (c : store) :
  let c' := activate_row dataset_id (deactivate_datasets c) in
  map (fun d => (ds_id d, ds_filename d, ds_uploaded_by d, ds_upload_date d))
    (datasets c')
  = map (fun d => (ds_id d, ds_filename d, ds_uploaded_by d, ds_upload_date d))
      (datasets c)
  /\ (forall d, In d (datasets c') -> ds_is_active d = (ds_id d =? dataset_id))
  /\ option_map ds_id (latest_dataset (datasets c'))
     = option_map ds_id (latest_dataset (datasets c))
  /\ students c' = students c /\ clusters c' = clusters c
  /\ student_cluster c' = student_cluster c
  /\ activity_logs c' = activity_logs c.
Proof.
  cbv zeta. unfold activate_row, deactivate_datasets.
  cbn [datasets students clusters student_cluster activity_logs].
  rewrite !map_map.
  split; [|split; [|split; [|auto]]].
  - apply map_ext. intros d. cbn [ds_id]. now destruct (ds_id d =? dataset_id).
  - intros d Hin. apply in_map_iff in Hin. destruct Hin as [d0 [<- _]].
    cbn [ds_id]. destruct (ds_id d0 =? dataset_id) eqn:E; simpl; now rewrite ?E.
  - rewrite (latest_dataset_map
               (fun d =>
                  if ds_id (mkDataset (ds_id d) (ds_filename d) (ds_uploaded_by d)
                              (ds_upload_date d) false) =? dataset_id
                  then mkDataset (ds_id d) (ds_filename d) (ds_uploaded_by d)
                         (ds_upload_date d) true
                  else mkDataset (ds_id d) (ds_filename d) (ds_uploaded_by d)
                         (ds_upload_date d) false)).
    + destruct (latest_dataset (datasets c)) as [m|]; [|reflexivity].
      simpl. now destruct (ds_id m =? dataset_id).
    + intros d. cbn [ds_id]. now destruct (ds_id d =? dataset_id).
Qed.

(** X11 ([datasets.activate_dataset]): a call either raises and leaves
    the store as it was, or answers with success, which takes the Admin
    role and a stored dataset with the given id.  After a success the
    datasets are the same rows with only their active flag rewritten:
    a dataset is active exactly when it bears the given id; students,
    cluster runs and assignments are untouched; and the latest dataset,
    the one the clustering routes read, is the same as before, whether or
    not it is the active one. *)
Theorem activate_dataset_leaves_one_active (dataset_id : Z) (u : user)
  (w : world) (r : result dataset_response) (w' : world) :
  activate_dataset dataset_id u w = (r, w') ->
  (db w' = db w /\ forall resp, r <> Ok resp)
  \/ (r = Ok (DatasetActivated dataset_id)
      /\ role u = "Admin"
      /\ (exists d, In d (datasets (db w)) /\ ds_id d = dataset_id)
      /\ map (fun d => (ds_id d, ds_filename d, ds_uploaded_by d,
                        ds_upload_date d)) (datasets (db w'))
         = map (fun d => (ds_id d, ds_filename d, ds_uploaded_by d,
                          ds_upload_date d)) (datasets (db w))
      /\ (forall d, In d (datasets (db w')) ->
            ds_is_active d = (ds_id d =? dataset_id))
      /\ option_map ds_id (latest_dataset (datasets (db w')))
         = option_map ds_id (latest_dataset (datasets (db w)))
      /\ students (db w') = students (db w)
      /\ clusters (db w') = clusters (db w)
      /\ student_cluster (db w') = student_cluster (db w)).
Proof.
  unfold activate_dataset.
  destruct (String.eqb_spec (role u) "Admin") as [Hrole|Hrole]; simpl negb;
    cbv iota; [|intros H; inversion H; store_kept].
  intros E.
  apply bind_inv in E. destruct E as [(conn & w1 & E1 & E)|(e & E1 & ->)];
    destruct (get_db_connection_inv _ _ _ E1) as (Hdb1 & _ & _ & Hconn);
    [|store_kept].
  destruct Hconn as [Hc|Hc]; inversion Hc; subst conn; clear Hc;
    [|inversion E; subst; store_kept].
  destruct (select_dataset (db w) dataset_id) as [d0|] eqn:Hsel;
    [|inversion E; subst; store_kept].
  cbv zeta in E.
  apply bind_inv in E. destruct E as [(x & w2 & E2 & E)|(e & E2 & _)];
    [|discriminate].
  inversion E2; subst x w2. clear E2.
  apply bind_inv in E. destruct E as [(x & w3 & E3 & E)|(e & E3 & ->)].
  2:{ exfalso. apply swallowed_log in E3. destruct E3 as [E3 _]. discriminate. }
  apply swallowed_log in E3. destruct E3 as [_ Hdb3]. cbn [db] in Hdb3.
  inversion E; subst r w'. clear E.
  right. split; [reflexivity|]. split; [exact Hrole|]. split.
  { unfold select_dataset in Hsel. apply find_some in Hsel.
    destruct Hsel as [Hin Heq]. exists d0. split; [exact Hin|].
    now apply Z.eqb_eq. }
  destruct (activated_datasets dataset_id (db w))
    as (Hrows & Hact & Hlatest & Hst & Hcl & Hsc & _).
  cbv zeta in Hrows, Hact, Hlatest, Hst, Hcl, Hsc.
  destruct Hdb3 as [-> | ->]; cbn [datasets students clusters student_cluster
                                    insert_activity];
    repeat (split; [assumption|]); assumption.
Qed.

(** X12 ([datasets.activate_dataset]): for an Admin and a stored dataset,
    once the handler has its connection the activation is committed and
    answered with success whatever becomes of the log entry: a refused
    connection of [log_activity] is swallowed by the [except] clause. *)
Theorem activate_dataset_succeeds_without_its_log (dataset_id : Z) (u : user)
  (w : world) (d : dataset) (later : list bool) :
  role u = "Admin" ->
  connections w = true :: later ->
  select_dataset (db w) dataset_id = Some d ->
  exists w',
    activate_dataset dataset_id u w = (Ok (DatasetActivated dataset_id), w')
    /\ (forall x, In x (datasets (db w')) ->
          ds_is_active x = (ds_id x =? dataset_id))
    /\ (hd true later = false ->
        activity_logs (db w') = activity_logs (db w)).
Proof.
  intros Hrole Hconn Hsel. destruct w as [c cs fs ts]. simpl in Hconn, Hsel.
  subst cs. unfold activate_dataset. rewrite Hrole.
  change (negb (String.eqb "Admin" "Admin")) with false. cbv iota.
  unfold bind at 1. unfold get_db_connection at 1.
  cbn [connections db fits tasks]. rewrite Hsel. cbv zeta.
  destruct (activated_datasets dataset_id c) as (_ & Hact & _ & _ & _ & _ & Hlog).
  cbv zeta in Hact, Hlog.
  unfold bind, commit, catch, log_activity, bind, get_db_connection, raise, ret.
  cbn [connections db fits tasks].
  destruct later as [|[|] later]; cbn [connections db fits tasks];
    eexists; (split; [reflexivity|]); cbn [db datasets insert_activity hd];
    (split; [exact Hact|]); intros Hh; try discriminate.
  cbn [activity_logs]. exact Hlog.
Qed.

End Activation.

Lemma activate_dataset_leaves_one_active_witness :
  let c := after_upload "b.csv" sheet3 2 200
             (after_upload "a.csv" sheet10 2 100 empty_store) in
  let w := world_of c in
  let out := activate_dataset 1 admin w in
  (db (snd out) = db w /\ forall resp, fst out <> Ok resp)
  \/ (fst out = Ok (DatasetActivated 1)
      /\ role admin = "Admin"
      /\ (exists d, In d (datasets (db w)) /\ ds_id d = 1)
      /\ map (fun d => (ds_id d, ds_filename d, ds_uploaded_by d,
                        ds_upload_date d)) (datasets (db (snd out)))
         = map (fun d => (ds_id d, ds_filename d, ds_uploaded_by d,
                          ds_upload_date d)) (datasets (db w))
      /\ (forall d, In d (datasets (db (snd out))) ->
            ds_is_active d = (ds_id d =? 1))
      /\ option_map ds_id (latest_dataset (datasets (db (snd out))))
         = option_map ds_id (latest_dataset (datasets (db w)))
      /\ students (db (snd out)) = students (db w)
      /\ clusters (db (snd out)) = clusters (db w)
      /\ student_cluster (db (snd out)) = student_cluster (db w)).
Proof.
  intros c w out.
  exact (activate_dataset_leaves_one_active 1 admin w
           (fst out) (snd out) (surjective_pairing _)).
Defined.

(** After two uploads the first dataset is activated again: it is the
    active one, while the latest dataset is still the second. *)
Example activated_dataset_is_not_the_latest :
  let c := after_upload "b.csv" sheet3 2 200
             (after_upload "a.csv" sheet10 2 100 empty_store) in
  let out := activate_dataset 1 admin (world_of c) in
  fst out = Ok (DatasetActivated 1)
  /\ map (fun d => (ds_id d, ds_is_active d)) (datasets (db (snd out)))
     = [(1, true); (2, false)]
  /\ option_map ds_id (latest_dataset (datasets (db (snd out)))) = Some 2.
Proof. vm_compute. repeat split. Qed.

Lemma activate_dataset_succeeds_without_its_log_witness :
  let c := after_upload "a.csv" sheet3 2 100 empty_store in
  let w := mkWorld c [true; false] [] [] in
  exists w',
    activate_dataset 1 admin w
    = (Ok (DatasetActivated 1), w')
    /\ (forall x, In x (datasets (db w')) -> ds_is_active x = (ds_id x =? 1))
    /\ (hd true [false] = false ->
        activity_logs (db w') = activity_logs (db w)).
Proof.
  intros c w.
  refine (activate_dataset_succeeds_without_its_log 1 admin w
            (mkDataset 1 "a.csv" 1 100 true) [false] eq_refl eq_refl _).
  vm_compute. reflexivity.
Defined.

(** ** The elbow curve: [compute_wcss_for_range] and [elbow_preview] *)

Section ElbowFacts.
Context {C : Collaborators}.

Lemma fit_inertia_inv (X : list (list Q)) (k : Z) (w : world)
  (r : result Q) (w1 : world) :
  fit_inertia X k w = (r, w1) ->
  db w1 = db w /\ connections w1 = connections w /\ tasks w1 = tasks w
  /\ fits w1 = fits w ++ [(X, k)]
  /\ r = match kmeans_inertia X k with
         | Some i => Ok i
         | None => Raise (PyError "ValueError")
         end.
Proof.
  unfold fit_inertia. destruct (kmeans_inertia X k) as [i|]; intros H;
    inversion H; subst; simpl; repeat apply conj; reflexivity.
Qed.

Lemma catch_cases {A : Type} (m : M A) (h : exn -> M A) (w : world)
  (r : result A) (w' : world) :
  catch m h w = (r, w') ->
  (exists a, m w = (Ok a, w') /\ r = Ok a)
  \/ exists e w1, m w = (Raise e, w1) /\ h e w1 = (r, w').
Proof.
  unfold catch. destruct (m w) as [[a|e] w1]; intros H.
  - left. exists a. now inversion H.
  - right. now exists e, w1.
Qed.

Lemma wcss_loop_inv (X : list (list Q)) (ks : list Z) (w : world)
  (r : result (list Q)) (w' : world) :
  wcss_loop X ks w = (r, w') ->
  db w' = db w /\ connections w' = connections w /\ tasks w' = tasks w
  /\ ((exists wcss, r = Ok wcss
        /\ Forall2 (fun k i => kmeans_inertia X k = Some i) ks wcss
        /\ fits w' = fits w ++ map (fun k => (X, k)) ks)
      \/ (r = Raise (PyError "ValueError")
          /\ exists k, In k ks /\ kmeans_inertia X k = None)).
Proof.
  revert w r w'. induction ks as [|k rest IH]; intros w r w' H.
  - inversion H; subst. repeat split. left. exists []. simpl.
    rewrite app_nil_r. auto.
  - cbn [wcss_loop] in H.
    apply bind_inv in H. destruct H as [(i & w1 & E1 & E)|(e & E1 & ->)];
      apply fit_inertia_inv in E1;
      destruct E1 as (Hd1 & Hc1 & Ht1 & Hf1 & Hr1).
    2:{ repeat (split; [assumption|]). right.
        destruct (kmeans_inertia X k) eqn:Ek; [discriminate|].
        inversion Hr1. split; [reflexivity|]. exists k. split; [now left | assumption]. }
    destruct (kmeans_inertia X k) as [i0|] eqn:Ek; [|discriminate].
    inversion Hr1; subst i0. clear Hr1.
    apply bind_inv in E. destruct E as [(wcss & w2 & E2 & E)|(e & E2 & ->)];
      apply IH in E2; destruct E2 as (Hd2 & Hc2 & Ht2 & Hcase).
    + inversion E; subst r w'. clear E.
      rewrite Hd2, Hc2, Ht2. repeat (split; [assumption|]).
      destruct Hcase as [(wcss0 & Hw & Hall & Hf2)|(Hw & _)]; [|discriminate].
      inversion Hw; subst wcss0. left. exists (i :: wcss).
      split; [reflexivity|]. split; [now constructor|].
      rewrite Hf2, Hf1, <- app_assoc. reflexivity.
    + rewrite Hd2, Hc2, Ht2. repeat (split; [assumption|]).
      destruct Hcase as [(wcss0 & Hw & _)|(Hw & k' & Hin & Hk')];
        [discriminate|].
      right. split; [assumption|]. exists k'. split; [now right | assumption].
Qed.

Lemma wcss_loop_raises (X : list (list Q)) (ks : list Z) (w : world) (k : Z) :
  In k ks -> kmeans_inertia X k = None ->
  exists w',
    wcss_loop X ks w = (Raise (PyError "ValueError"), w')
    /\ db w' = db w /\ connections w' = connections w /\ tasks w' = tasks w.
Proof.
  intros Hin Hk.
  destruct (wcss_loop X ks w) as [r w'] eqn:E. exists w'.
  destruct (wcss_loop_inv _ _ _ _ _ E) as (Hd & Hc & Ht & Hcase).
  split; [|repeat split; assumption].
  destruct Hcase as [(wcss & -> & Hall & _)|(-> & _)]; [|reflexivity].
  exfalso. revert Hin. clear E. induction Hall as [|k0 i ks0 l0 Hki _ IH];
    intros Hin; [easy|].
  destruct Hin as [<-|Hin]; [congruence | auto].
Qed.

Lemma range_length (a b : Z) : len (range a b) = Z.max 0 (b - a).
Proof. unfold len, range. rewrite length_map, length_seq. lia. Qed.

Lemma In_range (a b x : Z) : a <= x < b -> In x (range a b).
Proof.
  intros H. unfold range. apply in_map_iff. exists (Z.to_nat (x - a)).
  split; [lia|]. apply in_seq. lia.
Qed.

Lemma compute_wcss_for_range_inv (X : list (list Q))
  (k_min k_max : Z) (w : world) (r : result (list Q)) (w' : world) :
  compute_wcss_for_range X k_min k_max w = (r, w') ->
  db w' = db w /\ connections w' = connections w /\ tasks w' = tasks w
  /\ (forall wcss, r = Ok wcss ->
        len wcss = Z.max 0 (k_max + 1 - k_min)
        /\ Forall2 (fun k i => kmeans_inertia X k = Some i)
             (range k_min (k_max + 1)) wcss
        /\ fits w' = fits w ++ map (fun k => (X, k)) (range k_min (k_max + 1)))
  /\ (forall e, r = Raise e ->
        e = PyError "ValueError"
        /\ exists k, k_min <= k <= k_max /\ kmeans_inertia X k = None)
  /\ ((forall k, k_min <= k <= k_max -> kmeans_inertia X k <> None) ->
      exists wcss, r = Ok wcss).
Proof.
  unfold compute_wcss_for_range. intros H.
  destruct (wcss_loop_inv _ _ _ _ _ H) as (Hd & Hc & Ht & Hcase).
  repeat (split; [assumption|]).
  destruct Hcase as [(wcss & -> & Hall & Hf)|(-> & k & Hin & Hk)].
  - split; [|split].
    + intros wcss0 E. inversion E; subst wcss0.
      split; [|split; assumption].
      rewrite <- range_length. unfold len. f_equal. symmetry.
      eapply Forall2_length; eassumption.
    + intros e E. discriminate.
    + intros _. now exists wcss.
  - apply range_In in Hin. split; [|split].
    + intros wcss E. discriminate.
    + intros e E. inversion E. split; [reflexivity|]. exists k.
      split; [lia | assumption].
    + intros Hall. exfalso. apply (Hall k); [lia | assumption].
Qed.

(** X13 ([datasets.compute_wcss_for_range]): the loop leaves the store,
    the connection attempts and the scheduled tasks alone.  When it
    returns, the curve has one inertia for each [k] from [k_min] to
    [k_max], in order, each the inertia of the fit with that [k], and one
    fit per [k] was run.  It raises only the engine's [ValueError], at a
    [k] of the range that the engine rejects; so it returns whenever the
    engine accepts every [k] of the range. *)
Theorem compute_wcss_for_range_fits_every_k (X : list (list Q))
  (k_min k_max : Z) (w : world) (r : result (list Q)) (w' : world) :
  compute_wcss_for_range X k_min k_max w = (r, w') ->
  db w' = db w /\ connections w' = connections w /\ tasks w' = tasks w
  /\ (forall wcss, r = Ok wcss ->
        len wcss = Z.max 0 (k_max + 1 - k_min)
        /\ Forall2 (fun k i => kmeans_inertia X k = Some i)
             (range k_min (k_max + 1)) wcss
        /\ fits w' = fits w ++ map (fun k => (X, k)) (range k_min (k_max + 1)))
  /\ (forall e, r = Raise e ->
        e = PyError "ValueError"
        /\ exists k, k_min <= k <= k_max /\ kmeans_inertia X k = None)
  /\ ((forall k, k_min <= k <= k_max -> kmeans_inertia X k <> None) ->
      exists wcss, r = Ok wcss).
Proof. exact (compute_wcss_for_range_inv X k_min k_max w r w'). Qed.

Lemma elbow_try_inv (file : option frame) (w : world)
  (r : result dataset_response) (w' : world) :
  elbow_try file w = (r, w') ->
  db w' = db w /\ connections w' = connections w /\ tasks w' = tasks w
  /\ (forall wcss rk q, r = Ok (ElbowResult wcss rk q) ->
        exists sheet df,
          file = Some sheet /\ normalize_and_prepare_df sheet = Ok df
          /\ let X := map (fun r => [numeric_cell (gwa (pr_info r));
                                     numeric_cell (income (pr_info r))])
                        (filter (fun r => is_record_complete_row (pr_info r)) df) in
             Forall2 (fun k i => kmeans_inertia X k = Some i) (range 2 11) wcss
             /\ rk = recommend_k_by_curvature wcss 2
             /\ q = match cluster_engine X rk with
                    | Some fitted =>
                        match quality_scores X (fst fitted) with
                        | Some scores => scores
                        | None => (0%Q, 0%Q, 0%Q)
                        end
                    | None => (0%Q, 0%Q, 0%Q)
                    end).
Proof.
  unfold elbow_try. intros E.
  apply bind_inv in E. destruct E as [(sheet & w0 & E0 & E)|(e & E0 & ->)];
    apply lift_inv in E0; destruct E0 as [E0 ->];
    [|repeat split; intros; discriminate].
  destruct file as [sheet0|]; [|discriminate]. inversion E0; subst sheet0.
  clear E0.
  apply bind_inv in E. destruct E as [(df & w0 & E0 & E)|(e & E0 & ->)];
    apply lift_inv in E0; destruct E0 as [E0 ->];
    [|repeat split; intros; discriminate].
  cbv zeta in E.
  apply bind_inv in E. destruct E as [(wcss & w1 & E1 & E)|(e & E1 & ->)];
    destruct (compute_wcss_for_range_inv _ _ _ _ _ _ E1)
      as (Hd1 & Hc1 & Ht1 & Hok & _);
    [|repeat (split; [assumption|]); intros; discriminate].
  destruct (Hok wcss eq_refl) as (_ & Hall & _). clear Hok.
  change (2 + 1 + 8) with 11 in *.
  apply bind_inv in E. destruct E as [(q & w2 & E2 & E)|(e & E2 & ->)].
  2:{ exfalso. apply catch_cases in E2.
      destruct E2 as [(a & _ & Ea)|(e0 & w2 & _ & E2)]; discriminate. }
  inversion E; subst r w'. clear E.
  unfold catch, bind, fit, ret, raise in E2. cbv zeta in E2.
  split; [|split; [|split]].
  1-3: destruct (cluster_engine _ (recommend_k_by_curvature wcss 2)) as [f|];
       [destruct (quality_scores _ (fst f))|]; inversion E2; subst; cbn;
       assumption.
  intros wcss0 rk q0 Er. inversion Er; subst wcss0 rk q0. clear Er.
  exists sheet, df. split; [reflexivity|]. split; [symmetry; exact E0|].
  cbv zeta. split; [exact Hall|]. split; [reflexivity|].
  destruct (cluster_engine _ (recommend_k_by_curvature wcss 2)) as [f|];
    [destruct (quality_scores _ (fst f))|]; inversion E2; reflexivity.
Qed.

Lemma elbow_preview_inv (fn : string) (file : option frame)
  (u : user) (w : world) (r : result dataset_response) (w' : world) :
  elbow_preview fn file u w = (r, w') ->
  db w' = db w /\ connections w' = connections w /\ tasks w' = tasks w
  /\ (forall wcss rk q, r = Ok (ElbowResult wcss rk q) ->
        role u = "Admin"
        /\ len wcss = 9
        /\ exists sheet df,
          file = Some sheet /\ normalize_and_prepare_df sheet = Ok df
          /\ let X := map (fun r => [numeric_cell (gwa (pr_info r));
                                     numeric_cell (income (pr_info r))])
                        (filter (fun r => is_record_complete_row (pr_info r)) df) in
             Forall2 (fun k i => kmeans_inertia X k = Some i) (range 2 11) wcss
             /\ rk = recommend_k_by_curvature wcss 2
             /\ q = match cluster_engine X rk with
                    | Some fitted =>
                        match quality_scores X (fst fitted) with
                        | Some scores => scores
                        | None => (0%Q, 0%Q, 0%Q)
                        end
                    | None => (0%Q, 0%Q, 0%Q)
                    end).
Proof.
  unfold elbow_preview.
  destruct (String.eqb_spec (role u) "Admin") as [Hrole|Hrole]; simpl negb;
    cbv iota; [|intros H; inversion H; repeat split; intros; discriminate].
  destruct (endswith fn ".csv" || endswith fn ".xlsx"); simpl negb; cbv iota;
    [|intros H; inversion H; repeat split; intros; discriminate].
  intros E. apply catch_cases in E.
  destruct E as [(a & E & ->)|(e & w1 & E & Eh)].
  - destruct (elbow_try_inv _ _ _ _ E) as (Hd & Hc & Ht & Hok).
    do 3 (split; [assumption|]).
    intros wcss rk q Er. inversion Er; subst a. clear Er.
    destruct (Hok wcss rk q eq_refl) as (sheet & df & Hf & Hn & Hall & Hrk & Hq).
    split; [exact Hrole|]. split.
    + pose proof (Forall2_length Hall) as Hl. unfold len. rewrite <- Hl.
      reflexivity.
    + exists sheet, df. cbv zeta. auto.
  - destruct (elbow_try_inv _ _ _ _ E) as (Hd & Hc & Ht & _).
    inversion Eh; subst r w'. do 3 (split; [assumption|]).
    intros; discriminate.
Qed.

(** X14 ([datasets.elbow_preview]): the preview writes nothing: the
    store, the connection attempts and the scheduled tasks are as before,
    whatever it answers.  An answer takes the Admin role and a sheet that
    normalizes; its curve holds the nine inertias of the fits with 2 to
    10 clusters on the complete rows, its [recommended_k] is
    [recommend_k_by_curvature] of that curve, and its quality metrics are
    those of the fit with the recommended [k], or zeros when that fit or
    the scoring raises. *)
Theorem elbow_preview_writes_nothing (fn : string) (file : option frame)
  (u : user) (w : world) (r : result dataset_response) (w' : world) :
  elbow_preview fn file u w = (r, w') ->
  db w' = db w /\ connections w' = connections w /\ tasks w' = tasks w
  /\ (forall wcss rk q, r = Ok (ElbowResult wcss rk q) ->
        role u = "Admin"
        /\ len wcss = 9
        /\ exists sheet df,
          file = Some sheet /\ normalize_and_prepare_df sheet = Ok df
          /\ let X := map (fun r => [numeric_cell (gwa (pr_info r));
                                     numeric_cell (income (pr_info r))])
                        (filter (fun r => is_record_complete_row (pr_info r)) df) in
             Forall2 (fun k i => kmeans_inertia X k = Some i) (range 2 11) wcss
             /\ rk = recommend_k_by_curvature wcss 2
             /\ q = match cluster_engine X rk with
                    | Some fitted =>
                        match quality_scores X (fst fitted) with
                        | Some scores => scores
                        | None => (0%Q, 0%Q, 0%Q)
                        end
                    | None => (0%Q, 0%Q, 0%Q)
                    end).
Proof. exact (elbow_preview_inv fn file u w r w'). Qed.

(** X15 ([datasets.elbow_preview]): the curve is computed for 2 to 10
    clusters whatever the number of complete rows, so with an engine that
    rejects more clusters than rows a sheet with fewer than ten complete
    rows gets no preview: the call fails with status 500. *)
Theorem elbow_preview_needs_ten_complete_rows (fn : string) (sheet : frame)
  (df : list prepared) (u : user) (w : world) :
  inertia_rejects C ->
  role u = "Admin" ->
  (endswith fn ".csv" || endswith fn ".xlsx") = true ->
  normalize_and_prepare_df sheet = Ok df ->
  len (filter (fun r => is_record_complete_row (pr_info r)) df) < 10 ->
  exists w',
    elbow_preview fn (Some sheet) u w
    = (Raise (HTTPException 500 "Error computing elbow"), w')
    /\ db w' = db w.
Proof.
  intros Hrej Hrole Hext Hn Hlen.
  set (X := map (fun r => [numeric_cell (gwa (pr_info r));
                           numeric_cell (income (pr_info r))])
              (filter (fun r => is_record_complete_row (pr_info r)) df)).
  destruct (wcss_loop_raises X (range 2 (10 + 1)) w 10) as (w1 & E1 & Hd & _).
  { apply In_range. lia. }
  { apply Hrej. unfold X, len in *. rewrite length_map. exact Hlen. }
  exists w1. split; [|exact Hd].
  unfold elbow_preview. rewrite Hrole, Hext.
  change (negb (String.eqb "Admin" "Admin")) with false.
  change (negb true) with false. cbv iota.
  unfold elbow_try. unfold catch.
  erewrite bind_ok by reflexivity. cbv beta.
  erewrite bind_ok by (unfold lift; rewrite Hn; reflexivity). cbv beta zeta.
  fold X. unfold compute_wcss_for_range.
  erewrite bind_raise by exact E1. reflexivity.
Qed.

(** X16 ([datasets.upload_dataset]): an upload without [k] computes the
    same curve before it connects to the database, so with such an engine
    a sheet with one to nine complete rows is refused with status 500 and
    nothing is stored. *)
Theorem upload_without_k_needs_ten_complete_rows (fn : string) (sheet : frame)
  (df : list prepared) (now : Z) (u : user) (w : world) :
  inertia_rejects C ->
  role u = "Admin" ->
  (endswith fn ".csv" || endswith fn ".xlsx") = true ->
  normalize_and_prepare_df sheet = Ok df ->
  0 < len (filter (fun r => is_record_complete_row (pr_info r)) df) < 10 ->
  exists w',
    upload_dataset fn (Some sheet) None now u w
    = (Raise (HTTPException 500 "Error processing dataset"), w')
    /\ db w' = db w /\ connections w' = connections w.
Proof.
  intros Hrej Hrole Hext Hn Hlen.
  set (X := map (fun r => [numeric_cell (gwa (pr_info r));
                           numeric_cell (income (pr_info r))])
              (filter (fun r => is_record_complete_row (pr_info r)) df)).
  destruct (wcss_loop_raises X (range 2 (10 + 1)) w 10)
    as (w1 & E1 & Hd & Hc & _).
  { apply In_range. lia. }
  { apply Hrej. unfold X, len in *. rewrite length_map. lia. }
  exists w1. split; [|split; assumption].
  unfold upload_dataset. rewrite Hrole, Hext.
  change (negb (String.eqb "Admin" "Admin")) with false.
  change (negb true) with false. cbv iota.
  unfold upload_try. unfold catch.
  erewrite bind_ok by reflexivity. cbv beta.
  erewrite bind_ok by (unfold lift; rewrite Hn; reflexivity). cbv beta zeta.
  unfold upload_cluster at 1. fold X.
  destruct (filter (fun r => is_record_complete_row (pr_info r)) df)
    as [|r0 rest] eqn:Ef; [unfold len in Hlen; simpl in Hlen; lia|].
  cbn [is_empty]. cbv zeta.
  unfold compute_wcss_for_range.
  erewrite bind_raise; [reflexivity|].
  erewrite bind_raise; [reflexivity|].
  erewrite bind_raise; [reflexivity|exact E1].
Qed.

Lemma inertias_functional (X : list (list Q)) (ks : list Z) (a b : list Q) :
  Forall2 (fun k i => kmeans_inertia X k = Some i) ks a ->
  Forall2 (fun k i => kmeans_inertia X k = Some i) ks b ->
  a = b.
Proof.
  intros Ha. revert b. induction Ha as [|k i ks0 a0 Hk _ IH]; intros b Hb;
    inversion Hb; subst; [reflexivity|].
  f_equal; [congruence | now apply IH].
Qed.

Lemma upload_cluster_auto_inv (dfc : list prepared) (w : world)
  (locals : upload_locals) (w1 : world) (q : Q * Q * Q) :
  upload_cluster dfc None w = (Ok locals, w1) ->
  up_quality locals = Some q ->
  let X := map (fun r => [numeric_cell (gwa (pr_info r));
                          numeric_cell (income (pr_info r))]) dfc in
  exists wcss fitted,
    Forall2 (fun k i => kmeans_inertia X k = Some i) (range 2 11) wcss
    /\ up_k locals = Some (recommend_k_by_curvature wcss 2)
    /\ cluster_engine X (recommend_k_by_curvature wcss 2) = Some fitted
    /\ q = match quality_scores X (fst fitted) with
           | Some scores => scores
           | None => (0%Q, 0%Q, 0%Q)
           end.
Proof.
  unfold upload_cluster. intros E Hq.
  destruct (is_empty dfc).
  { inversion E; subst locals. discriminate. }
  cbv zeta in E |- *.
  apply bind_inv in E. destruct E as [(k & w2 & E2 & E)|(e & _ & ?)];
    [|discriminate].
  apply bind_inv in E2. destruct E2 as [(wcss & w3 & E3 & E2)|(e & _ & ?)];
    [|discriminate].
  inversion E2; subst k w3. clear E2.
  destruct (compute_wcss_for_range_inv _ _ _ _ _ _ E3)
    as (_ & _ & _ & Hok & _).
  destruct (Hok wcss eq_refl) as (_ & Hall & _). clear Hok.
  apply bind_inv in E. destruct E as [(fitted & w4 & E4 & E)|(e & _ & ?)];
    [|discriminate].
  destruct (fit_inv _ _ _ _ _ E4) as (_ & _ & _ & _ & Hout).
  specialize (Hout fitted eq_refl).
  inversion E; subst locals. cbn [up_quality up_k] in *.
  inversion Hq; subst q.
  exists wcss, fitted. repeat split; assumption.
Qed.

(** X17 ([datasets.elbow_preview], [datasets.upload_dataset]): when the
    preview of a sheet answers and the upload of the same sheet without
    [k] succeeds, the upload has clustered with the [recommended_k] of the
    preview and reports the preview's quality metrics. *)
Theorem upload_without_k_uses_the_previewed_k (fn1 fn2 : string)
  (sheet : frame) (now : Z) (u1 u2 : user) (w1 w2 w1' w2' : world)
  (wcss : list Q) (rk : Z) (q1 q2 : Q * Q * Q) (d t : Z) (kk : option Z) :
  elbow_preview fn1 (Some sheet) u1 w1 = (Ok (ElbowResult wcss rk q1), w1') ->
  upload_dataset fn2 (Some sheet) None now u2 w2
  = (Ok (UploadResult d t kk q2), w2') ->
  kk = Some rk /\ q2 = q1.
Proof.
  intros Ee Eu.
  destruct (elbow_preview_inv _ _ _ _ _ _ Ee) as (_ & _ & _ & Hok).
  destruct (Hok wcss rk q1 eq_refl)
    as (_ & _ & sheet1 & df1 & Hs1 & Hn1 & Hall1 & Hrk & Hq1).
  inversion Hs1; subst sheet1. clear Hs1 Hok.
  destruct (upload_dataset_inv _ _ _ _ _ _ _ _ Eu)
    as [[_ Hno]|(sheet2 & df2 & locals & Cluster & w3 & Hs2 & Hn2 & Hcl & _ & _ & Hresp)].
  { exfalso. eapply Hno. reflexivity. }
  inversion Hs2; subst sheet2. clear Hs2.
  assert (df2 = df1) by congruence. subst df2.
  destruct (Hresp d t kk q2 eq_refl) as (_ & _ & Hkk & Hq2).
  destruct (upload_cluster_auto_inv _ _ _ _ _ Hcl Hq2)
    as (wcss2 & fitted & Hall2 & Hk2 & Hce & Hq).
  change (2 + 1 + 8) with 11 in *.
  assert (wcss2 = wcss) by (eapply inertias_functional; eassumption).
  subst wcss2. rewrite <- Hrk in *.
  split; [congruence|]. rewrite Hq, Hq1, Hce. reflexivity.
Qed.

End ElbowFacts.

Lemma reference_inertia_rejects : inertia_rejects reference.
Proof.
  intros X k Hlt. cbn [kmeans_inertia reference].
  destruct (len X <? k) eqn:E; [now rewrite orb_true_r|]. apply Z.ltb_ge in E. lia.
Qed.

Lemma compute_wcss_for_range_fits_every_k_witness :
  let X := [[0%Q; 0%Q]; [1%Q; 1%Q]; [2%Q; 2%Q]] in
  let w := world_of empty_store in
  let out := compute_wcss_for_range (C := reference) X 2 3 w in
  db (snd out) = db w /\ connections (snd out) = connections w
  /\ tasks (snd out) = tasks w
  /\ (forall wcss, fst out = Ok wcss ->
        len wcss = Z.max 0 (3 + 1 - 2)
        /\ Forall2 (fun k i => @kmeans_inertia reference X k = Some i)
             (range 2 (3 + 1)) wcss
        /\ fits (snd out) = fits w ++ map (fun k => (X, k)) (range 2 (3 + 1)))
  /\ (forall e, fst out = Raise e ->
        e = PyError "ValueError"
        /\ exists k, 2 <= k <= 3 /\ @kmeans_inertia reference X k = None)
  /\ ((forall k, 2 <= k <= 3 -> @kmeans_inertia reference X k <> None) ->
      exists wcss, fst out = Ok wcss).
Proof.
  intros X w out.
  exact (compute_wcss_for_range_fits_every_k (C := reference) X 2 3 w
           (fst out) (snd out) (surjective_pairing _)).
Defined.

(** The curve of three rows for 2 and 3 clusters, and the fits it ran. *)
Example wcss_of_three_rows :
  let X := [[0%Q; 0%Q]; [1%Q; 1%Q]; [2%Q; 2%Q]] in
  let out := compute_wcss_for_range (C := reference) X 2 3
               (world_of empty_store) in
  fst out = Ok [0%Q; 0%Q] /\ fits (snd out) = [(X, 2); (X, 3)].
Proof. vm_compute. split; reflexivity. Qed.

Lemma elbow_preview_writes_nothing_witness :
  let w := world_of (after_upload "a.csv" sheet3 2 100 empty_store) in
  let out := elbow_preview (C := reference) "b.csv" (Some sheet10) admin w in
  db (snd out) = db w /\ connections (snd out) = connections w
  /\ tasks (snd out) = tasks w
  /\ (forall wcss rk q, fst out = Ok (ElbowResult wcss rk q) ->
        role admin = "Admin"
        /\ len wcss = 9
        /\ exists sheet df,
          Some sheet10 = Some sheet
          /\ normalize_and_prepare_df (C := reference) sheet = Ok df
          /\ let X := map (fun r => [numeric_cell (gwa (pr_info r));
                                     numeric_cell (income (pr_info r))])
                        (filter (fun r => @is_record_complete_row reference
                                            (pr_info r)) df) in
             Forall2 (fun k i => @kmeans_inertia reference X k = Some i)
               (range 2 11) wcss
             /\ rk = recommend_k_by_curvature (C := reference) wcss 2
             /\ q = match @cluster_engine reference X rk with
                    | Some fitted =>
                        match @quality_scores reference X (fst fitted) with
                        | Some scores => scores
                        | None => (0%Q, 0%Q, 0%Q)
                        end
                    | None => (0%Q, 0%Q, 0%Q)
                    end).
Proof.
  intros w out.
  exact (elbow_preview_writes_nothing (C := reference) "b.csv" (Some sheet10)
           admin w (fst out) (snd out) (surjective_pairing _)).
Defined.

(** The preview of eleven complete rows: nine inertias and the fallback
    recommendation for a curve of nine points. *)
Example elbow_preview_of_eleven_rows :
  fst (elbow_preview (C := reference) "b.csv" (Some sheet11) admin
         (world_of empty_store))
  = Ok (ElbowResult (map (fun _ => 0%Q) (range 2 11)) 4 (0%Q, 0%Q, 0%Q)).
Proof. vm_compute. reflexivity. Qed.

Lemma elbow_preview_needs_ten_complete_rows_witness :
  let w := world_of empty_store in
  exists w',
    elbow_preview (C := reference) "a.csv" (Some sheet10) admin w
    = (Raise (HTTPException 500 "Error computing elbow"), w')
    /\ db w' = db w.
Proof.
  intros w.
  refine (elbow_preview_needs_ten_complete_rows (C := reference) "a.csv" sheet10
            (match normalize_and_prepare_df (C := reference) sheet10 with
             | Ok df => df
             | Raise _ => []
             end)
            admin w reference_inertia_rejects eq_refl eq_refl _ _).
  - vm_compute. reflexivity.
  - vm_compute. reflexivity.
Defined.

Lemma upload_without_k_needs_ten_complete_rows_witness :
  let w := world_of empty_store in
  exists w',
    upload_dataset (C := reference) "a.csv" (Some sheet10) None 100 admin w
    = (Raise (HTTPException 500 "Error processing dataset"), w')
    /\ db w' = db w /\ connections w' = connections w.
Proof.
  intros w.
  refine (upload_without_k_needs_ten_complete_rows (C := reference) "a.csv"
            sheet10
            (match normalize_and_prepare_df (C := reference) sheet10 with
             | Ok df => df
             | Raise _ => []
             end)
            100 admin w reference_inertia_rejects eq_refl eq_refl _ _).
  - vm_compute. reflexivity.
  - vm_compute. split; reflexivity.
Defined.

Lemma upload_without_k_uses_the_previewed_k_witness :
  let w := world_of empty_store in
  let preview := elbow_preview (C := reference) "a.csv" (Some sheet11) admin w in
  let upload :=
    upload_dataset (C := reference) "a.csv" (Some sheet11) None 100 admin w in
  fst preview
  = Ok (ElbowResult (map (fun _ => 0%Q) (range 2 11)) 4 (0%Q, 0%Q, 0%Q))
  /\ fst upload = Ok (UploadResult 1 11 (Some 4) (0%Q, 0%Q, 0%Q))
  /\ Some 4 = Some 4 /\ (0%Q, 0%Q, 0%Q) = (0%Q, 0%Q, 0%Q).
Proof.
  intros w preview upload.
  assert (Hp : preview
               = (Ok (ElbowResult (map (fun _ => 0%Q) (range 2 11)) 4
                        (0%Q, 0%Q, 0%Q)), snd preview))
    by (vm_compute; reflexivity).
  assert (Hu : upload
               = (Ok (UploadResult 1 11 (Some 4) (0%Q, 0%Q, 0%Q)), snd upload))
    by (vm_compute; reflexivity).
  split; [rewrite Hp; reflexivity|]. split; [rewrite Hu; reflexivity|].
  exact (upload_without_k_uses_the_previewed_k (C := reference) "a.csv" "a.csv"
           sheet11 100 admin admin w w (snd preview) (snd upload)
           (map (fun _ => 0%Q) (range 2 11)) 4 (0%Q, 0%Q, 0%Q) (0%Q, 0%Q, 0%Q)
           1 11 (Some 4) Hp Hu).
Defined.

(** ** From the headers of the sheet to the required columns *)

Section Headers.
Context {C : Collaborators}.

Lemma split_once_spaceless (s : string) :
  (forall c, In c (list_ascii_of_string s) -> c <> " "%char) ->
  split_once s = (s, None).
Proof.
  induction s as [|c r IH]; intros Hs; [reflexivity|].
  cbn [split_once].
  destruct (Ascii.eqb_spec c " "%char) as [->|_].
  - exfalso. apply (Hs " "%char); [now left | reflexivity].
  - rewrite IH; [reflexivity|]. intros c0 Hin. apply Hs. now right.
Qed.

Lemma split_once_at (a b : string) :
  (forall c, In c (list_ascii_of_string a) -> c <> " "%char) ->
  split_once (a ++ String " " b) = (a, Some b).
Proof.
  induction a as [|c r IH]; intros Ha; [reflexivity|].
  cbn [append split_once].
  destruct (Ascii.eqb_spec c " "%char) as [->|_].
  - exfalso. apply (Ha " "%char); [now left | reflexivity].
  - rewrite IH; [reflexivity|]. intros c0 Hin. apply Ha. now right.
Qed.

Lemma split_once_second (s : string) :
  snd (split_once s) = None ->
  forall c, In c (list_ascii_of_string s) -> c <> " "%char.
Proof.
  induction s as [|c r IH]; intros Hs c0 Hin; [destruct Hin|].
  cbn [split_once] in Hs.
  destruct (Ascii.eqb_spec c " "%char) as [->|Hc]; [discriminate|].
  destruct Hin as [<-|Hin]; [exact Hc|]. now apply IH.
Qed.

Lemma filter_label_absent (label : string) (cols : list (string * list value)) :
  str_in label (map fst cols) = false ->
  filter (fun c => String.eqb (fst c) label) cols = [].
Proof.
  unfold str_in. induction cols as [|c rest IH]; intros H; [reflexivity|].
  simpl in H. apply orb_false_elim in H. destruct H as [Hc Hrest].
  simpl. rewrite String.eqb_sym, Hc. now apply IH.
Qed.

Lemma getitem_NoDup (label : string) (df : frame) :
  NoDup (columns df) -> In label (columns df) ->
  exists cells, getitem label df = Ok cells /\ In (label, cells) (series df).
Proof.
  unfold getitem, columns. induction (series df) as [|c rest IH];
    intros Hnd Hin; [destruct Hin|].
  simpl in Hnd, Hin. inversion Hnd as [|x l Hnot Hnd']; subst.
  cbn [filter].
  destruct (String.eqb_spec (fst c) label) as [E|E].
  - rewrite filter_label_absent.
    + exists (snd c). split; [reflexivity|]. left. destruct c. simpl in *.
      now subst.
    + destruct (str_in label (map fst rest)) eqn:Es; [|reflexivity].
      apply str_in_In in Es. subst. contradiction.
  - destruct Hin as [Hin|Hin]; [contradiction|].
    destruct (IH Hnd' Hin) as (cells & Hg & Hc).
    exists cells. split; [exact Hg | now right].
Qed.

Lemma columns_setitem (label : string) (cells : list value) (df : frame) :
  columns (setitem label cells df)
  = if str_in label (columns df) then columns df else columns df ++ [label].
Proof.
  unfold setitem. destruct (str_in label (columns df)); unfold columns;
    cbn [series].
  - rewrite map_map. apply map_ext. intros c.
    destruct (String.eqb_spec (fst c) label) as [E|E]; [now rewrite E|reflexivity].
  - now rewrite map_app.
Qed.

Lemma NoDup_setitem (label : string) (cells : list value) (df : frame) :
  NoDup (columns df) -> NoDup (columns (setitem label cells df)).
Proof.
  intros Hnd. rewrite columns_setitem.
  destruct (str_in label (columns df)) eqn:E; [exact Hnd|].
  apply NoDup_app; [exact Hnd | repeat constructor; auto |].
  intros x Hx [<-|[]]. apply str_in_In in Hx. congruence.
Qed.

Lemma In_columns_setitem (label l : string) (cells : list value) (df : frame) :
  In l (columns df) \/ l = label -> In l (columns (setitem label cells df)).
Proof.
  rewrite columns_setitem.
  destruct (str_in label (columns df)) eqn:E; intros [H|H].
  - exact H.
  - subst. now apply str_in_In.
  - apply in_or_app. now left.
  - subst. apply in_or_app. right. now left.
Qed.

Lemma nrows_setitem (label : string) (cells : list value) (df : frame) :
  nrows (setitem label cells df) = nrows df.
Proof. unfold setitem. now destruct (str_in label (columns df)). Qed.

Lemma getitem_setitem_new (label : string) (cells : list value) (df : frame) :
  str_in label (columns df) = false ->
  getitem label (setitem label cells df) = Ok cells.
Proof.
  intros H. unfold getitem, setitem. rewrite H. cbn [series].
  rewrite filter_app, (filter_label_absent label (series df) H).
  cbn [filter fst app]. now rewrite String.eqb_refl.
Qed.

Lemma getitem_setitem_other (label l : string) (cells : list value) (df : frame) :
  l <> label ->
  getitem l (setitem label cells df) = getitem l df.
Proof.
  intros Hne. unfold getitem, setitem.
  assert (Hf : forall cols,
             filter (fun c => String.eqb (fst c) l)
               (map (fun c : string * list value =>
                       if String.eqb (fst c) label then (label, cells) else c)
                  cols)
             = filter (fun c => String.eqb (fst c) l) cols).
  { induction cols as [|c rest IH]; [reflexivity|]. cbn [map filter].
    destruct (String.eqb_spec (fst c) label) as [E|E].
    - cbn [fst]. rewrite E.
      destruct (String.eqb_spec label l) as [E'|_]; [congruence | exact IH].
    - now rewrite IH. }
  destruct (str_in label (columns df)); cbn [series].
  - now rewrite Hf.
  - rewrite filter_app. cbn [filter fst].
    destruct (String.eqb_spec label l) as [E'|_]; [congruence|].
    now rewrite app_nil_r.
Qed.

(** The frame after lines 56 to 58. *)
Lemma add_required_columns (df : frame) :
  NoDup (columns df) ->
  NoDup (columns (add_required df))
  /\ nrows (add_required df) = nrows df
  /\ forall col, In col required_cols -> In col (columns (add_required df)).
Proof.
  unfold add_required. generalize required_cols as cols.
  intros cols. revert df. induction cols as [|c rest IH]; intros df Hnd.
  - repeat split; [exact Hnd | intros col []].
  - cbn [fold_left].
    set (df1 := if negb (str_in c (columns df))
                then setitem c (repeat VNone (nrows df)) df else df).
    assert (H1 : NoDup (columns df1) /\ nrows df1 = nrows df
                 /\ In c (columns df1)
                 /\ forall l, In l (columns df) -> In l (columns df1)).
    { unfold df1. destruct (str_in c (columns df)) eqn:E; cbn [negb].
      - repeat split; auto. now apply str_in_In.
      - split; [now apply NoDup_setitem|]. split; [apply nrows_setitem|].
        split; [apply In_columns_setitem; now right|].
        intros l Hl. apply In_columns_setitem. now left. }
    destruct H1 as (Hnd1 & Hn1 & Hc1 & Hkeep).
    destruct (IH df1 Hnd1) as (Hnd2 & Hn2 & Hall).
    split; [exact Hnd2|]. split; [congruence|].
    intros col [<-|Hin]; [|now apply Hall].
    clear - Hc1 IH Hnd1.
    assert (Hmono : forall cols0 d l,
               In l (columns d) ->
               In l (columns
                       (fold_left
                          (fun df col =>
                             if negb (str_in col (columns df))
                             then setitem col (repeat VNone (nrows df)) df
                             else df) cols0 d))).
    { induction cols0 as [|c0 r0 IH0]; intros d l Hl; [exact Hl|].
      cbn [fold_left]. apply IH0.
      destruct (str_in c0 (columns d)); cbn [negb]; [exact Hl|].
      apply In_columns_setitem. now left. }
    now apply Hmono.
Qed.

(** X18 ([datasets.normalize_and_prepare_df], lines 46 to 49): a frame
    with a [name] column and neither [firstname] nor [lastname] gets the
    two columns appended.  A name is stripped and split at its first
    space: the text before it is the first name, the text after it the
    last name.  A name without a space is the first name as a whole; its
    last name is the empty string when no name of the sheet has a space,
    and null otherwise. *)
Theorem split_name_splits_at_the_first_space (df : frame) (names : list value) :
  getitem "name" df = Ok names ->
  names <> [] ->
  str_in "firstname" (columns df) = false ->
  str_in "lastname" (columns df) = false ->
  exists df' firsts lasts,
    split_name df = Ok df'
    /\ columns df' = columns df ++ ["firstname"; "lastname"]
    /\ getitem "firstname" df' = Ok firsts
    /\ getitem "lastname" df' = Ok lasts
    /\ forall i v, nth_error names i = Some v ->
         (forall a b,
            strip (str v) = (a ++ String " " b)%string ->
            (forall c, In c (list_ascii_of_string a) -> c <> " "%char) ->
            nth_error firsts i = Some (VStr a)
            /\ nth_error lasts i = Some (VStr b))
         /\ ((forall c, In c (list_ascii_of_string (strip (str v))) ->
                c <> " "%char) ->
             nth_error firsts i = Some (VStr (strip (str v)))
             /\ ((forall v' c, In v' names ->
                    In c (list_ascii_of_string (strip (str v'))) ->
                    c <> " "%char) ->
                 nth_error lasts i = Some (VStr ""))
             /\ ((exists v' a b, In v' names
                               /\ strip (str v') = (a ++ String " " b)%string) ->
                 nth_error lasts i = Some VNone)).
Proof.
  intros Hname Hne Hfirst Hlast.
  assert (Hin : str_in "name" (columns df) = true).
  { destruct (str_in "name" (columns df)) eqn:E; [reflexivity|].
    unfold getitem in Hname. unfold columns in E.
    rewrite (filter_label_absent _ _ E) in Hname. discriminate. }
  pose (name_split := map (fun v => split_once (strip (str v))) names).
  pose (firsts := map (fun p : string * option string => VStr (fst p))
                    name_split).
  pose (lasts :=
          if existsb (fun p : string * option string =>
                        match snd p with Some _ => true | None => false end)
               name_split
          then map (fun p : string * option string =>
                      match snd p with Some l => VStr l | None => VNone end)
                 name_split
          else map (fun _ : string * option string => VStr "") name_split).
  exists (setitem "lastname" lasts (setitem "firstname" firsts df)), firsts, lasts.
  assert (Hsn : split_name df
                = Ok (setitem "lastname" lasts (setitem "firstname" firsts df))).
  { unfold split_name. rewrite Hin, Hfirst. cbn [negb orb andb].
    rewrite Hname. cbn [and_then]. cbv zeta.
    destruct names as [|v0 vs]; [now destruct Hne | reflexivity]. }
  assert (Hlast' : str_in "lastname" (columns (setitem "firstname" firsts df))
                   = false).
  { rewrite columns_setitem, Hfirst. unfold str_in in *.
    rewrite existsb_app, Hlast. reflexivity. }
  split; [exact Hsn|]. split.
  { rewrite columns_setitem, Hlast', columns_setitem, Hfirst.
    now rewrite <- app_assoc. }
  split.
  { rewrite getitem_setitem_other by discriminate.
    now apply getitem_setitem_new. }
  split; [now apply getitem_setitem_new|].
  intros i v Hi.
  assert (Hsp : nth_error name_split i = Some (split_once (strip (str v)))).
  { unfold name_split. now rewrite nth_error_map, Hi. }
  assert (Hf : nth_error firsts i
               = Some (VStr (fst (split_once (strip (str v)))))).
  { unfold firsts. now rewrite nth_error_map, Hsp. }
  assert (Hsome : forall v' a b, In v' names ->
                    strip (str v') = (a ++ String " " b)%string ->
                    existsb (fun p : string * option string =>
                               match snd p with Some _ => true | None => false end)
                      name_split = true).
  { intros v' a b Hv' Hs. apply existsb_exists.
    exists (split_once (strip (str v'))). split.
    - unfold name_split. apply in_map_iff. now exists v'.
    - destruct (snd (split_once (strip (str v')))) eqn:E; [reflexivity|].
      exfalso. apply (split_once_second _ E " "%char); [|reflexivity].
      rewrite Hs. clear. induction a as [|c r IH]; [now left | now right]. }
  split.
  - intros a b Hs Ha. rewrite Hf, Hs, (split_once_at a b Ha). cbn [fst].
    split; [reflexivity|].
    unfold lasts. rewrite (Hsome v a b (nth_error_In _ _ Hi) Hs).
    now rewrite nth_error_map, Hsp, Hs, (split_once_at a b Ha).
  - intros Hs. rewrite Hf, (split_once_spaceless _ Hs). cbn [fst].
    split; [reflexivity|]. split.
    + intros Hall. unfold lasts.
      assert (E : existsb (fun p : string * option string =>
                             match snd p with Some _ => true | None => false end)
                    name_split = false).
      { destruct (existsb _ name_split) eqn:E; [|reflexivity].
        apply existsb_exists in E. destruct E as (p & Hp & Hsnd).
        unfold name_split in Hp. apply in_map_iff in Hp.
        destruct Hp as (v' & <- & Hv').
        rewrite (split_once_spaceless (strip (str v'))) in Hsnd;
          [discriminate|]. intros c Hc. now apply (Hall v'). }
      rewrite E. now rewrite nth_error_map, Hsp.
    + intros (v' & a & b & Hv' & Hs'). unfold lasts.
      rewrite (Hsome v' a b Hv' Hs').
      now rewrite nth_error_map, Hsp, (split_once_spaceless _ Hs).
Qed.

(** X19 ([datasets.normalize_and_prepare_df]): a sheet whose labels are
    distinct once stripped, lower-cased and renamed, and which has a row
    or no [name] column, is normalized without an error, whichever of the
    required columns it lacks, and the frame returned has a row for each
    row of the sheet. *)
Theorem normalize_and_prepare_df_keeps_every_row (sheet : frame) :
  NoDup (columns (rename_columns sheet)) ->
  (forall c, In c (series sheet) -> List.length (snd c) = nrows sheet) ->
  nrows sheet <> 0%nat \/ str_in "name" (columns (rename_columns sheet)) = false ->
  exists df,
    normalize_and_prepare_df sheet = Ok df
    /\ List.length df = nrows sheet.
Proof.
  intros Hnd Hwf Hrows.
  unfold normalize_and_prepare_df. cbv zeta.
  set (df1 := rename_columns sheet) in *.
  assert (Hn1 : nrows df1 = nrows sheet) by reflexivity.
  assert (Hsplit : exists df2, split_name df1 = Ok df2
                               /\ NoDup (columns df2)
                               /\ nrows df2 = nrows sheet).
  { unfold split_name.
    destruct (str_in "name" (columns df1)) eqn:En; cbn [andb];
      [|exists df1; auto].
    destruct (negb (str_in "firstname" (columns df1))
              || negb (str_in "lastname" (columns df1))); [|exists df1; auto].
    destruct (getitem_NoDup "name" df1 Hnd) as (names & Hg & Hin);
      [now apply str_in_In|].
    rewrite Hg. cbn [and_then]. cbv zeta.
    assert (Hlen : List.length names = nrows sheet).
    { unfold df1, rename_columns in Hin. cbn [series] in Hin.
      apply in_map_iff in Hin. destruct Hin as (c & Hc & Hin).
      inversion Hc; subst. now apply Hwf. }
    destruct names as [|v vs].
    { exfalso. destruct Hrows as [Hr|Hr]; [|congruence].
      apply Hr. now rewrite <- Hlen. }
    cbn [map]. eexists. split; [reflexivity|].
    split; [now apply NoDup_setitem, NoDup_setitem|].
    now rewrite !nrows_setitem. }
  destruct Hsplit as (df2 & -> & Hnd2 & Hn2). cbn [and_then].
  destruct (add_required_columns df2 Hnd2) as (Hnd3 & Hn3 & Hall).
  set (df3 := add_required df2) in *.
  assert (Hget : forall col, In col required_cols ->
                   exists cells, getitem col df3 = Ok cells).
  { intros col Hcol.
    destruct (getitem_NoDup col df3 Hnd3 (Hall col Hcol)) as (cells & Hg & _).
    now exists cells. }
  unfold required_rows.
  destruct (Hget "firstname") as (c1 & ->); [cbn; tauto|].
  destruct (Hget "lastname") as (c2 & ->); [cbn; tauto|].
  destruct (Hget "sex") as (c3 & ->); [cbn; tauto|].
  destruct (Hget "program") as (c4 & ->); [cbn; tauto|].
  destruct (Hget "municipality") as (c5 & ->); [cbn; tauto|].
  destruct (Hget "income") as (c6 & ->); [cbn; tauto|].
  destruct (Hget "shs_type") as (c7 & ->); [cbn; tauto|].
  destruct (Hget "shs_origin") as (c8 & ->); [cbn; tauto|].
  destruct (Hget "gwa") as (c9 & ->); [cbn; tauto|].
  cbn [and_then]. eexists. split; [reflexivity|].
  match goal with
  | |- List.length (prepare_rows ?rows) = _ =>
      pose proof (f_equal (@List.length _) (prepare_rows_view rows)) as Hv
  end.
  rewrite !length_map in Hv. rewrite Hv, length_seq. congruence.
Qed.

End Headers.

Lemma split_name_splits_at_the_first_space_witness :
  let df := mkFrame 2 [("name", [VStr " Ana Maria Cruz "; VStr "Ben"]);
                       ("gwa", [VNum 90; VNum 85])] in
  exists df' firsts lasts,
    split_name (C := reference) df = Ok df'
    /\ columns df' = columns df ++ ["firstname"; "lastname"]
    /\ getitem "firstname" df' = Ok firsts
    /\ getitem "lastname" df' = Ok lasts
    /\ forall i v, nth_error [VStr " Ana Maria Cruz "; VStr "Ben"] i = Some v ->
         (forall a b,
            strip (str (C := reference) v) = (a ++ String " " b)%string ->
            (forall c, In c (list_ascii_of_string a) -> c <> " "%char) ->
            nth_error firsts i = Some (VStr a)
            /\ nth_error lasts i = Some (VStr b))
         /\ ((forall c, In c (list_ascii_of_string
                                (strip (str (C := reference) v))) ->
                c <> " "%char) ->
             nth_error firsts i = Some (VStr (strip (str (C := reference) v)))
             /\ ((forall v' c, In v' [VStr " Ana Maria Cruz "; VStr "Ben"] ->
                    In c (list_ascii_of_string
                            (strip (str (C := reference) v'))) ->
                    c <> " "%char) ->
                 nth_error lasts i = Some (VStr ""))
             /\ ((exists v' a b, In v' [VStr " Ana Maria Cruz "; VStr "Ben"]
                               /\ strip (str (C := reference) v')
                                  = (a ++ String " " b)%string) ->
                 nth_error lasts i = Some VNone)).
Proof.
  intros df.
  refine (split_name_splits_at_the_first_space (C := reference) df
            [VStr " Ana Maria Cruz "; VStr "Ben"] eq_refl _ eq_refl eq_refl).
  discriminate.
Defined.

(** The two names of the witness, split. *)
Example split_name_of_two_names :
  let df := mkFrame 2 [("name", [VStr " Ana Maria Cruz "; VStr "Ben"]);
                       ("gwa", [VNum 90; VNum 85])] in
  and_then (split_name (C := reference) df) (getitem "firstname")
  = Ok [VStr "Ana"; VStr "Ben"]
  /\ and_then (split_name (C := reference) df) (getitem "lastname")
     = Ok [VStr "Maria Cruz"; VNone].
Proof. vm_compute. split; reflexivity. Qed.

Lemma normalize_and_prepare_df_keeps_every_row_witness :
  let sheet := mkFrame 2 [(" Student Name", [VStr "Ana Cruz"; VStr "Ben Diaz"]);
                          ("GWA ", [VNum 90; VNum 85])] in
  exists df,
    normalize_and_prepare_df (C := reference) sheet = Ok df
    /\ List.length df = nrows sheet.
Proof.
  intros sheet.
  refine (normalize_and_prepare_df_keeps_every_row (C := reference) sheet _ _ _).
  - vm_compute. repeat constructor; simpl; intuition discriminate.
  - intros c [<-|[<-|[]]]; reflexivity.
  - left. discriminate.
Defined.

(** ** The playground *)

Section Playground.
Context {C : Collaborators}.

Lemma attach_clusters_inv (dfc : list encoded_student) (preds : list Z)
  (out : list (encoded_student * Z)) :
  attach_clusters dfc preds = Ok out ->
  map fst out = dfc /\ map snd out = preds.
Proof.
  revert preds out. induction dfc as [|row rest IH]; intros preds out H;
    destruct preds as [|p ps]; cbn [attach_clusters] in H; try discriminate.
  - inversion H. now split.
  - destruct (attach_clusters rest ps) as [o|] eqn:E; [|discriminate].
    inversion H; subst out. destruct (IH _ _ E) as [Hf Hs].
    cbn [map fst snd]. now rewrite Hf, Hs.
Qed.

Lemma mapR_Forall2 {A B : Type} (f : A -> result B) (l : list A) (out : list B) :
  mapR f l = Ok out -> Forall2 (fun a b => f a = Ok b) l out.
Proof.
  revert out. induction l as [|a l IH]; intros out H; cbn [mapR] in H.
  - inversion H. constructor.
  - destruct (f a) as [b|] eqn:Ea; [|discriminate].
    destruct (mapR f l) as [bs|]; [|discriminate].
    inversion H. constructor; [exact Ea | now apply IH].
Qed.

Lemma feature_matrix_shape (dfc : list encoded_student)
  (cols : list column_name) (X : list (list Q)) :
  feature_matrix dfc cols = Ok X ->
  List.length X = List.length dfc
  /\ Forall (fun x => List.length x = List.length cols) X.
Proof.
  unfold feature_matrix. intros H. split; [now apply mapR_length in H|].
  apply mapR_Forall2 in H. induction H as [|r x rs xs Hr _ IH]; constructor.
  - now apply mapR_length in Hr.
  - exact IH.
Qed.

(** What an answer of the playground holds. *)
Lemma cluster_playground_inv (k : Z) (u : user) (w : world)
  (r : result response) (w' : world) :
  cluster_playground k u w = (r, w') ->
  db w' = db w /\ tasks w' = tasks w
  /\ (str_in (role u) ["Admin"; "Viewer"] = false ->
      r = Raise (HTTPException 403 "Unauthorized role") /\ w' = w)
  /\ forall resp, r = Ok resp ->
       exists latest X out centroids,
         resp = PlaygroundResult out centroids
         /\ latest_dataset (datasets (db w)) = Some latest
         /\ k <= len (select_students (db w) (ds_id latest))
         /\ feature_matrix
              (filter_complete_students_df
                 (encode_categorical_safe
                    (DataFrame (select_students (db w) (ds_id latest)))
                    categorical_cols))
              [ColGwa; ColIncome] = Ok X
         /\ cluster_engine X k = Some (map snd out, centroids)
         /\ map fst out
            = filter_complete_students_df
                (encode_categorical_safe
                   (DataFrame (select_students (db w) (ds_id latest)))
                   categorical_cols)
         /\ out <> []
         /\ fits w' = fits w ++ [(X, k)].
Proof.
  unfold cluster_playground. cbv zeta.
  destruct (str_in (role u) ["Admin"; "Viewer"]) eqn:Hrole; cbn [negb].
  2:{ intros H. inversion H; subst. repeat split; intros; discriminate. }
  intros E.
  assert (Hfail : forall (e : exn) (w0 : world),
             db w0 = db w -> tasks w0 = tasks w -> (Raise e, w0) = (r, w') ->
             db w' = db w /\ tasks w' = tasks w
             /\ (true = false -> r = Raise (HTTPException 403 "Unauthorized role")
                                 /\ w' = w)
             /\ forall resp, r = Ok resp ->
                  exists latest X out centroids,
                    resp = PlaygroundResult out centroids
                    /\ latest_dataset (datasets (db w)) = Some latest
                    /\ k <= len (select_students (db w) (ds_id latest))
                    /\ feature_matrix
                         (filter_complete_students_df
                            (encode_categorical_safe
                               (DataFrame (select_students (db w) (ds_id latest)))
                               categorical_cols))
                         [ColGwa; ColIncome] = Ok X
                    /\ cluster_engine X k = Some (map snd out, centroids)
                    /\ map fst out
                       = filter_complete_students_df
                           (encode_categorical_safe
                              (DataFrame (select_students (db w) (ds_id latest)))
                              categorical_cols)
                    /\ out <> []
                    /\ fits w' = fits w ++ [(X, k)]).
  { intros e w0 Hd Ht H. inversion H; subst.
    split; [assumption|]. split; [assumption|].
    split; intros; discriminate. }
  apply bind_inv in E. destruct E as [(conn & w0 & E0 & E)|(e & E0 & ->)];
    destruct (get_db_connection_inv _ _ _ E0) as (Hdb0 & Hf0 & Ht0 & Hconn);
    [|now apply (Hfail e w' Hdb0 Ht0)].
  destruct Hconn as [Hc|Hc]; inversion Hc; subst conn; clear Hc;
    [|now apply (Hfail _ _ Hdb0 Ht0 E)].
  destruct (latest_dataset (datasets (db w))) as [latest|];
    [|now apply (Hfail _ _ Hdb0 Ht0 E)].
  destruct (is_empty (select_students (db w) (ds_id latest)));
    [now apply (Hfail _ _ Hdb0 Ht0 E)|].
  destruct (len (select_students (db w) (ds_id latest)) <? k) eqn:Hk;
    [now apply (Hfail _ _ Hdb0 Ht0 E)|].
  apply Z.ltb_ge in Hk.
  destruct (filter_complete_students_df _) as [|r0 rest] eqn:Hdfc;
    cbn [is_empty] in E; [now apply (Hfail _ _ Hdb0 Ht0 E)|].
  apply bind_inv in E. destruct E as [(X & w1 & E1 & E)|(e & E1 & ->)];
    apply lift_inv in E1; destruct E1 as [E1 ->];
    [|exact (Hfail _ _ Hdb0 Ht0 eq_refl)].
  apply bind_inv in E. destruct E as [(fitted & w2 & E2 & E)|(e & E2 & ->)];
    destruct (fit_inv _ _ _ _ _ E2) as (Hdb2 & _ & Ht2 & Hf2 & Hfit);
    [|apply (Hfail e w'); congruence].
  specialize (Hfit fitted eq_refl).
  apply bind_inv in E. destruct E as [(out & w3 & E3 & E)|(e & E3 & ->)];
    apply lift_inv in E3; destruct E3 as [E3 ->];
    [|refine (Hfail _ _ _ _ eq_refl); congruence].
  inversion E; subst r w'. clear E.
  split; [congruence|]. split; [congruence|]. split; [discriminate|].
  intros resp Hresp. inversion Hresp; subst resp. clear Hresp.
  symmetry in E1, E3.
  destruct (attach_clusters_inv _ _ _ E3) as [Hfst Hsnd].
  exists latest, X, out, (snd fitted). rewrite Hdfc.
  split; [reflexivity|]. split; [reflexivity|]. split; [exact Hk|].
  split; [exact E1|]. split.
  { rewrite Hsnd, <- surjective_pairing. exact Hfit. }
  split; [exact Hfst|]. split.
  { intros ->. discriminate. }
  rewrite Hf2, Hf0. reflexivity.
Qed.

(** X20 ([cluster_playground.cluster_playground]): the playground writes
    nothing and schedules nothing, for an Admin as for a Viewer.  With an
    engine that gives one label in [0, k) per row and k centroids, an
    answer lists exactly the complete students of the latest dataset, in
    stored order and at least one, each with a label in [0, k), and k
    centroids; it comes from one fit, on a matrix with one row per listed
    student and the two columns gwa and income. *)
Theorem cluster_playground_labels_the_complete_students (k : Z) (u : user)
  (w : world) (out : list (encoded_student * Z)) (centroids : list (list Q))
  (w' : world) :
  engine_sound C ->
  cluster_playground k u w = (Ok (PlaygroundResult out centroids), w') ->
  exists latest X,
    latest_dataset (datasets (db w)) = Some latest
    /\ map (fun p => es_student (fst p)) out
       = filter (fun s => is_record_complete_row (st_info s))
           (select_students (db w) (ds_id latest))
    /\ out <> []
    /\ Forall (fun p => 0 <= snd p < k) out
    /\ len centroids = k
    /\ db w' = db w /\ tasks w' = tasks w
    /\ fits w' = fits w ++ [(X, k)]
    /\ List.length X = List.length out
    /\ Forall (fun x => List.length x = 2%nat) X.
Proof.
  intros Hsound E.
  destruct (cluster_playground_inv _ _ _ _ _ E) as (Hdb & Ht & _ & Hok).
  destruct (Hok _ eq_refl)
    as (latest & X & out0 & cs & Hresp & Hlatest & _ & HX & Hfit & Hfst & Hne & Hfits).
  inversion Hresp; subst out0 cs. clear Hresp Hok.
  destruct (Hsound _ _ _ _ Hfit) as (Hlen & Hrange & Hcent).
  destruct (feature_matrix_shape _ _ _ HX) as (HlenX & Hwidth).
  exists latest, X. split; [exact Hlatest|]. split.
  { rewrite <- (map_map fst es_student), Hfst. apply df_complete_students. }
  split; [exact Hne|]. split.
  { apply Forall_map in Hrange. exact Hrange. }
  split; [exact Hcent|]. split; [exact Hdb|]. split; [exact Ht|].
  split; [exact Hfits|]. split; [|exact Hwidth].
  rewrite HlenX, <- Hfst. now rewrite length_map.
Qed.

(** X21 ([cluster_playground.cluster_playground]): a caller whose role is
    neither Admin nor Viewer is refused with status 403 on the first line
    of the body: no connection is opened and no fit is run.  The bounds
    of the route on [k] come before the body: outside 2..10 the call is
    answered with status 422 and the world is untouched. *)
Theorem cluster_playground_checks_the_role_first (k : Z) (u : user) (w : world) :
  (role u <> "Admin" -> role u <> "Viewer" ->
   cluster_playground k u w = (Raise (HTTPException 403 "Unauthorized role"), w))
  /\ (k < 2 \/ 10 < k ->
      get_playground k u w
      = (Raise (HTTPException 422 "Input should be between 2 and 10"), w))
  /\ (2 <= k <= 10 -> get_playground k u w = cluster_playground k u w).
Proof.
  split; [|split].
  - intros Ha Hv. unfold cluster_playground, str_in. cbn [existsb].
    destruct (String.eqb_spec (role u) "Admin") as [E|_]; [contradiction|].
    destruct (String.eqb_spec (role u) "Viewer") as [E|_]; [contradiction|].
    reflexivity.
  - intros Hk. unfold get_playground.
    destruct Hk as [Hk|Hk].
    + apply Z.ltb_lt in Hk. now rewrite Hk.
    + apply Z.ltb_lt in Hk. rewrite Hk. now rewrite orb_true_r.
  - intros [H2 H10]. unfold get_playground.
    apply Z.ltb_ge in H2. apply Z.ltb_ge in H10. now rewrite H2, H10.
Qed.

End Playground.

Lemma cluster_playground_labels_the_complete_students_witness :
  let w := world_of (after_upload "a.csv" sheet3 2 100 empty_store) in
  let out := cluster_playground (C := reference) 2 viewer w in
  exists students_out centroids latest X,
    fst out = Ok (PlaygroundResult students_out centroids)
    /\ latest_dataset (datasets (db w)) = Some latest
    /\ map (fun p => es_student (fst p)) students_out
       = filter (fun s => @is_record_complete_row reference (st_info s))
           (select_students (db w) (ds_id latest))
    /\ students_out <> []
    /\ Forall (fun p => 0 <= snd p < 2) students_out
    /\ len centroids = 2
    /\ db (snd out) = db w /\ tasks (snd out) = tasks w
    /\ fits (snd out) = fits w ++ [(X, 2)]
    /\ List.length X = List.length students_out
    /\ Forall (fun x => List.length x = 2%nat) X.
Proof.
  intros w out.
  destruct (fst out) as [[| | students_out centroids | |]|] eqn:E;
    try (exfalso; vm_compute in E; discriminate).
  exists students_out, centroids.
  destruct (cluster_playground_labels_the_complete_students (C := reference)
              2 viewer w students_out centroids (snd out)
              reference_engine_sound)
    as (latest & X & H).
  - rewrite <- E. apply surjective_pairing.
  - exists latest, X. split; [reflexivity | exact H].
Defined.

(** The playground on an upload of three complete rows: three labels,
    two centroids, nothing written. *)
Example playground_of_three_rows :
  let w := world_of (after_upload "a.csv" sheet3 2 100 empty_store) in
  match cluster_playground (C := reference) 2 viewer w with
  | (Ok (PlaygroundResult students_out centroids), w') =>
      map snd students_out = [0; 1; 0]
      /\ len centroids = 2 /\ db w' = db w
  | _ => False
  end.
Proof. vm_compute. repeat split. Qed.

Lemma cluster_playground_checks_the_role_first_witness :
  (role guest <> "Admin" -> role guest <> "Viewer" ->
   cluster_playground (C := reference) 3 guest (world_of empty_store)
   = (Raise (HTTPException 403 "Unauthorized role"), world_of empty_store))
  /\ (11 < 2 \/ 10 < 11 ->
      get_playground (C := reference) 11 guest (world_of empty_store)
      = (Raise (HTTPException 422 "Input should be between 2 and 10"),
         world_of empty_store))
  /\ (2 <= 11 <= 10 ->
      get_playground (C := reference) 11 guest (world_of empty_store)
      = cluster_playground (C := reference) 11 guest (world_of empty_store)).
Proof.
  exact (cluster_playground_checks_the_role_first (C := reference) 11 guest
           (world_of empty_store)).
Defined.
